(** * Digital dash gauge cluster: the calibration-driven angle engine

    A shallow embedding of the value-to-angle code of the gauge cluster:

    - [src/src/angle_calculator.py]      (module [AngleCalc]),
    - [src/src/calibration_utils.py]     (module [CalibrationUtils]),
    - [src/backups/base_model_2026-02-09/image_gauge.py] (module [ImageGauge]):
      loading a calibration, the named needles and the sizing of a painted
      needle.

    Python floats are modelled as exact rationals ([Q]): every arithmetic
    operation is the exact one, comparisons are the rational ones, and
    [==] on floats is [Qeq].  Rounding, infinities and NaN are outside the
    model.  The two library functions that leave the rationals,
    [math.degrees (math.atan2 (dy, dx))] and [x ** 0.5], are parameters of
    the sections that use them.

    Objects are records, and a method takes the object and returns the
    updated one.  Exceptions are explicit ([res]); a [while] loop runs on
    fuel.  Logging and the repaint request [self.update()] change nothing
    the code reads back and are left out, as is the painting itself: of a
    painted needle the model keeps the size and the rotation. *)

From Stdlib Require Import QArith Qround Qabs Qpower Lqa Lia ZArith.
From stdpp Require Import base decidable option list gmap strings sorting.

Open Scope Q_scope.

(** ** Python values and control effects *)

(** The exceptions the modelled code can raise. *)
Inductive exn : Set := ZeroDivisionError | IndexError | KeyError.

(** Outcome of running a piece of Python: a value, a raised exception, or
    [OutOfFuel] when a [while] loop was cut after the allotted number of
    iterations (the model's only source of partiality). *)
Inductive res (A : Type) : Type :=
| Ok (a : A)
| Raise (e : exn)
| OutOfFuel.

Arguments Ok {A} a.
Arguments Raise {A} e.
Arguments OutOfFuel {A}.

Notation "'let*' x ':=' m 'in' k" :=
  (match m with
   | Ok x => k
   | Raise e => Raise e
   | OutOfFuel => OutOfFuel
   end)
  (at level 10, x name, m at level 100, k at level 200,
   format "'[v' 'let*'  x  ':='  m  'in' '/' k ']'").

(** [returns m a]: the fuelled computation [m] finishes with value [a] as
    soon as its loops are given enough iterations. *)
Definition returns {A : Type} (m : nat -> res A) (a : A) : Prop :=
  exists n : nat, forall fuel : nat, (n <= fuel)%nat -> m fuel = Ok a.

#[export] Instance Qle_dec : RelDecision Qle :=
  fun x y => match Qlt_le_dec y x with
             | left H => right (Qlt_not_le _ _ H)
             | right H => left H
             end.

#[export] Instance Qlt_dec : RelDecision Qlt :=
  fun x y => match Qlt_le_dec x y with
             | left H => left H
             | right H => right (Qle_not_lt _ _ H)
             end.

#[export] Instance Qeq_dec' : RelDecision Qeq := Qeq_dec.

Module Py.

(** [x % m] on floats: the result has the sign of [m];
    [x % m = x - m * floor (x / m)].  This is the exact value, which
    lies below [m]; the float the code computes is its rounding, and
    for a tiny negative [x] that is [m] itself. *)
Definition mod_ (x m : Q) : Q := x - m * inject_Z (Qfloor (x / m)).

(** [x / y] on floats. *)
Definition div (x y : Q) : res Q :=
  if decide (y == 0) then Raise ZeroDivisionError else Ok (x / y).

(** [int(x)]: truncation toward zero.  On an infinity or a NaN, which
    a float product can overflow to, Python's [int] raises; these values
    and that exception are outside the model. *)
Definition int (x : Q) : Z :=
  if decide (0 <= x) then Qfloor x else Qceiling x.

(** [min(a, b)] and [max(a, b)] with two arguments: the first argument
    is kept unless the second is strictly smaller (larger). *)
Definition min (a b : Q) : Q := if decide (b < a) then b else a.
Definition max (a b : Q) : Q := if decide (a < b) then b else a.

(** [l[i]] for [i >= 0]. *)
Definition getitem {A : Type} (l : list A) (i : nat) : res A :=
  match l !! i with
  | Some x => Ok x
  | None => Raise IndexError
  end.

(** [l[-1]]. *)
Definition getlast {A : Type} (l : list A) : res A :=
  match last l with
  | Some x => Ok x
  | None => Raise IndexError
  end.

(** [sum(l)]: left to right, starting from [0]. *)
Definition sum (l : list Q) : Q := fold_left Qplus l 0.

(** Truthiness of a float and of an optional float ([None] is falsy). *)
Definition truthy (x : Q) : bool := bool_decide (~ x == 0).
Definition truthy_opt (x : option Q) : bool :=
  match x with
  | Some v => truthy v
  | None => false
  end.

(** [l.sort(key=...)]: Python's sort is stable, so elements with equal
    keys keep their relative order.  The stably sorted arrangement of a
    list is unique; insertion from the right computes it. *)
Section Sort.
Context {A : Type} (key : A -> Q).

(** The order the sort establishes. *)
Definition le_by (a b : A) : Prop := key a <= key b.

Fixpoint insert_by (x : A) (l : list A) : list A :=
  match l with
  | [] => [x]
  | y :: l' => if decide (key x <= key y) then x :: y :: l'
               else y :: insert_by x l'
  end.

Fixpoint sort_by (l : list A) : list A :=
  match l with
  | [] => []
  | x :: l' => insert_by x (sort_by l')
  end.
End Sort.

End Py.

(** ** angle_calculator.py *)

Module AngleCalc.

(** [@dataclass CalibrationPoint]: pixel position with associated value. *)
Record CalibrationPoint : Type := mkPoint { x : Q; y : Q; value : Q }.

(** [class AngleCalculator]. *)
Record AngleCalculator : Type := mkCalc {
  gauge_pivot_x : Q;
  gauge_pivot_y : Q;
  calibration_points : list CalibrationPoint
}.

(** [AngleCalculator.__init__]. *)
Definition init (gx gy : Q) : AngleCalculator := mkCalc gx gy [].

(** [add_point]: append, then sort by value. *)
Definition add_point (self : AngleCalculator) (px py v : Q) : AngleCalculator :=
  mkCalc (gauge_pivot_x self) (gauge_pivot_y self)
         (Py.sort_by value (calibration_points self ++ [mkPoint px py v])).

(** An entry of the list handed to [points_from_list]: a JSON object
    whose keys ['x'], ['y'], ['value'] may be missing. *)
Record point_dict : Type := mkDict {
  d_x : option Q;
  d_y : option Q;
  d_value : option Q
}.

(** [p[key]] on such an object. *)
Definition getkey (field : option Q) : res Q :=
  match field with
  | Some q => Ok q
  | None => Raise KeyError
  end.

(** The loop of [points_from_list]: [add_point] each entry in turn.  A
    missing key raises [KeyError] and leaves the store as the earlier
    entries filled it. *)
Fixpoint points_from_list_loop (self : AngleCalculator)
    (points : list point_dict) : AngleCalculator * res unit :=
  match points with
  | [] => (self, Ok tt)
  | p :: points' =>
      match (let* px := getkey (d_x p) in
             let* py := getkey (d_y p) in
             let* v := getkey (d_value p) in
             Ok (add_point self px py v)) with
      | Ok self' => points_from_list_loop self' points'
      | Raise e => (self, Raise e)
      | OutOfFuel => (self, OutOfFuel)
      end
  end.

(** [points_from_list]: reset the store, then run the loop. *)
Definition points_from_list (self : AngleCalculator)
    (points : list point_dict) : AngleCalculator * res unit :=
  points_from_list_loop
    (mkCalc (gauge_pivot_x self) (gauge_pivot_y self) []) points.

(** The object [{'x': px, 'y': py, 'value': v}]. *)
Definition dict_of (px py v : Q) : point_dict :=
  mkDict (Some px) (Some py) (Some v).

(** The first unwrap loop at index [i]:
    [while angles[i] - angles[i - 1] > 180: angles[i] -= 360].  The
    loops are run for [i >= 1] only, where [i - 1] is a plain index. *)
Fixpoint while_gt (fuel : nat) (angles : list Q) (i : nat) : res (list Q) :=
  let* ai := Py.getitem angles i in
  let* ap := Py.getitem angles (i - 1) in
  if decide (180 < ai - ap) then
    match fuel with
    | O => OutOfFuel
    | S fuel' => while_gt fuel' (<[i := ai - 360]> angles) i
    end
  else Ok angles.

(** The second unwrap loop at index [i]:
    [while angles[i] - angles[i - 1] < -180: angles[i] += 360]. *)
Fixpoint while_lt (fuel : nat) (angles : list Q) (i : nat) : res (list Q) :=
  let* ai := Py.getitem angles i in
  let* ap := Py.getitem angles (i - 1) in
  if decide (ai - ap < -180) then
    match fuel with
    | O => OutOfFuel
    | S fuel' => while_lt fuel' (<[i := ai + 360]> angles) i
    end
  else Ok angles.

(** [for i in range(1, len(angles)): <both loops>], over the indices
    still to be visited. *)
Fixpoint unwrap_for (fuel : nat) (angles : list Q) (idx : list nat)
    : res (list Q) :=
  match idx with
  | [] => Ok angles
  | i :: idx' =>
      let* a1 := while_gt fuel angles i in
      let* a2 := while_lt fuel a1 i in
      unwrap_for fuel a2 idx'
  end.

(** The unwrap step of [value_to_angle] (lines 97-102) on the list
    [angles], which it rewrites in place. *)
Definition unwrap (fuel : nat) (angles : list Q) : res (list Q) :=
  unwrap_for fuel angles (seq 1 (length angles - 1)).

Section WithAtan2.

(** [atan2_degrees dy dx] stands for
    [math.degrees (math.atan2 (dy, dx))]. *)
Variable atan2_degrees : Q -> Q -> Q.

(** [calculate_angle_to_point]. *)
Definition calculate_angle_to_point
    (gauge_pivot_x gauge_pivot_y point_x point_y : Q) : Q :=
  let dy := point_y - gauge_pivot_y in
  let dx := point_x - gauge_pivot_x in
  let angle_degrees := atan2_degrees dy dx in
  if decide (angle_degrees < 0) then angle_degrees + 360
  else angle_degrees.

(** The bearing of a calibration point as seen from the gauge pivot. *)
Definition bearing (self : AngleCalculator) (p : CalibrationPoint) : Q :=
  calculate_angle_to_point (gauge_pivot_x self) (gauge_pivot_y self)
                           (x p) (y p).

(** The bracket search of [value_to_angle]:
    [for i in range(len(points) - 1): ...], over the indices still to
    be visited; [Ok None] when the loop ends without returning. *)
Fixpoint bracket_for (points : list CalibrationPoint) (angles : list Q)
    (v : Q) (idx : list nat) : res (option Q) :=
  match idx with
  | [] => Ok None
  | i :: idx' =>
      let* p1 := Py.getitem points i in
      if decide (value p1 <= v) then
        let* p2 := Py.getitem points (i + 1) in
        if decide (v <= value p2) then
          if decide (value p2 == value p1) then
            let* ai := Py.getitem angles i in
            Ok (Some (Py.mod_ ai 360))
          else
            let* t := Py.div (v - value p1) (value p2 - value p1) in
            let* ai := Py.getitem angles i in
            let* aj := Py.getitem angles (i + 1) in
            let interp_angle := ai + t * (aj - ai) in
            Ok (Some (Py.mod_ interp_angle 360))
        else bracket_for points angles v idx'
      else bracket_for points angles v idx'
  end.

(** Lines 104-129 of [value_to_angle]: the look-up of [v] once the
    bearings are unwrapped. *)
Definition lookup_angle (points : list CalibrationPoint)
    (angles : list Q) (v : Q) : res Q :=
  let* p0 := Py.getitem points 0 in
  if decide (v <= value p0) then
    let* a0 := Py.getitem angles 0 in
    Ok (Py.mod_ a0 360)
  else
    let* pl := Py.getlast points in
    if decide (value pl <= v) then
      let* al := Py.getlast angles in
      Ok (Py.mod_ al 360)
    else
      let* found :=
        bracket_for points angles v (seq 0 (length points - 1)) in
      match found with
      | Some a => Ok a
      | None =>
          let* al := Py.getlast angles in
          Ok (Py.mod_ al 360)
      end.

(** [AngleCalculator.value_to_angle]: [0] without calibration points,
    else the bearings of the points are computed, unwrapped in place
    and looked up. *)
Definition value_to_angle (fuel : nat) (self : AngleCalculator) (v : Q)
    : res Q :=
  match calibration_points self with
  | [] => Ok 0
  | _ :: _ =>
      let points := calibration_points self in
      let* angles := unwrap fuel (bearing self <$> points) in
      lookup_angle points angles v
  end.

End WithAtan2.

(** [math.degrees (math.atan2 (dy, dx))] on the eight compass directions,
    where it is a whole number of degrees ([atan2 (0, 0)] is [0]).  Any
    other direction is sent to the compass direction of its signs; the
    examples below only use compass directions. *)
Definition atan2_degrees_compass (dy dx : Q) : Q :=
  match (dy ?= 0), (dx ?= 0) with
  | Eq, Eq => 0
  | Eq, Gt => 0
  | Gt, Gt => 45
  | Gt, Eq => 90
  | Gt, Lt => 135
  | Eq, Lt => 180
  | Lt, Lt => -135
  | Lt, Eq => -90
  | Lt, Gt => -45
  end.

(** *** Specification predicates *)

(** The calibration points are in ascending order of value. *)
Definition sorted_by_value (points : list CalibrationPoint) : Prop :=
  Sorted (Py.le_by value) points.

(** The calculators a program can build: a fresh one, changed by
    [add_point] and [points_from_list] only. *)
Inductive reachable : AngleCalculator -> Prop :=
| reach_init (gx gy : Q) : reachable (init gx gy)
| reach_add_point (self : AngleCalculator) (px py v : Q) :
    reachable self -> reachable (add_point self px py v)
| reach_points_from_list (self : AngleCalculator) (points : list point_dict) :
    reachable self -> reachable (points_from_list self points).1.

(** Loop invariant of the unwrap [for] loop once the indices below [j]
    are done: what [cur] holds relative to the raw bearings [raw]. *)
Definition unwrap_inv (j : nat) (raw cur : list Q) : Prop :=
  length cur = length raw /\
  cur !! 0%nat = raw !! 0%nat /\
  (forall i a r, cur !! i = Some a -> raw !! i = Some r ->
                 exists k : Z, a == r + 360 * inject_Z k) /\
  (forall i a b, (S i < j)%nat -> cur !! i = Some b -> cur !! S i = Some a ->
                 -180 <= a - b /\ a - b <= 180) /\
  (forall i, (j <= i)%nat -> cur !! i = raw !! i).

(** What the unwrap step guarantees about its result [u] for the raw
    bearings [raw]: same length, first entry untouched, every entry
    moved by whole turns, neighbours within half a turn. *)
Definition unwrapped (raw u : list Q) : Prop :=
  length u = length raw /\
  u !! 0%nat = raw !! 0%nat /\
  (forall i a r, u !! i = Some a -> raw !! i = Some r ->
                 exists k : Z, a == r + 360 * inject_Z k) /\
  (forall i a b, u !! i = Some b -> u !! S i = Some a ->
                 -180 <= a - b /\ a - b <= 180).

End AngleCalc.
(** ** calibration_utils.py *)

Module CalibrationUtils.

(** [@dataclass CalibrationPoint]: a value -> angle mapping. *)
Record CalibrationPoint : Type := mkPoint { value : Q; angle : Q }.

(** [class NeedleAngleCalculator]. *)
Record NeedleAngleCalculator : Type := mkCalc {
  calibration_points : list CalibrationPoint
}.

(** [_validate_points]: sort a non-empty store by value. *)
Definition _validate_points (self : NeedleAngleCalculator)
    : NeedleAngleCalculator :=
  match calibration_points self with
  | [] => self
  | _ :: _ => mkCalc (Py.sort_by value (calibration_points self))
  end.

(** [__init__]: [calibration_points or []], then [_validate_points]. *)
Definition init (points : option (list CalibrationPoint))
    : NeedleAngleCalculator :=
  _validate_points (mkCalc (default [] points)).

(** [add_point]. *)
Definition add_point (self : NeedleAngleCalculator) (v a : Q)
    : NeedleAngleCalculator :=
  _validate_points (mkCalc (calibration_points self ++ [mkPoint v a])).

(** [set_points], from a list of [(value, angle)] tuples. *)
Definition set_points (self : NeedleAngleCalculator) (points : list (Q * Q))
    : NeedleAngleCalculator :=
  _validate_points (mkCalc ((fun va => mkPoint va.1 va.2) <$> points)).

(** The interpolation loop of [value_to_angle]:
    [for i in range(len(self.calibration_points) - 1): ...], over the
    indices still to be visited; [Ok None] when the loop ends without
    returning. *)
Fixpoint interpolate_for (points : list CalibrationPoint) (v : Q)
    (idx : list nat) : res (option Q) :=
  match idx with
  | [] => Ok None
  | i :: idx' =>
      let* p1 := Py.getitem points i in
      let* p2 := Py.getitem points (i + 1) in
      if bool_decide (value p1 <= v) && bool_decide (v <= value p2) then
        let value_range := value p2 - value p1 in
        let angle_range := angle p2 - angle p1 in
        let angle_range :=
          if decide (180 < angle_range) then angle_range - 360
          else if decide (angle_range < -180) then angle_range + 360
          else angle_range in
        let* fraction := Py.div (v - value p1) value_range in
        let a := angle p1 + angle_range * fraction in
        let a := Py.mod_ a 360 in
        let a := if decide (a < 0) then a + 360 else a in
        Ok (Some a)
      else interpolate_for points v idx'
  end.

(** [NeedleAngleCalculator.value_to_angle]. *)
Definition value_to_angle (self : NeedleAngleCalculator) (v : Q) : res Q :=
  match calibration_points self with
  | [] => Ok 0
  | _ :: _ =>
      let points := calibration_points self in
      let* p0 := Py.getitem points 0 in
      if decide (v <= value p0) then Ok (angle p0)
      else
        let* pl := Py.getlast points in
        if decide (value pl <= v) then Ok (angle pl)
        else
          let* found :=
            interpolate_for points v (seq 0 (length points - 1)) in
          match found with
          | Some a => Ok a
          | None =>
              let* p0 := Py.getitem points 0 in
              Ok (angle p0)
          end
  end.

(** The preset calibrations. *)
Definition tachometer_calibration : NeedleAngleCalculator :=
  set_points (init None) [(0, 270); (5000, 135); (10000, 0)].

Definition speedometer_calibration : NeedleAngleCalculator :=
  set_points (init None) [(0, 240); (160, 90); (320, -60)].

Definition fuel_gauge_calibration : NeedleAngleCalculator :=
  set_points (init None) [(0, 180); (100, 90)].

Definition water_temp_calibration : NeedleAngleCalculator :=
  set_points (init None) [(50, 180); (90, 90); (130, 0)].

(** *** Specification predicates *)

(** The calibration points are in ascending order of value. *)
Definition sorted_by_value (points : list CalibrationPoint) : Prop :=
  Sorted (Py.le_by value) points.

(** The calculators a program can build: a fresh one, changed by
    [add_point] and [set_points] only. *)
Inductive reachable : NeedleAngleCalculator -> Prop :=
| reach_init (points : option (list CalibrationPoint)) :
    reachable (init points)
| reach_add_point (self : NeedleAngleCalculator) (v a : Q) :
    reachable self -> reachable (add_point self v a)
| reach_set_points (self : NeedleAngleCalculator) (points : list (Q * Q)) :
    reachable self -> reachable (set_points self points).

End CalibrationUtils.

(** ** image_gauge.py *)

Module ImageGauge.

(** *** State and exceptions threaded through a method body *)

(** A method body over the object state [S]: it returns the state as the
    assignments made so far left it, with a value or a raised exception. *)
Definition M (S A : Type) : Type := S -> S * res A.

Definition ret {S A : Type} (a : A) : M S A := fun s => (s, Ok a).

Definition bind {S A B : Type} (m : M S A) (k : A -> M S B) : M S B :=
  fun s => match m s with
           | (s', Ok a) => k a s'
           | (s', Raise e) => (s', Raise e)
           | (s', OutOfFuel) => (s', OutOfFuel)
           end.

(** An assignment to an attribute. *)
Definition assign {S : Type} (f : S -> S) : M S unit := fun s => (f s, Ok tt).

(** Reading the object. *)
Definition read {S A : Type} (f : S -> A) : M S A := fun s => (s, Ok (f s)).

(** A computation that may raise but does not touch the object. *)
Definition lift {S A : Type} (r : res A) : M S A := fun s => (s, r).

(** [if c: body] without [else]. *)
Definition when {S : Type} (c : bool) (body : M S unit) : M S unit :=
  if c then body else ret tt.

(** [try: body  except Exception: return a]. *)
Definition try_except {S A : Type} (body : M S A) (a : A) : M S A :=
  fun s => match body s with
           | (s', Raise _) => (s', Ok a)
           | other => other
           end.

Notation "'do' x '<-' m 'in' k" := (bind m (fun x => k))
  (at level 10, x name, m at level 100, k at level 200,
   format "'[v' 'do'  x  '<-'  m  'in' '/' k ']'").
Notation "'run' m 'in' k" := (bind m (fun _ => k))
  (at level 10, m at level 100, k at level 200,
   format "'[v' 'run'  m  'in' '/' k ']'").

(** *** Qt objects, as far as the code looks at them *)

(** A [QPixmap]: [isNull()], [width()], [height()]. *)
Record QPixmap : Type := mkPixmap { isNull : bool; width : Z; height : Z }.

(** A [QSvgRenderer]: the width and height of [defaultSize()]. *)
Record QSvgRenderer : Type := mkSvg { svg_width : Z; svg_height : Z }.

(** *** Calibration data read from the JSON configuration *)

(** One entry of ['needle_calibrations']; a key may be missing. *)
Record needle_cal : Type := mkCal {
  cal_gauge_pivot_x : option Q;
  cal_gauge_pivot_y : option Q;
  cal_needle_pivot_x : option Q;
  cal_needle_pivot_y : option Q;
  cal_needle_end_x : option Q;
  cal_needle_end_y : option Q;
  cal_calibration_points : option (list AngleCalc.point_dict);
  cal_needle_scale : option Q
}.

(** *** The gauge widget *)

(** An entry of [self.named_needles]: the dictionary
    [{'value': .., 'scale': .., 'angle_calc': ..}], any key of which may
    be missing. *)
Record needle_data : Type := mkNeedle {
  nd_value : option Q;
  nd_scale : option Q;
  nd_angle_calc : option AngleCalc.AngleCalculator
}.

(** [class ImageBasedGauge]: the attributes the calibration and needle
    code reads or writes.  The dict [named_needles] is modelled by its
    entries; the order in which it lists its keys is not. *)
Record ImageBasedGauge : Type := mkGauge {
  needle_pixmap : option QPixmap;
  needle_svg : option QSvgRenderer;
  is_svg_needle : bool;
  needle_center_offset : Q * Q;
  needle_pivot : Q * Q;
  angle_calculator : option AngleCalc.AngleCalculator;
  gauge_bg_width : option Z;
  gauge_bg_height : option Z;
  gauge_display_scale : Q;
  gauge_pivot_px : option (Q * Q);
  calibration_points_px : list AngleCalc.point_dict;
  needle_length_px : option Q;
  desired_tip_radius_px : option Q;
  needle_base_angle : Q;
  needle_scale : Q;
  named_needles : gmap string needle_data
}.

(** [self.<attribute> = v], one function per assigned attribute. *)
Definition set_needle_center_offset (v : Q * Q) (self : ImageBasedGauge)
    : ImageBasedGauge :=
  mkGauge (needle_pixmap self) (needle_svg self) (is_svg_needle self) v
    (needle_pivot self) (angle_calculator self) (gauge_bg_width self)
    (gauge_bg_height self) (gauge_display_scale self) (gauge_pivot_px
    self) (calibration_points_px self) (needle_length_px self)
    (desired_tip_radius_px self) (needle_base_angle self) (needle_scale
    self) (named_needles self).

Definition set_needle_pivot (v : Q * Q) (self : ImageBasedGauge)
    : ImageBasedGauge :=
  mkGauge (needle_pixmap self) (needle_svg self) (is_svg_needle self)
    (needle_center_offset self) v (angle_calculator self) (gauge_bg_width
    self) (gauge_bg_height self) (gauge_display_scale self)
    (gauge_pivot_px self) (calibration_points_px self) (needle_length_px
    self) (desired_tip_radius_px self) (needle_base_angle self)
    (needle_scale self) (named_needles self).

Definition set_angle_calculator (v : option AngleCalc.AngleCalculator)
    (self : ImageBasedGauge) : ImageBasedGauge :=
  mkGauge (needle_pixmap self) (needle_svg self) (is_svg_needle self)
    (needle_center_offset self) (needle_pivot self) v (gauge_bg_width
    self) (gauge_bg_height self) (gauge_display_scale self)
    (gauge_pivot_px self) (calibration_points_px self) (needle_length_px
    self) (desired_tip_radius_px self) (needle_base_angle self)
    (needle_scale self) (named_needles self).

Definition set_gauge_display_scale (v : Q) (self : ImageBasedGauge)
    : ImageBasedGauge :=
  mkGauge (needle_pixmap self) (needle_svg self) (is_svg_needle self)
    (needle_center_offset self) (needle_pivot self) (angle_calculator
    self) (gauge_bg_width self) (gauge_bg_height self) v (gauge_pivot_px
    self) (calibration_points_px self) (needle_length_px self)
    (desired_tip_radius_px self) (needle_base_angle self) (needle_scale
    self) (named_needles self).

Definition set_gauge_pivot_px (v : option (Q * Q)) (self : ImageBasedGauge)
    : ImageBasedGauge :=
  mkGauge (needle_pixmap self) (needle_svg self) (is_svg_needle self)
    (needle_center_offset self) (needle_pivot self) (angle_calculator
    self) (gauge_bg_width self) (gauge_bg_height self)
    (gauge_display_scale self) v (calibration_points_px self)
    (needle_length_px self) (desired_tip_radius_px self)
    (needle_base_angle self) (needle_scale self) (named_needles self).

Definition set_calibration_points_px (v : list AngleCalc.point_dict)
    (self : ImageBasedGauge) : ImageBasedGauge :=
  mkGauge (needle_pixmap self) (needle_svg self) (is_svg_needle self)
    (needle_center_offset self) (needle_pivot self) (angle_calculator
    self) (gauge_bg_width self) (gauge_bg_height self)
    (gauge_display_scale self) (gauge_pivot_px self) v (needle_length_px
    self) (desired_tip_radius_px self) (needle_base_angle self)
    (needle_scale self) (named_needles self).

Definition set_needle_length_px (v : option Q) (self : ImageBasedGauge)
    : ImageBasedGauge :=
  mkGauge (needle_pixmap self) (needle_svg self) (is_svg_needle self)
    (needle_center_offset self) (needle_pivot self) (angle_calculator
    self) (gauge_bg_width self) (gauge_bg_height self)
    (gauge_display_scale self) (gauge_pivot_px self)
    (calibration_points_px self) v (desired_tip_radius_px self)
    (needle_base_angle self) (needle_scale self) (named_needles self).

Definition set_desired_tip_radius_px (v : option Q) (self : ImageBasedGauge)
    : ImageBasedGauge :=
  mkGauge (needle_pixmap self) (needle_svg self) (is_svg_needle self)
    (needle_center_offset self) (needle_pivot self) (angle_calculator
    self) (gauge_bg_width self) (gauge_bg_height self)
    (gauge_display_scale self) (gauge_pivot_px self)
    (calibration_points_px self) (needle_length_px self) v
    (needle_base_angle self) (needle_scale self) (named_needles self).

Definition set_needle_base_angle (v : Q) (self : ImageBasedGauge)
    : ImageBasedGauge :=
  mkGauge (needle_pixmap self) (needle_svg self) (is_svg_needle self)
    (needle_center_offset self) (needle_pivot self) (angle_calculator
    self) (gauge_bg_width self) (gauge_bg_height self)
    (gauge_display_scale self) (gauge_pivot_px self)
    (calibration_points_px self) (needle_length_px self)
    (desired_tip_radius_px self) v (needle_scale self) (named_needles
    self).

Definition set_needle_scale (v : Q) (self : ImageBasedGauge)
    : ImageBasedGauge :=
  mkGauge (needle_pixmap self) (needle_svg self) (is_svg_needle self)
    (needle_center_offset self) (needle_pivot self) (angle_calculator
    self) (gauge_bg_width self) (gauge_bg_height self)
    (gauge_display_scale self) (gauge_pivot_px self)
    (calibration_points_px self) (needle_length_px self)
    (desired_tip_radius_px self) (needle_base_angle self) v (named_needles
    self).

Definition set_named_needles (v : gmap string needle_data)
    (self : ImageBasedGauge) : ImageBasedGauge :=
  mkGauge (needle_pixmap self) (needle_svg self) (is_svg_needle self)
    (needle_center_offset self) (needle_pivot self) (angle_calculator
    self) (gauge_bg_width self) (gauge_bg_height self)
    (gauge_display_scale self) (gauge_pivot_px self)
    (calibration_points_px self) (needle_length_px self)
    (desired_tip_radius_px self) (needle_base_angle self) (needle_scale
    self) v.

(** Truthiness of [None]-or-int attributes. *)
Definition truthy_int (x : option Z) : bool :=
  match x with
  | Some z => negb (z =? 0)%Z
  | None => false
  end.

Section WithMath.

(** [atan2_degrees dy dx] stands for [math.degrees (math.atan2 (dy, dx))],
    [pow_half x] for [x ** 0.5]; [AngleCalculator_imported] tells
    whether the module-level import of [angle_calculator] succeeded. *)
Variable atan2_degrees : Q -> Q -> Q.
Variable pow_half : Q -> Q.
Variable AngleCalculator_imported : bool.

(** The needle geometry set from the needle artwork's pivot and end
    pixels ([needle_w], [needle_h] are the artwork's dimensions). *)
Definition set_needle_geometry (needle_w needle_h : Z)
    (needle_piv_x needle_piv_y needle_end_x needle_end_y : Q)
    : M ImageBasedGauge unit :=
  do fx <- lift (Py.div needle_piv_x (inject_Z needle_w)) in
  do fy <- lift (Py.div needle_piv_y (inject_Z needle_h)) in
  run assign (set_needle_pivot (fx, fy)) in
  if Py.truthy needle_end_x || Py.truthy needle_end_y then
    let dx := needle_end_x - needle_piv_x in
    let dy := needle_end_y - needle_piv_y in
    run assign (set_needle_length_px (Some (pow_half (dx * dx + dy * dy)))) in
    assign (set_needle_base_angle (Py.mod_ (atan2_degrees dy dx + 360) 360))
  else
    assign (set_needle_length_px None).

(** The distances gathered by the tip-radius loop:
    [for point in points: ... distances.append((dx*dx + dy*dy) ** 0.5)]. *)
Fixpoint tip_distances (gauge_pivot_x gauge_pivot_y : Q)
    (points : list AngleCalc.point_dict) (distances : list Q) : list Q :=
  match points with
  | [] => distances
  | point :: points' =>
      let px := default 0 (AngleCalc.d_x point) in
      let py := default 0 (AngleCalc.d_y point) in
      let dx := px - gauge_pivot_x in
      let dy := py - gauge_pivot_y in
      tip_distances gauge_pivot_x gauge_pivot_y points'
                    (distances ++ [pow_half (dx * dx + dy * dy)])
  end.

(** The block of [load_v2_calibration] that sets the needle pivot,
    length and base angle from the needle artwork (lines 152-188). *)
Definition load_needle_geometry (needle_cal : needle_cal)
    : M ImageBasedGauge unit :=
  let needle_piv_x := default 0 (cal_needle_pivot_x needle_cal) in
  let needle_piv_y := default 0 (cal_needle_pivot_y needle_cal) in
  let needle_end_x := default 0 (cal_needle_end_x needle_cal) in
  let needle_end_y := default 0 (cal_needle_end_y needle_cal) in
  do svg <- read (fun self =>
                    if is_svg_needle self then needle_svg self else None) in
  do pixmap <- read needle_pixmap in
  match svg, pixmap with
  | Some svg, _ =>
      let needle_w :=
        if decide (0 < svg_width svg)%Z then svg_width svg else 1%Z in
      let needle_h :=
        if decide (0 < svg_height svg)%Z then svg_height svg else 1%Z in
      when (bool_decide (0 < needle_w)%Z && bool_decide (0 < needle_h)%Z)
        (set_needle_geometry needle_w needle_h
           needle_piv_x needle_piv_y needle_end_x needle_end_y)
  | None, Some pm =>
      when (negb (isNull pm))
        (when (bool_decide (0 < width pm)%Z
               && bool_decide (0 < height pm)%Z)
           (set_needle_geometry (width pm) (height pm)
              needle_piv_x needle_piv_y needle_end_x needle_end_y))
  | None, None => ret tt
  end.

(** The block that places the needle centre (lines 196-201). *)
Definition load_center_offset (gauge_pivot_x gauge_pivot_y : Q)
    : M ImageBasedGauge unit :=
  do bg <- read (fun self => (gauge_bg_width self, gauge_bg_height self)) in
  match bg with
  | (Some w, Some h) =>
      when (truthy_int (Some w) && truthy_int (Some h))
        (do center_x <- lift (Py.div gauge_pivot_x (inject_Z w)) in
         do center_y <- lift (Py.div gauge_pivot_y (inject_Z h)) in
         assign (set_needle_center_offset (center_x, center_y)))
  | _ => ret tt
  end.

(** The block that derives the tip radius (lines 203-213). *)
Definition load_tip_radius (gauge_pivot_x gauge_pivot_y : Q)
    (points : list AngleCalc.point_dict) : M ImageBasedGauge unit :=
  do pivot_px <- read gauge_pivot_px in
  when (bool_decide (is_Some pivot_px) && bool_decide (points <> []))
    (let distances :=
       tip_distances gauge_pivot_x gauge_pivot_y points [] in
     when (bool_decide (distances <> []))
       (do r <- lift (Py.div (Py.sum distances)
                        (inject_Z (Z.of_nat (length distances)))) in
        assign (set_desired_tip_radius_px (Some r)))).

(** [load_v2_calibration]. *)
Definition load_v2_calibration (calibration_data : gmap string needle_cal)
    (needle_id : string) : M ImageBasedGauge bool :=
  match calibration_data !! needle_id with
  | None => ret false
  | Some needle_cal =>
      try_except
        (let gauge_pivot_x := default 0 (cal_gauge_pivot_x needle_cal) in
         let gauge_pivot_y := default 0 (cal_gauge_pivot_y needle_cal) in
         if AngleCalculator_imported then
           let points := default [] (cal_calibration_points needle_cal) in
           run (fun self =>
                  let '(calc, r) :=
                    AngleCalc.points_from_list
                      (AngleCalc.init gauge_pivot_x gauge_pivot_y) points in
                  (set_angle_calculator (Some calc) self, r)) in
           run assign (set_calibration_points_px points) in
           run assign (set_gauge_pivot_px
                         (Some (gauge_pivot_x, gauge_pivot_y))) in
           run load_needle_geometry needle_cal in
           run load_center_offset gauge_pivot_x gauge_pivot_y in
           run load_tip_radius gauge_pivot_x gauge_pivot_y points in
           run match cal_needle_scale needle_cal with
               | Some sc => assign (set_needle_scale sc)
               | None => ret tt
               end in
           ret true
         else ret false)
        false
  end.

End WithMath.

(** *** Named needles *)

(** [get_needle_names]: the keys of [self.named_needles] (as a set; the
    listing order is not modelled). *)
Definition get_needle_names (self : ImageBasedGauge) : gset string :=
  dom (named_needles self).

(** [set_named_needle_value]. *)
Definition set_named_needle_value (self : ImageBasedGauge)
    (needle_name : string) (v : Q) : ImageBasedGauge :=
  match named_needles self !! needle_name with
  | None =>
      set_named_needles
        (<[needle_name := mkNeedle (Some v) (Some 1.0) None]>
           (named_needles self)) self
  | Some d =>
      set_named_needles
        (<[needle_name := mkNeedle (Some v) (nd_scale d) (nd_angle_calc d)]>
           (named_needles self)) self
  end.

(** [set_named_needle_scale]. *)
Definition set_named_needle_scale (self : ImageBasedGauge)
    (needle_name : string) (scale : Q) : ImageBasedGauge :=
  match named_needles self !! needle_name with
  | None =>
      set_named_needles
        (<[needle_name := mkNeedle (Some 0) (Some scale) None]>
           (named_needles self)) self
  | Some d =>
      set_named_needles
        (<[needle_name :=
             mkNeedle (nd_value d) (Some (Py.max 0.5 (Py.min 2.0 scale)))
                      (nd_angle_calc d)]>
           (named_needles self)) self
  end.

(** [get_named_needle_scale]. *)
Definition get_named_needle_scale (self : ImageBasedGauge)
    (needle_name : string) : res Q :=
  match named_needles self !! needle_name with
  | Some d => AngleCalc.getkey (nd_scale d)
  | None =>
      if decide (needle_name = "main"%string) then Ok (needle_scale self)
      else Ok 1.0
  end.

(** [delete_named_needle]. *)
Definition delete_named_needle (self : ImageBasedGauge)
    (needle_name : string) : ImageBasedGauge :=
  match named_needles self !! needle_name with
  | Some _ => set_named_needles (delete needle_name (named_needles self)) self
  | None => self
  end.

(** *** Painting a needle *)

(** How the needle artwork ends up sized. *)
Inductive needle_size : Type :=
| PixmapScaled (scaled_width scaled_height : Z)
    (* needle_pixmap.scaled(w, h, Qt.KeepAspectRatio, ...) *)
| PixmapScaledToHeight (needle_height : Z)
    (* needle_pixmap.scaledToHeight(h, ...) *)
| SvgRendered (needle_width needle_height : Z).
    (* needle_svg.render(painter, QRectF(0, 0, w, h)) *)

(** What one needle painting does: the sizing and the angle handed to
    [painter.rotate]. *)
Record needle_draw : Type := mkDraw { size : needle_size; rotation : Q }.

(** Lines 513-525 of [_draw_svg_needle]: the length the SVG needle is
    drawn at. *)
Definition svg_desired_length (self : ImageBasedGauge) (radius : Q) : res Q :=
  match desired_tip_radius_px self,
        gauge_bg_width self, gauge_bg_height self with
  | Some tip, Some w, Some h =>
      if Py.truthy tip && Py.truthy (gauge_display_scale self)
         && truthy_int (Some w) && truthy_int (Some h) && bool_decide (0 < tip)
      then
        let calibrated_gauge_radius := inject_Z (Z.min w h) / 2 in
        let* needle_percentage_of_radius :=
          Py.div tip calibrated_gauge_radius in
        Ok (radius * needle_percentage_of_radius * needle_scale self)
      else Ok (radius * 0.9 * needle_scale self)
  | _, _, _ => Ok (radius * 0.9 * needle_scale self)
  end.

(** [_draw_svg_needle]; [None] when it returns without painting. *)
Definition _draw_svg_needle (self : ImageBasedGauge) (radius angle : Q)
    : res (option needle_draw) :=
  match needle_svg self with
  | None => Ok None
  | Some svg =>
      let* desired_length := svg_desired_length self radius in
      let svg_h :=
        if decide (0 < svg_height svg)%Z then svg_height svg else 370%Z in
      let* scale := Py.div desired_length (inject_Z svg_h) in
      let needle_width := Py.int (inject_Z (svg_width svg) * scale) in
      let needle_height := Py.int (inject_Z (svg_height svg) * scale) in
      Ok (Some (mkDraw (SvgRendered needle_width needle_height)
                       (angle - needle_base_angle self)))
  end.

(** Lines 478-493 of [_rotate_and_draw_needle]: the sizing of a PNG/JPG
    needle [pm]. *)
Definition pixmap_size (self : ImageBasedGauge) (pm : QPixmap) (radius : Q)
    : res needle_size :=
  let desired_length :=
    if Py.truthy_opt (desired_tip_radius_px self)
       && Py.truthy (gauge_display_scale self)
    then (fun tip => tip * gauge_display_scale self)
           <$> desired_tip_radius_px self
    else None in
  match needle_length_px self, desired_length with
  | Some len, Some desired =>
      if Py.truthy len && Py.truthy desired then
        let desired := desired * needle_scale self in
        let* scale := Py.div desired len in
        let scaled_width := Z.max 1 (Py.int (inject_Z (width pm) * scale)) in
        let scaled_height := Z.max 1 (Py.int (inject_Z (height pm) * scale)) in
        Ok (PixmapScaled scaled_width scaled_height)
      else
        Ok (PixmapScaledToHeight (Py.int (radius * 1.5 * needle_scale self)))
  | _, _ =>
      Ok (PixmapScaledToHeight (Py.int (radius * 1.5 * needle_scale self)))
  end.

(** [_rotate_and_draw_needle]; [None] when it returns without painting. *)
Definition _rotate_and_draw_needle (self : ImageBasedGauge) (angle radius : Q)
    : res (option needle_draw) :=
  if is_svg_needle self && bool_decide (is_Some (needle_svg self)) then
    _draw_svg_needle self radius angle
  else
    match needle_pixmap self with
    | None => Ok None
    | Some pm =>
        if isNull pm then Ok None
        else
          let* sz := pixmap_size self pm radius in
          Ok (Some (mkDraw sz (angle - needle_base_angle self)))
    end.

(** Lines 457-459 of [_draw_all_named_needles]: the angle a named needle
    is drawn at. *)
Definition named_needle_angle (needle_data : needle_data) : res Q :=
  let v := default 0 (nd_value needle_data) in
  let* angle_fraction :=
    if decide (0 < v) then Py.div (v - 0) (100 - 0) else Ok 0 in
  Ok (270 - 180 * angle_fraction).

(** [_draw_all_named_needles]: what is painted for each named needle,
    with [self.needle_scale] replaced by the needle's own scale for the
    time of the painting (the order of painting is not modelled). *)
Definition _draw_all_named_needles (self : ImageBasedGauge) (radius : Q)
    : gmap string (res (option needle_draw)) :=
  (fun needle_data =>
     let* angle := named_needle_angle needle_data in
     _rotate_and_draw_needle
       (set_needle_scale (default 1.0 (nd_scale needle_data)) self)
       angle radius)
  <$> named_needles self.

(** *** The fuel gauge with its second (water) needle *)

Record ImageFuelGauge : Type := mkFuelGauge {
  base : ImageBasedGauge;
  fuel_angle_calculator : option AngleCalc.AngleCalculator;
  water_angle_calculator : option AngleCalc.AngleCalculator;
  water_needle_pixmap : option QPixmap;
  water_needle_svg : option QSvgRenderer;
  is_water_svg_needle : bool;
  water_needle_pivot : Q * Q;
  water_needle_center_offset : Q * Q;
  water_needle_length_px : option Q;
  water_tip_radius_px : option Q;
  water_base_angle : Q;
  water_needle_scale : Q
}.

(** [self.<attribute> = v] on the fuel gauge. *)
Definition set_base (v : ImageBasedGauge) (self : ImageFuelGauge)
    : ImageFuelGauge :=
  mkFuelGauge v (fuel_angle_calculator self) (water_angle_calculator
    self) (water_needle_pixmap self) (water_needle_svg self)
    (is_water_svg_needle self) (water_needle_pivot self)
    (water_needle_center_offset self) (water_needle_length_px self)
    (water_tip_radius_px self) (water_base_angle self) (water_needle_scale
    self).

Definition set_fuel_angle_calculator (v : option AngleCalc.AngleCalculator)
    (self : ImageFuelGauge) : ImageFuelGauge :=
  mkFuelGauge (base self) v (water_angle_calculator self)
    (water_needle_pixmap self) (water_needle_svg self)
    (is_water_svg_needle self) (water_needle_pivot self)
    (water_needle_center_offset self) (water_needle_length_px self)
    (water_tip_radius_px self) (water_base_angle self) (water_needle_scale
    self).

Definition set_water_angle_calculator (v : option AngleCalc.AngleCalculator)
    (self : ImageFuelGauge) : ImageFuelGauge :=
  mkFuelGauge (base self) (fuel_angle_calculator self) v
    (water_needle_pixmap self) (water_needle_svg self)
    (is_water_svg_needle self) (water_needle_pivot self)
    (water_needle_center_offset self) (water_needle_length_px self)
    (water_tip_radius_px self) (water_base_angle self) (water_needle_scale
    self).

Definition set_water_needle_pixmap (v : option QPixmap)
    (self : ImageFuelGauge) : ImageFuelGauge :=
  mkFuelGauge (base self) (fuel_angle_calculator self)
    (water_angle_calculator self) v (water_needle_svg self)
    (is_water_svg_needle self) (water_needle_pivot self)
    (water_needle_center_offset self) (water_needle_length_px self)
    (water_tip_radius_px self) (water_base_angle self) (water_needle_scale
    self).

Definition set_water_needle_svg (v : option QSvgRenderer)
    (self : ImageFuelGauge) : ImageFuelGauge :=
  mkFuelGauge (base self) (fuel_angle_calculator self)
    (water_angle_calculator self) (water_needle_pixmap self) v
    (is_water_svg_needle self) (water_needle_pivot self)
    (water_needle_center_offset self) (water_needle_length_px self)
    (water_tip_radius_px self) (water_base_angle self) (water_needle_scale
    self).

Definition set_is_water_svg_needle (v : bool) (self : ImageFuelGauge)
    : ImageFuelGauge :=
  mkFuelGauge (base self) (fuel_angle_calculator self)
    (water_angle_calculator self) (water_needle_pixmap self)
    (water_needle_svg self) v (water_needle_pivot self)
    (water_needle_center_offset self) (water_needle_length_px self)
    (water_tip_radius_px self) (water_base_angle self) (water_needle_scale
    self).

Definition set_water_needle_pivot (v : Q * Q) (self : ImageFuelGauge)
    : ImageFuelGauge :=
  mkFuelGauge (base self) (fuel_angle_calculator self)
    (water_angle_calculator self) (water_needle_pixmap self)
    (water_needle_svg self) (is_water_svg_needle self) v
    (water_needle_center_offset self) (water_needle_length_px self)
    (water_tip_radius_px self) (water_base_angle self) (water_needle_scale
    self).

Definition set_water_needle_center_offset (v : Q * Q)
    (self : ImageFuelGauge) : ImageFuelGauge :=
  mkFuelGauge (base self) (fuel_angle_calculator self)
    (water_angle_calculator self) (water_needle_pixmap self)
    (water_needle_svg self) (is_water_svg_needle self) (water_needle_pivot
    self) v (water_needle_length_px self) (water_tip_radius_px self)
    (water_base_angle self) (water_needle_scale self).

Definition set_water_needle_length_px (v : option Q) (self : ImageFuelGauge)
    : ImageFuelGauge :=
  mkFuelGauge (base self) (fuel_angle_calculator self)
    (water_angle_calculator self) (water_needle_pixmap self)
    (water_needle_svg self) (is_water_svg_needle self) (water_needle_pivot
    self) (water_needle_center_offset self) v (water_tip_radius_px self)
    (water_base_angle self) (water_needle_scale self).

Definition set_water_tip_radius_px (v : option Q) (self : ImageFuelGauge)
    : ImageFuelGauge :=
  mkFuelGauge (base self) (fuel_angle_calculator self)
    (water_angle_calculator self) (water_needle_pixmap self)
    (water_needle_svg self) (is_water_svg_needle self) (water_needle_pivot
    self) (water_needle_center_offset self) (water_needle_length_px self)
    v (water_base_angle self) (water_needle_scale self).

Definition set_water_base_angle (v : Q) (self : ImageFuelGauge)
    : ImageFuelGauge :=
  mkFuelGauge (base self) (fuel_angle_calculator self)
    (water_angle_calculator self) (water_needle_pixmap self)
    (water_needle_svg self) (is_water_svg_needle self) (water_needle_pivot
    self) (water_needle_center_offset self) (water_needle_length_px self)
    (water_tip_radius_px self) v (water_needle_scale self).

Definition set_water_needle_scale (v : Q) (self : ImageFuelGauge)
    : ImageFuelGauge :=
  mkFuelGauge (base self) (fuel_angle_calculator self)
    (water_angle_calculator self) (water_needle_pixmap self)
    (water_needle_svg self) (is_water_svg_needle self) (water_needle_pivot
    self) (water_needle_center_offset self) (water_needle_length_px self)
    (water_tip_radius_px self) (water_base_angle self) v.

(** Running a method of the base class on the fuel gauge. *)
Definition on_base {A : Type} (m : M ImageBasedGauge A) : M ImageFuelGauge A :=
  fun self => let '(b, r) := m (base self) in (set_base b self, r).

(** What loading the water needle artwork from disk gave. *)
Inductive artwork : Type :=
| SvgFile (renderer : QSvgRenderer) (isValid : bool)
| PixmapFile (pixmap : QPixmap).

Section WithMathFuel.

Variable atan2_degrees : Q -> Q -> Q.
Variable pow_half : Q -> Q.
Variable AngleCalculator_imported : bool.

(** The water part of [load_dual_v2_calibration] (lines 665-737), for
    the entry [water_cal] of the configuration; [water_artwork] is the
    file under ['needle_image_path'] when that path is set and exists. *)
Definition load_water_calibration (water_cal : needle_cal)
    (water_artwork : option artwork) : M ImageFuelGauge unit :=
  let gauge_pivot_x := default 0 (cal_gauge_pivot_x water_cal) in
  let gauge_pivot_y := default 0 (cal_gauge_pivot_y water_cal) in
  when AngleCalculator_imported
    (let points := default [] (cal_calibration_points water_cal) in
     run (fun self =>
            let '(calc, r) :=
              AngleCalc.points_from_list
                (AngleCalc.init gauge_pivot_x gauge_pivot_y) points in
            (set_water_angle_calculator (Some calc) self, r)) in
     run match water_artwork with
         | Some (SvgFile renderer isValid) =>
             if isValid then
               run assign (set_water_needle_svg (Some renderer)) in
               assign (set_is_water_svg_needle true)
             else assign (set_water_needle_svg None)
         | Some (PixmapFile pixmap) =>
             assign (set_water_needle_pixmap (Some pixmap))
         | None => ret tt
         end in
     run assign (set_water_needle_scale
                   (default 1.0 (cal_needle_scale water_cal))) in
     let needle_piv_x := default 0 (cal_needle_pivot_x water_cal) in
     let needle_piv_y := default 0 (cal_needle_pivot_y water_cal) in
     let needle_end_x := default 0 (cal_needle_end_x water_cal) in
     let needle_end_y := default 0 (cal_needle_end_y water_cal) in
     do svg <- read (fun self =>
                       if is_water_svg_needle self then water_needle_svg self
                       else None) in
     do pixmap <- read water_needle_pixmap in
     let '(needle_w, needle_h) :=
       match svg, pixmap with
       | Some svg, _ =>
           (if decide (0 < svg_width svg)%Z then svg_width svg else 1%Z,
            if decide (0 < svg_height svg)%Z then svg_height svg else 1%Z)
       | None, Some pm => (width pm, height pm)
       | None, None => (1%Z, 1%Z)
       end in
     do fx <- lift (Py.div needle_piv_x (inject_Z needle_w)) in
     do fy <- lift (Py.div needle_piv_y (inject_Z needle_h)) in
     run assign (set_water_needle_pivot (fx, fy)) in
     run (if Py.truthy needle_end_x || Py.truthy needle_end_y then
            let dx := needle_end_x - needle_piv_x in
            let dy := needle_end_y - needle_piv_y in
            run assign (set_water_needle_length_px
                          (Some (pow_half (dx * dx + dy * dy)))) in
            assign (set_water_base_angle
                      (Py.mod_ (atan2_degrees dy dx + 360) 360))
          else assign (set_water_needle_length_px None)) in
     do bg <- read (fun self => (gauge_bg_width (base self),
                                 gauge_bg_height (base self))) in
     run match bg with
         | (Some w, Some h) =>
             when (truthy_int (Some w) && truthy_int (Some h))
               (do center_x <- lift (Py.div gauge_pivot_x (inject_Z w)) in
                do center_y <- lift (Py.div gauge_pivot_y (inject_Z h)) in
                assign (set_water_needle_center_offset (center_x, center_y)))
         | _ => ret tt
         end in
     when (bool_decide (points <> []))
       (let distances :=
          tip_distances pow_half gauge_pivot_x gauge_pivot_y points [] in
        when (bool_decide (distances <> []))
          (do r <- lift (Py.div (Py.sum distances)
                                (inject_Z (Z.of_nat (length distances)))) in
           assign (set_water_tip_radius_px (Some r))))).

(** [load_dual_v2_calibration]. *)
Definition load_dual_v2_calibration
    (calibration_data : gmap string needle_cal)
    (water_artwork : option artwork) : M ImageFuelGauge unit :=
  run match calibration_data !! "fuel"%string with
      | Some _ =>
          run on_base (load_v2_calibration atan2_degrees pow_half
                         AngleCalculator_imported calibration_data "fuel") in
          do calc <- read (fun self => angle_calculator (base self)) in
          assign (set_fuel_angle_calculator calc)
      | None => ret tt
      end in
  match calibration_data !! "water"%string with
  | Some water_cal => load_water_calibration water_cal water_artwork
  | None => ret tt
  end.

End WithMathFuel.

(** *** Specification *)

(** [frames f m]: the method body [m] leaves the attribute [f] as it
    found it, whatever its outcome. *)
Definition frames {S A B : Type} (f : S -> B) (m : M S A) : Prop :=
  forall (s s' : S) (r : res A), m s = (s', r) -> f s' = f s.

(** The arithmetic mean of the Euclidean distances from the gauge pivot
    [(gx, gy)] to the calibration points, as the specification words it:
    the sum of the distances over their number ([sqrt] is the square
    root). *)
Definition distance (sqrt : Q -> Q) (gx gy : Q) (p : AngleCalc.point_dict)
    : Q :=
  let px := default 0 (AngleCalc.d_x p) in
  let py := default 0 (AngleCalc.d_y p) in
  sqrt ((px - gx) * (px - gx) + (py - gy) * (py - gy)).

Fixpoint total (l : list Q) : Q :=
  match l with
  | [] => 0
  | d :: l' => d + total l'
  end.

Definition mean_distance (sqrt : Q -> Q) (gx gy : Q)
    (points : list AngleCalc.point_dict) : Q :=
  total (distance sqrt gx gy <$> points) / inject_Z (Z.of_nat (length points)).

End ImageGauge.
(** ** Concrete calibrations used in the examples *)

Module Examples.

(** Pivot (256, 256); three points up, right and down of it. *)
Definition three_points : AngleCalc.AngleCalculator :=
  (AngleCalc.points_from_list (AngleCalc.init 256 256)
     [AngleCalc.dict_of 256 100 0;
      AngleCalc.dict_of 410 256 5000;
      AngleCalc.dict_of 256 410 10000]).1.

(** Pivot (256, 256); value 0 straight left of it, value 100 straight
    right of it. *)
Definition opposite_pair : AngleCalc.AngleCalculator :=
  (AngleCalc.points_from_list (AngleCalc.init 256 256)
     [AngleCalc.dict_of 100 256 0;
      AngleCalc.dict_of 410 256 100]).1.


(** Pivot (256, 256); two points, right of it and below it, with the one
    value 50. *)
Definition one_value : AngleCalc.AngleCalculator :=
  (AngleCalc.points_from_list (AngleCalc.init 256 256)
     [AngleCalc.dict_of 410 256 50;
      AngleCalc.dict_of 256 410 50]).1.

(** Pivot (256, 256); a single point straight above it. *)
Definition single_point : AngleCalc.AngleCalculator :=
  (AngleCalc.points_from_list (AngleCalc.init 256 256)
     [AngleCalc.dict_of 256 100 0]).1.

(** A gauge as [__init__] leaves it, with a 1080 x 1080 background and a
    40 x 370 PNG needle: no calibration loaded, no named needle. *)
Definition fresh_gauge : ImageGauge.ImageBasedGauge :=
  ImageGauge.mkGauge (Some (ImageGauge.mkPixmap false 40 370)) None false
    (0.5, 0.5) (0.5, 1.0) None (Some 1080%Z) (Some 1080%Z) 1.0 None []
    None None 0.0 1.0 ∅.

(** A fuel gauge as [__init__] leaves it, on the same widget. *)
Definition fresh_fuel_gauge : ImageGauge.ImageFuelGauge :=
  ImageGauge.mkFuelGauge fresh_gauge None None None None false
    (0.5, 1.0) (0.5, 0.5) None None 0.0 1.0.

(** A configuration entry: gauge pivot (0, 0), calibration points at
    (3, 4) and (6, 8), needle pivot (20, 350), needle end (20, 10). *)
Definition two_point_cal : ImageGauge.needle_cal :=
  ImageGauge.mkCal (Some 0) (Some 0) (Some 20) (Some 350) (Some 20) (Some 10)
    (Some [AngleCalc.dict_of 3 4 0; AngleCalc.dict_of 6 8 100]) None.

(** [x ** 0.5] on the squares of whole numbers: the integer square root
    of the integer part (exact on such squares, which is all the
    examples use). *)
Definition pow_half_whole (q : Q) : Q := inject_Z (Z.sqrt (Qfloor q)).

End Examples.

(** ** Notions used to state the properties of the calculators *)

Module Predicates.

(** No two different elements of [l] share a key. *)
Definition distinct_keys {A : Type} (key : A -> Q) (l : list A) : Prop :=
  forall a b : A, a ∈ l -> b ∈ l -> key a == key b -> a = b.

(** The sweep [d] the interpolation of [NeedleAngleCalculator] uses
    between the stored angles [a1] and [a2] (lines 81-87 of
    calibration_utils.py): their difference, taken the short way round
    when it is more than half a turn. *)
Definition sweep_of (a1 a2 d : Q) : Prop :=
  (180 < a2 - a1 /\ d = a2 - a1 - 360) \/
  (a2 - a1 < -180 /\ d = a2 - a1 + 360) \/
  (-180 <= a2 - a1 /\ a2 - a1 <= 180 /\ d = a2 - a1).

(** The entry [{'x': .., 'y': .., 'value': ..}] a calibration point is
    loaded from. *)
Definition to_dict (p : AngleCalc.CalibrationPoint) : AngleCalc.point_dict :=
  AngleCalc.dict_of (AngleCalc.x p) (AngleCalc.y p) (AngleCalc.value p).

(** The value -> angle calibration that carries the bearings of the
    pixel calibration [self]: the points one hands to
    [NeedleAngleCalculator] to describe the same gauge. *)
Definition needle_points_of (atan2_degrees : Q -> Q -> Q)
    (self : AngleCalc.AngleCalculator)
    : list CalibrationUtils.CalibrationPoint :=
  (fun p => CalibrationUtils.mkPoint
              (AngleCalc.value p)
              (AngleCalc.bearing atan2_degrees self p))
  <$> AngleCalc.calibration_points self.

(** An entry of a point list carries its three keys. *)
Definition well_formed (d : AngleCalc.point_dict) : Prop :=
  is_Some (AngleCalc.d_x d) /\ is_Some (AngleCalc.d_y d)
  /\ is_Some (AngleCalc.d_value d).

#[export] Instance well_formed_dec (d : AngleCalc.point_dict) :
  Decision (well_formed d).
Proof. unfold well_formed. apply _. Defined.

(** Every entry of the registry of named needles carries a value and a
    scale. *)
Definition complete (needles : gmap string ImageGauge.needle_data) : Prop :=
  forall (name : string) (d : ImageGauge.needle_data),
    needles !! name = Some d ->
    is_Some (ImageGauge.nd_value d) /\ is_Some (ImageGauge.nd_scale d).

(** The gauges whose registry of named needles was built, from an empty
    one, by the three methods that change it. *)
Inductive registry : ImageGauge.ImageBasedGauge -> Prop :=
| registry_empty (self : ImageGauge.ImageBasedGauge) :
    ImageGauge.named_needles self = ∅ -> registry self
| registry_value (self : ImageGauge.ImageBasedGauge) (name : string) (v : Q) :
    registry self -> registry (ImageGauge.set_named_needle_value self name v)
| registry_scale (self : ImageGauge.ImageBasedGauge) (name : string)
    (scale : Q) :
    registry self -> registry (ImageGauge.set_named_needle_scale self name scale)
| registry_delete (self : ImageGauge.ImageBasedGauge) (name : string) :
    registry self -> registry (ImageGauge.delete_named_needle self name).

(** A call of one of the three methods that change the registry of
    named needles, the needle it names, and the gauge after it. *)
Inductive needle_call : Type :=
| call_set_value (needle_name : string) (value : Q)
| call_set_scale (needle_name : string) (scale : Q)
| call_delete (needle_name : string).

Definition call_name (c : needle_call) : string :=
  match c with
  | call_set_value needle_name _ => needle_name
  | call_set_scale needle_name _ => needle_name
  | call_delete needle_name => needle_name
  end.

Definition call (self : ImageGauge.ImageBasedGauge) (c : needle_call)
    : ImageGauge.ImageBasedGauge :=
  match c with
  | call_set_value needle_name value =>
      ImageGauge.set_named_needle_value self needle_name value
  | call_set_scale needle_name scale =>
      ImageGauge.set_named_needle_scale self needle_name scale
  | call_delete needle_name =>
      ImageGauge.delete_named_needle self needle_name
  end.

End Predicates.
(** ** image_gauge.py: the widget around the calibration *)

Module GaugeWidget.
Import ImageGauge.

(** *** Clamped settings of [ImageBasedGauge] *)

(** [set_needle_center]: the rotation centre as a fraction of the gauge
    size. *)
Definition set_needle_center (self : ImageBasedGauge)
    (x_fraction y_fraction : Q) : ImageBasedGauge :=
  set_needle_center_offset
    (Py.max 0 (Py.min x_fraction 1.0), Py.max 0 (Py.min y_fraction 1.0)) self.

(** [set_needle_pivot]: the pivot as a fraction of the needle image. *)
Definition set_needle_pivot (self : ImageBasedGauge)
    (x_fraction y_fraction : Q) : ImageBasedGauge :=
  ImageGauge.set_needle_pivot
    (Py.max 0 (Py.min x_fraction 1.0), Py.max 0 (Py.min y_fraction 1.0)) self.

(** *** What the widget shows *)

(** The attributes of [ImageBasedGauge] beside the calibration ones: the
    background image, the value shown and the target it moves to. *)
Record display : Type := mkDisplay {
  bg_pixmap : QPixmap;
  value : Q;
  target_value : Q;
  smoothing_factor : Q;
  night_mode : bool
}.

Definition set_value (v : Q) (self : display) : display :=
  mkDisplay (bg_pixmap self) v (target_value self) (smoothing_factor self)
    (night_mode self).

Definition set_target_value (v : Q) (self : display) : display :=
  mkDisplay (bg_pixmap self) (value self) v (smoothing_factor self)
    (night_mode self).

(** A gauge widget: the calibration attributes and the display ones. *)
Record Widget : Type := mkWidget { gauge : ImageBasedGauge; shown : display }.

Definition set_gauge (v : ImageBasedGauge) (self : Widget) : Widget :=
  mkWidget v (shown self).

Definition set_shown (v : display) (self : Widget) : Widget :=
  mkWidget (gauge self) v.

(** [ImageBasedGauge.__init__]; [bg] is [QPixmap(bg_image_path)] and
    [needle] what loading [needle_image_path] gave, [None] without a
    path. *)
Definition init (bg : QPixmap) (needle : option artwork) : Widget :=
  let needle_pixmap :=
    match needle with
    | Some (PixmapFile pixmap) => Some pixmap
    | _ => None
    end in
  let needle_svg :=
    match needle with
    | Some (SvgFile renderer true) => Some renderer
    | _ => None
    end in
  let is_svg_needle :=
    match needle with
    | Some (SvgFile renderer true) => true
    | _ => false
    end in
  mkWidget
    (mkGauge needle_pixmap needle_svg is_svg_needle (0.5, 0.5) (0.5, 1.0) None
       (if isNull bg then None else Some (width bg))
       (if isNull bg then None else Some (height bg))
       1.0 None [] None None 0.0 1.0 ∅)
    (mkDisplay bg 0 0 0.2 false).

(** [_smooth_value]: one step of the value toward its target. *)
Definition _smooth_value (self : display) : display :=
  let delta := target_value self - value self in
  set_value (value self + delta * smoothing_factor self) self.

(** What a paint event fixes before any needle is drawn: the background
    as handed to [painter.drawPixmap(int(x), int(y), scaled_pixmap)]
    ([None] when there is no background image), the centre the needle
    turns about and the radius. *)
Record frame : Type := mkFrame {
  background : option (Z * Z * QPixmap);
  center : Q * Q;
  radius : Q
}.

(** What a paint event draws: the frame, the main needle and the named
    needles. *)
Record painted : Type := mkPainted {
  painted_frame : frame;
  main_needle : res (option needle_draw);
  named : gmap string (res (option needle_draw))
}.

Section Painting.

(** [scaledToWidth pm w] stands for Qt's [pm.scaledToWidth(w, ...)],
    [scaledToHeight pm h] for [pm.scaledToHeight(h, ...)]. *)
Variables scaledToWidth scaledToHeight : QPixmap -> Z -> QPixmap.

(** The background fitted into a widget of the given size (lines
    410-421). *)
Definition fit_background (bg : QPixmap) (width height : Z) : QPixmap :=
  let scaled_pixmap := scaledToWidth bg width in
  if decide (height < ImageGauge.height scaled_pixmap)%Z
  then scaledToHeight bg height
  else scaled_pixmap.

(** The assignment of [gauge_display_scale] in a paint event (lines
    434-435). *)
Definition update_display_scale (gauge_width : Z) : M Widget unit :=
  do bg_width <- read (fun self => gauge_bg_width (gauge self)) in
  match bg_width with
  | Some w =>
      when (truthy_int (Some w))
        (do scale <- lift (Py.div (inject_Z gauge_width) (inject_Z w)) in
         assign (fun self =>
                   set_gauge (set_gauge_display_scale scale (gauge self))
                             self))
  | None => ret tt
  end.

(** [ImageBasedGauge.paintEvent] up to the call of [_draw_needle]
    (lines 406-444); [width] and [height] are what [self.width()] and
    [self.height()] return. *)
Definition paint_frame (width height : Z) : M Widget frame :=
  run assign (fun self => set_shown (_smooth_value (shown self)) self) in
  do bg <- read (fun self => bg_pixmap (shown self)) in
  if negb (isNull bg) then
    let scaled_pixmap := fit_background bg width height in
    let x := inject_Z (width - ImageGauge.width scaled_pixmap) / 2 in
    let y := inject_Z (height - ImageGauge.height scaled_pixmap) / 2 in
    let gauge_x := x in
    let gauge_y := y in
    let gauge_width := ImageGauge.width scaled_pixmap in
    let gauge_height := ImageGauge.height scaled_pixmap in
    run update_display_scale gauge_width in
    do offset <- read (fun self => needle_center_offset (gauge self)) in
    ret (mkFrame
           (Some (Py.int x, Py.int y, scaled_pixmap))
           (gauge_x + inject_Z gauge_width * offset.1,
            gauge_y + inject_Z gauge_height * offset.2)
           (inject_Z (Z.min gauge_width gauge_height) / 2))
  else
    ret (mkFrame None
           (inject_Z width / 2, inject_Z height / 2)
           (inject_Z (Z.min width height) / 2)).

End Painting.

(** *** Notions used to state the properties of the widget *)

(** The display scale a paint event leaves when it draws the background
    [gauge_width] pixels wide: the drawn width over the width of the
    background image, unless that width is unknown or zero. *)
Definition display_scale_after (gauge_width : Z) (g : ImageBasedGauge) : Q :=
  match gauge_bg_width g with
  | Some w => if (w =? 0)%Z then gauge_display_scale g
              else inject_Z gauge_width / inject_Z w
  | None => gauge_display_scale g
  end.

(** The value shown and its target lie between 0 and [max], and the
    smoothing factor between 0 and 1. *)
Definition in_range (max : Q) (d : display) : Prop :=
  (0 <= value d /\ value d <= max) /\
  (0 <= target_value d /\ target_value d <= max) /\
  (0 <= smoothing_factor d /\ smoothing_factor d <= 1).

End GaugeWidget.

(** [class ImageTachometer]. *)
Module ImageTachometer.
Import ImageGauge GaugeWidget.

(** [self.max_rpm], set by [__init__] and never assigned again. *)
Definition max_rpm : Q := 8000.

(** [set_rpm]. *)
Definition set_rpm (self : Widget) (rpm : Q) : Widget :=
  set_shown (set_target_value (Py.max 0 (Py.min rpm max_rpm)) (shown self))
            self.

Section Painting.
Variable atan2_degrees : Q -> Q -> Q.
Variables scaledToWidth scaledToHeight : QPixmap -> Z -> QPixmap.

(** The angle [_draw_needle] turns the needle to. *)
Definition needle_angle (fuel : nat) (self : Widget) : res Q :=
  match angle_calculator (gauge self) with
  | Some calc =>
      AngleCalc.value_to_angle atan2_degrees fuel calc (value (shown self))
  | None =>
      let start_angle := 270 in
      let sweep_angle := 279 in
      let* angle_fraction := Py.div (value (shown self)) max_rpm in
      Ok (start_angle - sweep_angle * angle_fraction)
  end.

(** [_draw_needle]. *)
Definition _draw_needle (fuel : nat) (self : Widget) (fr : frame)
    : painted :=
  mkPainted fr
    (let* angle := needle_angle fuel self in
     _rotate_and_draw_needle (gauge self) angle (radius fr))
    (_draw_all_named_needles (gauge self) (radius fr)).

(** [paintEvent], inherited from [ImageBasedGauge]. *)
Definition paintEvent (fuel : nat) (width height : Z) : M Widget painted :=
  do fr <- paint_frame scaledToWidth scaledToHeight width height in
  do self <- read id in
  ret (_draw_needle fuel self fr).

End Painting.

End ImageTachometer.

(** [class ImageSpeedometer]. *)
Module ImageSpeedometer.
Import ImageGauge GaugeWidget.

(** [self.max_speed], set by [__init__] and never assigned again. *)
Definition max_speed : Q := 260.

(** [set_speed]. *)
Definition set_speed (self : Widget) (speed : Q) : Widget :=
  set_shown (set_target_value (Py.max 0 (Py.min speed max_speed)) (shown self))
            self.

Section Painting.
Variable atan2_degrees : Q -> Q -> Q.
Variables scaledToWidth scaledToHeight : QPixmap -> Z -> QPixmap.

(** The angle [_draw_needle] turns the needle to. *)
Definition needle_angle (fuel : nat) (self : Widget) : res Q :=
  match angle_calculator (gauge self) with
  | Some calc =>
      AngleCalc.value_to_angle atan2_degrees fuel calc (value (shown self))
  | None =>
      let start_angle := 240 in
      let sweep_angle := 300 in
      let* angle_fraction := Py.div (value (shown self)) max_speed in
      Ok (start_angle - sweep_angle * angle_fraction)
  end.

(** [_draw_needle]. *)
Definition _draw_needle (fuel : nat) (self : Widget) (fr : frame)
    : painted :=
  mkPainted fr
    (let* angle := needle_angle fuel self in
     _rotate_and_draw_needle (gauge self) angle (radius fr))
    (_draw_all_named_needles (gauge self) (radius fr)).

(** [paintEvent], inherited from [ImageBasedGauge]. *)
Definition paintEvent (fuel : nat) (width height : Z) : M Widget painted :=
  do fr <- paint_frame scaledToWidth scaledToHeight width height in
  do self <- read id in
  ret (_draw_needle fuel self fr).

End Painting.

End ImageSpeedometer.

(** [class ImageFuelGauge], the widget. *)
Module FuelGaugeWidget.
Import ImageGauge GaugeWidget.

(** The fuel gauge widget: the calibration attributes of both needles,
    the display attributes, and the attributes [__init__] of the
    subclass adds for the values shown. *)
Record FuelWidget : Type := mkFuelWidget {
  dual : ImageFuelGauge;
  fuel_shown : display;
  temperature : Q;
  boost : Q;
  water_value : Q;
  water_target_value : Q
}.

Definition set_dual (v : ImageFuelGauge) (self : FuelWidget) : FuelWidget :=
  mkFuelWidget v (fuel_shown self) (temperature self) (boost self)
    (water_value self) (water_target_value self).

Definition set_fuel_shown (v : display) (self : FuelWidget) : FuelWidget :=
  mkFuelWidget (dual self) v (temperature self) (boost self)
    (water_value self) (water_target_value self).

Definition set_temperature_attr (v : Q) (self : FuelWidget) : FuelWidget :=
  mkFuelWidget (dual self) (fuel_shown self) v (boost self)
    (water_value self) (water_target_value self).

Definition set_boost_attr (v : Q) (self : FuelWidget) : FuelWidget :=
  mkFuelWidget (dual self) (fuel_shown self) (temperature self) v
    (water_value self) (water_target_value self).

Definition set_water_value (v : Q) (self : FuelWidget) : FuelWidget :=
  mkFuelWidget (dual self) (fuel_shown self) (temperature self) (boost self)
    v (water_target_value self).

Definition set_water_target_value (v : Q) (self : FuelWidget) : FuelWidget :=
  mkFuelWidget (dual self) (fuel_shown self) (temperature self) (boost self)
    (water_value self) v.

(** [ImageFuelGauge.__init__]. *)
Definition init (bg : QPixmap) (needle : option artwork) : FuelWidget :=
  let w := GaugeWidget.init bg needle in
  mkFuelWidget
    (mkFuelGauge (gauge w) None None None None false (0.5, 1.0) (0.5, 0.5)
       None None 0.0 1.0)
    (shown w) 80 0.0 80 80.

(** [set_fuel]. *)
Definition set_fuel (self : FuelWidget) (percentage : Q) : FuelWidget :=
  set_fuel_shown
    (set_target_value (Py.max 0 (Py.min percentage 100)) (fuel_shown self))
    self.

(** [set_temperature]. *)
Definition set_temperature (self : FuelWidget) (temp : Q) : FuelWidget :=
  set_water_target_value temp
    (set_temperature_attr (Py.max 0 (Py.min temp 120)) self).

(** [set_boost]. *)
Definition set_boost (self : FuelWidget) (boost : Q) : FuelWidget :=
  set_boost_attr (Py.max 0 (Py.min boost 2.5)) self.

(** Lines 827-841 of [_draw_water_needle]: the sizing of the PNG water
    needle [pm]. *)
Definition water_pixmap_size (self : FuelWidget) (pm : QPixmap) (radius : Q)
    : res needle_size :=
  let tip := water_tip_radius_px (dual self) in
  let display_scale := gauge_display_scale (base (dual self)) in
  let desired_length :=
    if Py.truthy_opt tip && Py.truthy display_scale
    then (fun tip => tip * display_scale) <$> tip
    else None in
  match water_needle_length_px (dual self), desired_length with
  | Some len, Some desired =>
      if Py.truthy len && Py.truthy desired then
        let desired := desired * water_needle_scale (dual self) in
        let* scale := Py.div desired len in
        let scaled_width := Z.max 1 (Py.int (inject_Z (width pm) * scale)) in
        let scaled_height := Z.max 1 (Py.int (inject_Z (height pm) * scale)) in
        Ok (PixmapScaled scaled_width scaled_height)
      else
        Ok (PixmapScaledToHeight
              (Py.int (radius * 1.5 * water_needle_scale (dual self))))
  | _, _ =>
      Ok (PixmapScaledToHeight
            (Py.int (radius * 1.5 * water_needle_scale (dual self))))
  end.

(** [_draw_svg_water_needle]; [None] when it returns without painting. *)
Definition _draw_svg_water_needle (self : FuelWidget) (radius angle : Q)
    : res (option needle_draw) :=
  match water_needle_svg (dual self) with
  | None => Ok None
  | Some svg =>
      let tip := water_tip_radius_px (dual self) in
      let display_scale := gauge_display_scale (base (dual self)) in
      let desired_length :=
        match tip with
        | Some t =>
            if Py.truthy t && Py.truthy display_scale then t * display_scale
            else radius * 1.5
        | None => radius * 1.5
        end in
      let desired_length := desired_length * water_needle_scale (dual self) in
      let* scale :=
        if decide (0 < svg_height svg)%Z
        then Py.div desired_length (inject_Z (svg_height svg))
        else Ok 1.0 in
      let needle_width := Py.int (inject_Z (svg_width svg) * scale) in
      let needle_height := Py.int (inject_Z (svg_height svg) * scale) in
      Ok (Some (mkDraw (SvgRendered needle_width needle_height)
                       (angle - water_base_angle (dual self))))
  end.

Section Painting.
Variable atan2_degrees : Q -> Q -> Q.
Variables scaledToWidth scaledToHeight : QPixmap -> Z -> QPixmap.

(** The angle [_draw_fuel_needle] turns the fuel needle to. *)
Definition fuel_needle_angle (fuel : nat) (self : FuelWidget) : res Q :=
  match fuel_angle_calculator (dual self) with
  | Some calc =>
      AngleCalc.value_to_angle atan2_degrees fuel calc
        (value (fuel_shown self))
  | None =>
      let left_angle := 180 in
      let right_angle := 90 in
      let* angle_fraction := Py.div (value (fuel_shown self)) 100 in
      Ok (left_angle - (left_angle - right_angle) * angle_fraction)
  end.

(** [_draw_fuel_needle]. *)
Definition _draw_fuel_needle (fuel : nat) (self : FuelWidget) (radius : Q)
    : res (option needle_draw) :=
  let* angle := fuel_needle_angle fuel self in
  _rotate_and_draw_needle (base (dual self)) angle radius.

(** [_draw_water_needle]; [None] when it returns without painting. *)
Definition _draw_water_needle (fuel : nat) (self : FuelWidget) (radius : Q)
    : res (option needle_draw) :=
  match water_angle_calculator (dual self) with
  | None => Ok None
  | Some calc =>
      let* angle :=
        AngleCalc.value_to_angle atan2_degrees fuel calc (water_value self) in
      if is_water_svg_needle (dual self)
         && bool_decide (is_Some (water_needle_svg (dual self)))
      then _draw_svg_water_needle self radius angle
      else
        match water_needle_pixmap (dual self) with
        | None => Ok None
        | Some pm =>
            let* sz := water_pixmap_size self pm radius in
            Ok (Some (mkDraw sz (angle - water_base_angle (dual self))))
        end
  end.

(** What a paint event of the fuel gauge draws. *)
Record fuel_painted : Type := mkFuelPainted {
  fuel_background : option (Z * Z * QPixmap);
  fuel_center : Q * Q;
  water_center : Q * Q;
  fuel_radius : Q;
  fuel_needle : res (option needle_draw);
  water_needle : res (option needle_draw);
  fuel_named : gmap string (res (option needle_draw))
}.

(** The assignment of [gauge_display_scale] in a paint event (lines
    767-768). *)
Definition update_display_scale (gauge_width : Z) : M FuelWidget unit :=
  do bg_width <- read (fun self => gauge_bg_width (base (dual self))) in
  match bg_width with
  | Some w =>
      when (truthy_int (Some w))
        (do scale <- lift (Py.div (inject_Z gauge_width) (inject_Z w)) in
         assign (fun self =>
                   set_dual
                     (set_base (set_gauge_display_scale scale
                                  (base (dual self)))
                               (dual self))
                     self))
  | None => ret tt
  end.

(** [ImageFuelGauge.paintEvent]. *)
Definition paintEvent (fuel : nat) (width height : Z)
    : M FuelWidget fuel_painted :=
  run assign (fun self =>
                set_fuel_shown (_smooth_value (fuel_shown self)) self) in
  run assign (fun self =>
                set_water_value
                  (water_value self
                   + (water_target_value self - water_value self)
                     * smoothing_factor (fuel_shown self))
                  self) in
  do bg <- read (fun self => bg_pixmap (fuel_shown self)) in
  do geometry <-
    (if negb (isNull bg) then
       let scaled_pixmap :=
         fit_background scaledToWidth scaledToHeight bg width height in
       let x := inject_Z (width - ImageGauge.width scaled_pixmap) / 2 in
       let y := inject_Z (height - ImageGauge.height scaled_pixmap) / 2 in
       let gauge_width := ImageGauge.width scaled_pixmap in
       let gauge_height := ImageGauge.height scaled_pixmap in
       run update_display_scale gauge_width in
       ret (Some (Py.int x, Py.int y, scaled_pixmap),
            x, y, gauge_width, gauge_height)
     else
       ret (None, 0, 0, width, height)) in
  let '(drawn, gauge_x, gauge_y, gauge_width, gauge_height) := geometry in
  let radius := inject_Z (Z.min gauge_width gauge_height) / 2 in
  do self <- read id in
  let offset := needle_center_offset (base (dual self)) in
  let water_offset := water_needle_center_offset (dual self) in
  ret (mkFuelPainted drawn
         (gauge_x + inject_Z gauge_width * offset.1,
          gauge_y + inject_Z gauge_height * offset.2)
         (gauge_x + inject_Z gauge_width * water_offset.1,
          gauge_y + inject_Z gauge_height * water_offset.2)
         radius
         (_draw_fuel_needle fuel self radius)
         (_draw_water_needle fuel self radius)
         (_draw_all_named_needles (base (dual self)) radius)).

End Painting.

End FuelGaugeWidget.

(** ** image_gauge.py: loading from a configuration file *)

Module GaugeFiles.
Import ImageGauge.

(** A configuration file as [json.load] returns it: the object under
    the key ['needle_calibrations'], when the key is there. *)
Record config : Type := mkConfig {
  needle_calibrations : option (gmap string needle_cal)
}.

(** How the loop over the other needles ends. *)
Inductive outcome : Set := Finished | Raised.

(** The loop of [load_all_needles_from_file] over the needles of the
    file (lines 273-293), in the order [entries] lists them.  For an
    entry with two or more calibration points the body calls
    [AngleCalculator()]; the constructor requires [gauge_pivot_x] and
    [gauge_pivot_y], so that call raises [TypeError] and the loop ends
    there: the lines behind the call, which would store the needle in
    [named_needles], are never reached. *)
Fixpoint load_named_needles (entries : list (string * needle_cal))
    (main_needle_id : string) : outcome :=
  match entries with
  | [] => Finished
  | (needle_id, needle_cal) :: entries' =>
      if decide (needle_id <> main_needle_id) then
        let points := default [] (cal_calibration_points needle_cal) in
        if bool_decide (points <> []) && bool_decide (2 <= length points)%nat
        then Raised
        else load_named_needles entries' main_needle_id
      else load_named_needles entries' main_needle_id
  end.

Section Loading.
Variable atan2_degrees : Q -> Q -> Q.
Variable pow_half : Q -> Q.
Variable AngleCalculator_imported : bool.

(** [load_v2_from_file]; [file] is what opening and parsing
    [config_path] gave, [None] when that raised. *)
Definition load_v2_from_file (file : option config) (needle_id : string)
    : M ImageBasedGauge bool :=
  match file with
  | None => ret false
  | Some config =>
      let needle_calibrations := default ∅ (needle_calibrations config) in
      try_except
        (load_v2_calibration atan2_degrees pow_half AngleCalculator_imported
           needle_calibrations needle_id)
        false
  end.

(** [load_all_needles_from_file]. *)
Definition load_all_needles_from_file (file : option config)
    (main_needle_id : string) : M ImageBasedGauge bool :=
  match file with
  | None => ret false
  | Some config =>
      let needle_calibrations := default ∅ (needle_calibrations config) in
      try_except
        (run match needle_calibrations !! main_needle_id with
             | Some _ =>
                 run load_v2_calibration atan2_degrees pow_half
                       AngleCalculator_imported needle_calibrations
                       main_needle_id in
                 ret tt
             | None => ret tt
             end in
         match load_named_needles (map_to_list needle_calibrations)
                 main_needle_id with
         | Finished => ret true
         | Raised => ret false (* [except Exception: return False] *)
         end)
        false
  end.

End Loading.

End GaugeFiles.
(** ** Further concrete inputs used in the examples *)

Module MoreExamples.

(** A configuration entry whose second calibration point has no ['y']. *)
Definition malformed_cal : ImageGauge.needle_cal :=
  ImageGauge.mkCal (Some 0) (Some 0) None None None None
    (Some [AngleCalc.dict_of 3 4 0;
           AngleCalc.mkDict (Some 6) None (Some 100)]) None.

(** A configuration entry without calibration points. *)
Definition empty_cal : ImageGauge.needle_cal :=
  ImageGauge.mkCal (Some 540) (Some 540) None None None None (Some []) None.

(** A stand-in for Qt's [scaledToWidth] and [scaledToHeight] in the
    examples: the other side follows the aspect ratio, rounded down. *)
Definition scaled_to_width (pm : ImageGauge.QPixmap) (w : Z)
    : ImageGauge.QPixmap :=
  ImageGauge.mkPixmap (ImageGauge.isNull pm) w
    (ImageGauge.height pm * w / ImageGauge.width pm).

Definition scaled_to_height (pm : ImageGauge.QPixmap) (h : Z)
    : ImageGauge.QPixmap :=
  ImageGauge.mkPixmap (ImageGauge.isNull pm)
    (ImageGauge.width pm * h / ImageGauge.height pm) h.

(** A tachometer as [__init__] leaves it, with a 1080 x 1080 background
    and a 40 x 370 PNG needle. *)
Definition fresh_widget : GaugeWidget.Widget :=
  GaugeWidget.init (ImageGauge.mkPixmap false 1080 1080)
    (Some (ImageGauge.PixmapFile (ImageGauge.mkPixmap false 40 370))).

(** A configuration entry: gauge pivot (540, 500), calibration points
    right of it and above it, needle pivot (20, 350), needle end
    (20, 10). *)
Definition offset_cal : ImageGauge.needle_cal :=
  ImageGauge.mkCal (Some 540) (Some 500) (Some 20) (Some 350) (Some 20)
    (Some 10)
    (Some [AngleCalc.dict_of 600 500 0; AngleCalc.dict_of 540 400 100]) None.

End MoreExamples.
(** * Properties *)

(** ** Facts about the float model *)

Section PyFacts.

Lemma floor_add_Z (q : Q) (k : Z) :
  Qfloor (q + inject_Z k) = (Qfloor q + k)%Z.
Proof.
  pose proof (Qfloor_le q) as Hl.
  pose proof (Qlt_floor q) as Hu.
  pose proof (Qfloor_le (q + inject_Z k)) as Hl'.
  pose proof (Qlt_floor (q + inject_Z k)) as Hu'.
  rewrite inject_Z_plus in Hu, Hu'.
  assert (inject_Z (Qfloor (q + inject_Z k)) < inject_Z (Qfloor q + k + 1)) as H1.
  { rewrite !inject_Z_plus. lra. }
  assert (inject_Z (Qfloor q + k) < inject_Z (Qfloor (q + inject_Z k) + 1)) as H2.
  { rewrite !inject_Z_plus. lra. }
  rewrite <- Zlt_Qlt in H1, H2. lia.
Qed.

Lemma mod_range (x : Q) : 0 <= Py.mod_ x 360 /\ Py.mod_ x 360 < 360.
Proof.
  unfold Py.mod_.
  pose proof (Qfloor_le (x / 360)) as Hl.
  pose proof (Qlt_floor (x / 360)) as Hu.
  rewrite inject_Z_plus in Hu.
  assert (x == 360 * (x / 360)) as E by (field; lra).
  set (q := x / 360) in *. set (f := inject_Z (Qfloor q)) in *.
  change (inject_Z 1) with 1 in Hu. clearbody f q. split; lra.
Qed.

#[export] Instance mod_comp : Proper (Qeq ==> Qeq ==> Qeq) Py.mod_.
Proof.
  intros a b Hab m n Hmn. unfold Py.mod_.
  assert (Qfloor (a / m) = Qfloor (b / n)) as ->.
  { apply Qfloor_comp. now rewrite Hab, Hmn. }
  now rewrite Hab, Hmn.
Qed.

Lemma mod_shift (x : Q) (k : Z) :
  Py.mod_ (x + 360 * inject_Z k) 360 == Py.mod_ x 360.
Proof.
  unfold Py.mod_.
  assert ((x + 360 * inject_Z k) / 360 == x / 360 + inject_Z k) as E by (field; lra).
  rewrite (Qfloor_comp _ _ E), floor_add_Z, inject_Z_plus. lra.
Qed.

Lemma mod_small (x : Q) : 0 <= x -> x < 360 -> Py.mod_ x 360 == x.
Proof.
  intros H0 H1. unfold Py.mod_.
  assert (Qfloor (x / 360) = 0%Z) as ->.
  { pose proof (Qfloor_le (x / 360)) as Hl.
    pose proof (Qlt_floor (x / 360)) as Hu.
    assert (x == 360 * (x / 360)) as E by (field; lra).
    set (q := x / 360) in *. clearbody q.
    assert (inject_Z (Qfloor q) < inject_Z 1) as Hlt.
    { change (inject_Z 1) with 1. lra. }
    assert (inject_Z (-1) < inject_Z (Qfloor q)) as Hgt.
    { rewrite inject_Z_plus in Hu. change (inject_Z 1) with 1 in Hu.
      change (inject_Z (-1)) with (-1). lra. }
    rewrite <- Zlt_Qlt in Hlt, Hgt. lia. }
  change (inject_Z 0) with 0. lra.
Qed.

Lemma mod_congr (a b : Q) (k : Z) :
  a == b + 360 * inject_Z k -> Py.mod_ a 360 == Py.mod_ b 360.
Proof. intros ->. apply mod_shift. Qed.

Lemma getitem_Ok {A : Type} (l : list A) (i : nat) (a : A) :
  Py.getitem l i = Ok a <-> l !! i = Some a.
Proof.
  unfold Py.getitem. destruct (l !! i); split; intros H; congruence.
Qed.

Lemma getlast_Ok {A : Type} (l : list A) (a : A) :
  Py.getlast l = Ok a <-> last l = Some a.
Proof.
  unfold Py.getlast. destruct (last l); split; intros H; congruence.
Qed.

(** A fuelled computation finishes on at most one value. *)
Lemma returns_unique {A : Type} (m : nat -> res A) (a b : A) :
  returns m a -> returns m b -> a = b.
Proof.
  intros [n Hn] [k Hk].
  specialize (Hn (n `max` k)%nat ltac:(lia)).
  specialize (Hk (n `max` k)%nat ltac:(lia)).
  congruence.
Qed.

(** *** The stable sort *)

Section SortFacts.
Context {A : Type} (key : A -> Q).

Lemma insert_by_HdRel (a x : A) (l : list A) :
  Py.le_by key a x -> HdRel (Py.le_by key) a l ->
  HdRel (Py.le_by key) a (Py.insert_by key x l).
Proof.
  intros Hax Hal. destruct l as [|y l]; cbn [Py.insert_by].
  - now constructor.
  - destruct (decide (key x <= key y)); constructor; auto.
    now inversion Hal.
Qed.

Lemma insert_by_Sorted (x : A) (l : list A) :
  Sorted (Py.le_by key) l -> Sorted (Py.le_by key) (Py.insert_by key x l).
Proof.
  induction 1 as [|y l Hl IH Hy]; cbn [Py.insert_by].
  - repeat constructor.
  - destruct (decide (key x <= key y)) as [Hle|Hgt].
    + constructor; [now constructor|now constructor].
    + constructor; [exact IH|].
      apply insert_by_HdRel; [|exact Hy].
      unfold Py.le_by. lra.
Qed.

Lemma sort_by_Sorted (l : list A) : Sorted (Py.le_by key) (Py.sort_by key l).
Proof.
  induction l as [|x l IH]; cbn [Py.sort_by]; [constructor|].
  now apply insert_by_Sorted.
Qed.

Lemma insert_by_Permutation (x : A) (l : list A) :
  Py.insert_by key x l ≡ₚ x :: l.
Proof.
  induction l as [|y l IH]; cbn [Py.insert_by]; [reflexivity|].
  destruct (decide (key x <= key y)); [reflexivity|].
  rewrite IH. apply Permutation_swap.
Qed.

Lemma sort_by_Permutation (l : list A) : Py.sort_by key l ≡ₚ l.
Proof.
  induction l as [|x l IH]; cbn [Py.sort_by]; [reflexivity|].
  now rewrite insert_by_Permutation, IH.
Qed.

(** The sort is stable: the elements that share a key come out in the
    order they went in. *)
Lemma insert_by_filter (k : Q) (x : A) (l : list A) :
  filter (fun y => key y == k) (Py.insert_by key x l)
  = filter (fun y => key y == k) (x :: l).
Proof.
  induction l as [|y l IH]; cbn [Py.insert_by]; [reflexivity|].
  destruct (decide (key x <= key y)) as [Hle|Hgt]; [reflexivity|].
  rewrite (filter_cons _ y), IH, !filter_cons.
  destruct (decide (key x == k)) as [Hx|Hx];
    destruct (decide (key y == k)) as [Hy|Hy]; try reflexivity.
  exfalso. apply Hgt. rewrite Hx, Hy. apply Qle_refl.
Qed.

Lemma sort_by_stable (k : Q) (l : list A) :
  filter (fun y => key y == k) (Py.sort_by key l)
  = filter (fun y => key y == k) l.
Proof.
  induction l as [|x l IH]; cbn [Py.sort_by]; [reflexivity|].
  now rewrite insert_by_filter, !filter_cons, IH.
Qed.

(** Sorting a sorted list changes nothing. *)
Lemma sort_by_sorted (l : list A) :
  Sorted (Py.le_by key) l -> Py.sort_by key l = l.
Proof.
  induction 1 as [|x l Hl IH Hx]; cbn [Py.sort_by]; [reflexivity|].
  rewrite IH. destruct Hx as [|y l Hxy]; cbn [Py.insert_by]; [reflexivity|].
  destruct (decide (key x <= key y)); [reflexivity|contradiction].
Qed.

(** In a sorted list, keys grow with the index. *)
Lemma Sorted_lookup_le (l : list A) (i j : nat) (a b : A) :
  Sorted (Py.le_by key) l -> l !! i = Some a -> l !! j = Some b ->
  (i <= j)%nat ->
  key a <= key b.
Proof.
  intros Hs. apply Sorted_StronglySorted in Hs.
  2:{ intros u v w Huv Hvw. unfold Py.le_by in *. lra. }
  revert i j. induction Hs as [|x l Hl IH Hx]; intros i j Hi Hj Hij.
  - discriminate.
  - destruct i as [|i]; destruct j as [|j]; try lia.
    + cbn in Hi, Hj. injection Hi as <-. injection Hj as <-. lra.
    + cbn in Hi, Hj. injection Hi as <-.
      rewrite Forall_forall in Hx. apply Hx.
      eapply list_elem_of_lookup_2. exact Hj.
    + cbn in Hi, Hj. eapply IH; eauto. lia.
Qed.

End SortFacts.

End PyFacts.

(** ** The unwrap loops of angle_calculator.py *)

Module AngleCalcFacts.
Import AngleCalc.

Lemma while_gt_unfold (fuel : nat) (angles : list Q) (i : nat) :
  while_gt fuel angles i =
    let* ai := Py.getitem angles i in
    let* ap := Py.getitem angles (i - 1) in
    if decide (180 < ai - ap) then
      match fuel with
      | O => OutOfFuel
      | S fuel' => while_gt fuel' (<[i := ai - 360]> angles) i
      end
    else Ok angles.
Proof. destruct fuel; reflexivity. Qed.

Lemma while_lt_unfold (fuel : nat) (angles : list Q) (i : nat) :
  while_lt fuel angles i =
    let* ai := Py.getitem angles i in
    let* ap := Py.getitem angles (i - 1) in
    if decide (ai - ap < -180) then
      match fuel with
      | O => OutOfFuel
      | S fuel' => while_lt fuel' (<[i := ai + 360]> angles) i
      end
    else Ok angles.
Proof. destruct fuel; reflexivity. Qed.

(** Every rational is below some whole number of turns. *)
Lemma turns_above (q : Q) : exists n : nat, q <= 360 * inject_Z (Z.of_nat n).
Proof.
  exists (Z.to_nat (Qceiling (q / 360))).
  pose proof (Qle_ceiling (q / 360)) as Hc.
  assert (inject_Z (Qceiling (q / 360))
          <= inject_Z (Z.of_nat (Z.to_nat (Qceiling (q / 360))))) as Hm.
  { rewrite <- Zle_Qle. lia. }
  assert (q == 360 * (q / 360)) as E by (field; lra).
  set (c := q / 360) in *.
  set (u := inject_Z (Qceiling c)) in *.
  set (w := inject_Z (Z.of_nat (Z.to_nat (Qceiling c)))) in *.
  clearbody c u w. lra.
Qed.

Lemma inject_succ (n : nat) :
  inject_Z (Z.of_nat (S n)) == inject_Z (Z.of_nat n) + 1.
Proof. rewrite Nat2Z.inj_succ. unfold Z.succ. now rewrite inject_Z_plus. Qed.

(** The subtracting loop at index [i] stops after at most [n] iterations
    when the gap to the previous angle is at most [180 + 360 * n]; it
    rewrites slot [i] only, by a whole number of turns. *)
Lemma while_gt_spec (n : nat) :
  forall (angles : list Q) (i : nat) (ai ap : Q),
    (1 <= i)%nat ->
    angles !! i = Some ai ->
    angles !! (i - 1)%nat = Some ap ->
    ai - ap <= 180 + 360 * inject_Z (Z.of_nat n) ->
    exists (a' : Q) (k : Z),
      (forall fuel, (n <= fuel)%nat ->
                    while_gt fuel angles i = Ok (<[i := a']> angles)) /\
      a' == ai + 360 * inject_Z k /\
      a' - ap <= 180 /\
      (a' = ai \/ -180 < a' - ap).
Proof.
  induction n as [|n IH]; intros angles i ai ap Hi Hai Hap Hgap.
  - exists ai, 0%Z. change (inject_Z (Z.of_nat 0)) with 0 in Hgap.
    change (inject_Z 0) with 0.
    repeat split; try lra; [|now left].
    intros fuel _. rewrite while_gt_unfold.
    apply getitem_Ok in Hai, Hap. rewrite Hai, Hap.
    destruct (decide (180 < ai - ap)); [lra|].
    apply getitem_Ok in Hai. now rewrite list_insert_id.
  - destruct (decide (180 < ai - ap)) as [Hgt|Hle].
    + assert ((i < length angles)%nat) as Hlen by (eapply lookup_lt_Some; eauto).
      destruct (IH (<[i := ai - 360]> angles) i (ai - 360) ap Hi) as (a' & k & Hrun & Hk & Hub & Hlb).
      * now apply list_lookup_insert_eq.
      * rewrite list_lookup_insert_ne by lia. exact Hap.
      * rewrite inject_succ in Hgap. lra.
      * exists a', (k - 1)%Z. repeat split.
        -- intros [|fuel] Hf; [lia|].
           rewrite while_gt_unfold.
           apply getitem_Ok in Hai, Hap. rewrite Hai, Hap.
           destruct (decide (180 < ai - ap)); [|lra].
           rewrite Hrun by lia. now rewrite list_insert_insert_eq.
        -- unfold Zminus. rewrite inject_Z_plus.
           change (inject_Z (- (1))) with (-1). lra.
        -- exact Hub.
        -- right. destruct Hlb as [-> | Hlb]; lra.
    + exists ai, 0%Z. change (inject_Z 0) with 0.
      repeat split; try lra; [|now left].
      intros fuel _. rewrite while_gt_unfold.
      apply getitem_Ok in Hai, Hap. rewrite Hai, Hap.
      destruct (decide (180 < ai - ap)); [lra|].
      apply getitem_Ok in Hai. now rewrite list_insert_id.
Qed.

(** The adding loop, symmetrically. *)
Lemma while_lt_spec (n : nat) :
  forall (angles : list Q) (i : nat) (ai ap : Q),
    (1 <= i)%nat ->
    angles !! i = Some ai ->
    angles !! (i - 1)%nat = Some ap ->
    -180 - 360 * inject_Z (Z.of_nat n) <= ai - ap ->
    exists (a' : Q) (k : Z),
      (forall fuel, (n <= fuel)%nat ->
                    while_lt fuel angles i = Ok (<[i := a']> angles)) /\
      a' == ai + 360 * inject_Z k /\
      -180 <= a' - ap /\
      (a' = ai \/ a' - ap < 180).
Proof.
  induction n as [|n IH]; intros angles i ai ap Hi Hai Hap Hgap.
  - exists ai, 0%Z. change (inject_Z (Z.of_nat 0)) with 0 in Hgap.
    change (inject_Z 0) with 0.
    repeat split; try lra; [|now left].
    intros fuel _. rewrite while_lt_unfold.
    apply getitem_Ok in Hai, Hap. rewrite Hai, Hap.
    destruct (decide (ai - ap < -180)); [lra|].
    apply getitem_Ok in Hai. now rewrite list_insert_id.
  - destruct (decide (ai - ap < -180)) as [Hgt|Hle].
    + assert ((i < length angles)%nat) as Hlen by (eapply lookup_lt_Some; eauto).
      destruct (IH (<[i := ai + 360]> angles) i (ai + 360) ap Hi) as (a' & k & Hrun & Hk & Hub & Hlb).
      * now apply list_lookup_insert_eq.
      * rewrite list_lookup_insert_ne by lia. exact Hap.
      * rewrite inject_succ in Hgap. lra.
      * exists a', (k + 1)%Z. repeat split.
        -- intros [|fuel] Hf; [lia|].
           rewrite while_lt_unfold.
           apply getitem_Ok in Hai, Hap. rewrite Hai, Hap.
           destruct (decide (ai - ap < -180)); [|lra].
           rewrite Hrun by lia. now rewrite list_insert_insert_eq.
        -- rewrite inject_Z_plus. change (inject_Z 1) with 1. lra.
        -- exact Hub.
        -- right. destruct Hlb as [-> | Hlb]; lra.
    + exists ai, 0%Z. change (inject_Z 0) with 0.
      repeat split; try lra; [|now left].
      intros fuel _. rewrite while_lt_unfold.
      apply getitem_Ok in Hai, Hap. rewrite Hai, Hap.
      destruct (decide (ai - ap < -180)); [lra|].
      apply getitem_Ok in Hai. now rewrite list_insert_id.
Qed.

(** One pass of the [for] body at index [i]: both loops finish, slot
    [i] moves by a whole number of turns and ends within half a turn of
    its left neighbour. *)
Lemma unwrap_step (angles : list Q) (i : nat) (ai ap : Q) :
  (1 <= i)%nat ->
  angles !! i = Some ai ->
  angles !! (i - 1)%nat = Some ap ->
  exists (n : nat) (a' : Q) (k : Z),
    (forall fuel, (n <= fuel)%nat ->
       (let* a1 := while_gt fuel angles i in while_lt fuel a1 i)
       = Ok (<[i := a']> angles)) /\
    a' == ai + 360 * inject_Z k /\
    -180 <= a' - ap /\ a' - ap <= 180.
Proof.
  intros Hi Hai Hap.
  assert ((i < length angles)%nat) as Hlen by (eapply lookup_lt_Some; eauto).
  destruct (turns_above (ai - ap - 180)) as [n1 Hn1].
  destruct (while_gt_spec n1 angles i ai ap Hi Hai Hap) as (a1 & k1 & Hrun1 & Hk1 & Hub1 & Hlb1);
    [lra|].
  destruct (turns_above (- (a1 - ap) - 180)) as [n2 Hn2].
  destruct (while_lt_spec n2 (<[i := a1]> angles) i a1 ap Hi) as (a2 & k2 & Hrun2 & Hk2 & Hlb2 & Hub2).
  { now apply list_lookup_insert_eq. }
  { rewrite list_lookup_insert_ne by lia. exact Hap. }
  { lra. }
  exists (n1 `max` n2)%nat, a2, (k1 + k2)%Z. repeat split.
  - intros fuel Hf. rewrite Hrun1 by lia. rewrite Hrun2 by lia.
    now rewrite list_insert_insert_eq.
  - rewrite inject_Z_plus. lra.
  - exact Hlb2.
  - destruct Hub2 as [-> | Hub2]; lra.
Qed.

Lemma unwrap_inv_step (j : nat) (raw cur : list Q) (a' ai ap : Q) (k : Z) :
  (1 <= j)%nat ->
  unwrap_inv j raw cur ->
  cur !! j = Some ai ->
  cur !! (j - 1)%nat = Some ap ->
  a' == ai + 360 * inject_Z k ->
  -180 <= a' - ap -> a' - ap <= 180 ->
  unwrap_inv (S j) raw (<[j := a']> cur).
Proof.
  intros Hj (Hlen & H0 & Hcong & Hdiff & Hrest) Hai Hap Hk Hlb Hub.
  assert ((j < length cur)%nat) as Hjlen by (eapply lookup_lt_Some; eauto).
  split; [|split; [|split; [|split]]].
  - now rewrite length_insert.
  - rewrite list_lookup_insert_ne by lia. exact H0.
  - intros i a r Ha Hr. destruct (decide (i = j)) as [->|Hne].
    + rewrite list_lookup_insert_eq in Ha by lia. injection Ha as <-.
      rewrite Hrest in Hai by lia. rewrite Hai in Hr. injection Hr as <-.
      exists k. exact Hk.
    + rewrite list_lookup_insert_ne in Ha by lia. eauto.
  - intros i a b Hlt Hb Ha. destruct (decide (S i = j)) as [<-|Hne].
    + rewrite list_lookup_insert_eq in Ha by lia. injection Ha as <-.
      rewrite list_lookup_insert_ne in Hb by lia.
      replace (S i - 1)%nat with i in Hap by lia.
      rewrite Hap in Hb. injection Hb as <-. now split.
    + rewrite list_lookup_insert_ne in Ha by lia.
      rewrite list_lookup_insert_ne in Hb by lia.
      eapply Hdiff; eauto. lia.
  - intros i Hi. rewrite list_lookup_insert_ne by lia. apply Hrest. lia.
Qed.

Lemma unwrap_for_spec (m : nat) :
  forall (j : nat) (raw cur : list Q),
    (1 <= j)%nat ->
    (j + m <= length raw)%nat ->
    unwrap_inv j raw cur ->
    exists (n : nat) (u : list Q),
      (forall fuel, (n <= fuel)%nat ->
                    unwrap_for fuel cur (seq j m) = Ok u) /\
      unwrap_inv (j + m) raw u.
Proof.
  induction m as [|m IH]; intros j raw cur Hj Hjm Hinv.
  - exists 0%nat, cur. split; [reflexivity|].
    now replace (j + 0)%nat with j by lia.
  - pose proof Hinv as (Hlen & _ & _ & _ & _).
    destruct (lookup_lt_is_Some_2 cur j) as [ai Hai]; [lia|].
    destruct (lookup_lt_is_Some_2 cur (j - 1)) as [ap Hap]; [lia|].
    destruct (unwrap_step cur j ai ap Hj Hai Hap) as (n1 & a' & k & Hrun & Hk & Hlb & Hub).
    pose proof (unwrap_inv_step j raw cur a' ai ap k Hj Hinv Hai Hap Hk Hlb Hub) as Hinv'.
    destruct (IH (S j) raw (<[j := a']> cur)) as (n2 & u & Hrun2 & Hu); [lia|lia|exact Hinv'|].
    exists (n1 `max` n2)%nat, u. split.
    + intros fuel Hf. cbn [seq unwrap_for].
      specialize (Hrun fuel ltac:(lia)).
      destruct (while_gt fuel cur j) as [a1| |]; try discriminate.
      rewrite Hrun. apply Hrun2. lia.
    + now replace (j + S m)%nat with (S j + m)%nat by lia.
Qed.

Lemma unwrap_spec (raw : list Q) :
  exists u : list Q, returns (fun fuel => unwrap fuel raw) u /\ unwrapped raw u.
Proof.
  unfold unwrap. destruct raw as [|r0 raw'].
  - exists []. split; [exists 0%nat; reflexivity|].
    split; [|split; [|split]]; try reflexivity; intros i a; intros; discriminate.
  - destruct (unwrap_for_spec (length (r0 :: raw') - 1) 1 (r0 :: raw') (r0 :: raw'))
      as (n & u & Hrun & Hlen & H0 & Hcong & Hdiff & _).
    + lia.
    + cbn [length]. lia.
    + split; [|split; [|split; [|split]]]; try reflexivity.
      * intros i a r Ha Hr. rewrite Ha in Hr. injection Hr as <-.
        exists 0%Z. change (inject_Z 0) with 0. lra.
      * intros i a b Hlt. lia.
    + exists u. split; [exists n; exact Hrun|].
      split; [|split; [|split]]; auto.
      intros i a b Hb Ha. apply (Hdiff i a b); auto.
      apply lookup_lt_Some in Ha. cbn [length] in *. lia.
Qed.

(** More fuel never changes the outcome of a loop that finished. *)
Lemma while_gt_mono (fuel : nat) :
  forall (fuel' : nat) (angles u : list Q) (i : nat),
    (fuel <= fuel')%nat ->
    while_gt fuel angles i = Ok u -> while_gt fuel' angles i = Ok u.
Proof.
  induction fuel as [|fuel IH]; intros fuel' angles u i Hle;
    rewrite (while_gt_unfold _ angles), (while_gt_unfold fuel' angles);
    destruct (Py.getitem angles i) as [ai| |]; try discriminate;
    destruct (Py.getitem angles (i - 1)) as [ap| |]; try discriminate;
    destruct (decide (180 < ai - ap)); auto; try discriminate.
  destruct fuel' as [|fuel']; [lia|]. apply IH. lia.
Qed.

Lemma while_lt_mono (fuel : nat) :
  forall (fuel' : nat) (angles u : list Q) (i : nat),
    (fuel <= fuel')%nat ->
    while_lt fuel angles i = Ok u -> while_lt fuel' angles i = Ok u.
Proof.
  induction fuel as [|fuel IH]; intros fuel' angles u i Hle;
    rewrite (while_lt_unfold _ angles), (while_lt_unfold fuel' angles);
    destruct (Py.getitem angles i) as [ai| |]; try discriminate;
    destruct (Py.getitem angles (i - 1)) as [ap| |]; try discriminate;
    destruct (decide (ai - ap < -180)); auto; try discriminate.
  destruct fuel' as [|fuel']; [lia|]. apply IH. lia.
Qed.

Lemma unwrap_for_mono (fuel fuel' : nat) (idx : list nat) :
  forall (angles u : list Q),
    (fuel <= fuel')%nat ->
    unwrap_for fuel angles idx = Ok u -> unwrap_for fuel' angles idx = Ok u.
Proof.
  induction idx as [|i idx IH]; intros angles u Hle; cbn [unwrap_for]; auto.
  destruct (while_gt fuel angles i) as [a1| |] eqn:H1; try discriminate.
  rewrite (while_gt_mono fuel fuel' angles a1 i Hle H1).
  destruct (while_lt fuel a1 i) as [a2| |] eqn:H2; try discriminate.
  rewrite (while_lt_mono fuel fuel' a1 a2 i Hle H2).
  now apply IH.
Qed.

(** Any run of the unwrap step that finishes yields the unwrapped list. *)
Lemma unwrap_finished (raw u : list Q) (fuel : nat) :
  unwrap fuel raw = Ok u -> unwrapped raw u.
Proof.
  intros Hrun. destruct (unwrap_spec raw) as (u' & [n Hn] & Hu').
  assert (unwrap (fuel `max` n) raw = Ok u) as H1.
  { unfold unwrap in *. eapply unwrap_for_mono; [|exact Hrun]. lia. }
  rewrite Hn in H1 by lia. now injection H1 as <-.
Qed.

(** ** The calibration point store *)

Lemma points_from_list_loop_sorted (points : list point_dict) :
  forall self : AngleCalculator,
    sorted_by_value (calibration_points self) ->
    sorted_by_value (calibration_points (points_from_list_loop self points).1).
Proof.
  induction points as [|p points IH]; intros self Hs; cbn [points_from_list_loop].
  - exact Hs.
  - destruct (getkey (d_x p)) as [px| |]; try exact Hs.
    destruct (getkey (d_y p)) as [py| |]; try exact Hs.
    destruct (getkey (d_value p)) as [v| |]; try exact Hs.
    apply IH. apply sort_by_Sorted.
Qed.

Lemma points_from_list_sorted (self : AngleCalculator)
    (points : list point_dict) :
  sorted_by_value (calibration_points (points_from_list self points).1).
Proof. apply points_from_list_loop_sorted. constructor. Qed.

(** Whatever sequence of mutators built the calculator, its store is
    sorted. *)
Lemma reachable_sorted (self : AngleCalculator) :
  reachable self -> sorted_by_value (calibration_points self).
Proof.
  induction 1 as [gx gy|self px py v _ _|self points _ _].
  - constructor.
  - apply sort_by_Sorted.
  - apply points_from_list_sorted.
Qed.

(** The store holds the listed points, whatever their order. *)
Lemma points_from_list_loop_Permutation (points : list point_dict) :
  forall (self self' : AngleCalculator),
    points_from_list_loop self points = (self', Ok tt) ->
    exists added : list CalibrationPoint,
      Forall2 (fun d p => d = dict_of (x p) (y p) (value p)) points added /\
      calibration_points self' ≡ₚ calibration_points self ++ added.
Proof.
  induction points as [|d points IH]; intros self self' Hrun;
    cbn [points_from_list_loop] in Hrun.
  - injection Hrun as <-. exists []. split; [constructor|].
    now rewrite app_nil_r.
  - destruct d as [[px|] [py|] [v|]]; cbn in Hrun; try discriminate.
    destruct (IH _ _ Hrun) as (added & Hall & Hperm).
    exists (mkPoint px py v :: added). split; [constructor; auto|].
    rewrite Hperm. cbn [add_point calibration_points].
    rewrite sort_by_Permutation, <- app_assoc. reflexivity.
Qed.

(** ** The look-up of angle_calculator.py *)

Section Lookup.
Variable atan2_degrees : Q -> Q -> Q.

(** With the arctangent between -180 and 180 degrees, a bearing lies in
    [0, 360) and is its own residue mod 360. *)
Lemma calculate_angle_to_point_range (gx gy px py : Q) :
  -180 <= atan2_degrees (py - gy) (px - gx) ->
  atan2_degrees (py - gy) (px - gx) <= 180 ->
  0 <= calculate_angle_to_point atan2_degrees gx gy px py /\
  calculate_angle_to_point atan2_degrees gx gy px py < 360.
Proof.
  intros Hlo Hhi. unfold calculate_angle_to_point. cbv zeta.
  destruct (decide (atan2_degrees (py - gy) (px - gx) < 0)); split; lra.
Qed.

Lemma bearing_mod (self : AngleCalculator) (p : CalibrationPoint) :
  -180 <= atan2_degrees (y p - gauge_pivot_y self) (x p - gauge_pivot_x self) ->
  atan2_degrees (y p - gauge_pivot_y self) (x p - gauge_pivot_x self) <= 180 ->
  Py.mod_ (bearing atan2_degrees self p) 360 == bearing atan2_degrees self p.
Proof.
  intros Hlo Hhi. unfold bearing.
  destruct (calculate_angle_to_point_range (gauge_pivot_x self)
              (gauge_pivot_y self) (x p) (y p) Hlo Hhi) as [H0 H1].
  now apply mod_small.
Qed.

(** The bracket search never raises when both lists have the same
    length and every visited index has a right neighbour; what it
    returns is a normalised angle. *)
Lemma bracket_for_ok (points : list CalibrationPoint) (angles : list Q)
    (v : Q) (idx : list nat) :
  length angles = length points ->
  Forall (fun i => (S i < length points)%nat) idx ->
  exists r : option Q,
    bracket_for points angles v idx = Ok r /\
    forall a, r = Some a -> 0 <= a /\ a < 360.
Proof.
  intros Hlen Hidx. induction Hidx as [|i idx Hi _ IH].
  - exists None. split; [reflexivity|]. intros a Ha. discriminate.
  - cbn [bracket_for].
    destruct (lookup_lt_is_Some_2 points i) as [p1 Hp1]; [lia|].
    destruct (lookup_lt_is_Some_2 points (i + 1)) as [p2 Hp2]; [lia|].
    destruct (lookup_lt_is_Some_2 angles i) as [ai Hai]; [lia|].
    destruct (lookup_lt_is_Some_2 angles (i + 1)) as [aj Haj]; [lia|].
    apply getitem_Ok in Hp1, Hp2, Hai, Haj.
    rewrite Hp1. destruct (decide (value p1 <= v)); [|exact IH].
    rewrite Hp2. destruct (decide (v <= value p2)); [|exact IH].
    destruct (decide (value p2 == value p1)) as [Heq|Hne].
    + rewrite Hai. eexists. split; [reflexivity|].
      intros a [= <-]. apply mod_range.
    + unfold Py.div.
      destruct (decide (value p2 - value p1 == 0)) as [Hz|_]; [lra|].
      rewrite Hai, Haj. eexists. split; [reflexivity|].
      intros a [= <-]. apply mod_range.
Qed.

Lemma seq_bound (n : nat) :
  Forall (fun i => (S i < S n)%nat) (seq 0 n).
Proof.
  apply Forall_forall. intros i Hi.
  apply list_elem_of_In, in_seq in Hi. lia.
Qed.

(** The look-up never raises on non-empty lists of equal length, and
    answers with a normalised angle. *)
Lemma lookup_angle_ok (points : list CalibrationPoint) (angles : list Q)
    (v : Q) :
  points <> [] ->
  length angles = length points ->
  exists a : Q, lookup_angle points angles v = Ok a /\ 0 <= a /\ a < 360.
Proof.
  intros Hne Hlen. unfold lookup_angle.
  destruct points as [|p0 rest]; [congruence|].
  destruct angles as [|a0 arest]; [discriminate|].
  cbn [Py.getitem lookup list_lookup].
  destruct (decide (v <= value p0)).
  { eexists. split; [reflexivity|]. apply mod_range. }
  assert (exists pl, last (p0 :: rest) = Some pl) as [pl Hpl].
  { rewrite last_lookup. apply lookup_lt_is_Some_2. cbn [length]. lia. }
  assert (exists al, last (a0 :: arest) = Some al) as [al Hal].
  { rewrite last_lookup. apply lookup_lt_is_Some_2. cbn [length]. lia. }
  apply getlast_Ok in Hpl, Hal. rewrite Hpl.
  destruct (decide (value pl <= v)).
  { rewrite Hal. eexists. split; [reflexivity|]. apply mod_range. }
  destruct (bracket_for_ok (p0 :: rest) (a0 :: arest) v
              (seq 0 (length (p0 :: rest) - 1)) Hlen) as (r & Hr & Hrange).
  { cbn [length]. replace (S (length rest) - 1)%nat with (length rest) by lia.
    apply seq_bound. }
  rewrite Hr. destruct r as [a|].
  - exists a. split; [reflexivity|]. now apply Hrange.
  - rewrite Hal. eexists. split; [reflexivity|]. apply mod_range.
Qed.

(** [value_to_angle] always finishes, without raising, on a normalised
    angle. *)
Lemma value_to_angle_ok (self : AngleCalculator) (v : Q) :
  exists a : Q,
    returns (fun fuel => value_to_angle atan2_degrees fuel self v) a /\
    0 <= a /\ a < 360.
Proof.
  unfold value_to_angle.
  destruct (calibration_points self) as [|p0 rest] eqn:Hpts.
  - exists 0. split; [exists 0%nat; reflexivity|]. lra.
  - destruct (unwrap_spec (bearing atan2_degrees self <$> (p0 :: rest)))
      as (u & [n Hrun] & Hlen & _).
    rewrite length_fmap in Hlen.
    destruct (lookup_angle_ok (p0 :: rest) u v) as (a & Ha & Hrange);
      [discriminate|exact Hlen|].
    exists a. split; [|exact Hrange].
    exists n. intros fuel Hf. rewrite (Hrun fuel Hf). exact Ha.
Qed.

(** At or below the first stored value: the first angle, normalised. *)
Lemma lookup_angle_first (points : list CalibrationPoint)
    (angles : list Q) (v : Q) (p0 : CalibrationPoint) (a0 : Q) :
  points !! 0%nat = Some p0 ->
  angles !! 0%nat = Some a0 ->
  v <= value p0 ->
  lookup_angle points angles v = Ok (Py.mod_ a0 360).
Proof.
  intros Hp0 Ha0 Hv. unfold lookup_angle.
  apply getitem_Ok in Hp0, Ha0. rewrite Hp0.
  destruct (decide (v <= value p0)); [|contradiction].
  now rewrite Ha0.
Qed.

(** Above the first stored value and at or above the last one: the
    last angle, normalised. *)
Lemma lookup_angle_last (points : list CalibrationPoint)
    (angles : list Q) (v : Q) (p0 pl : CalibrationPoint) (al : Q) :
  points !! 0%nat = Some p0 ->
  ~ v <= value p0 ->
  last points = Some pl ->
  value pl <= v ->
  last angles = Some al ->
  lookup_angle points angles v = Ok (Py.mod_ al 360).
Proof.
  intros Hp0 Hv0 Hpl Hvl Hal. unfold lookup_angle.
  apply getitem_Ok in Hp0. apply getlast_Ok in Hpl, Hal. rewrite Hp0.
  destruct (decide (v <= value p0)); [contradiction|].
  rewrite Hpl. destruct (decide (value pl <= v)); [|contradiction].
  now rewrite Hal.
Qed.

(** Indices whose right neighbour lies below [v] are passed over. *)
Lemma bracket_for_skip (points : list CalibrationPoint) (angles : list Q)
    (v : Q) (pre idx : list nat) :
  Forall (fun i => exists p1 p2, points !! i = Some p1 /\
                                 points !! (i + 1)%nat = Some p2 /\
                                 value p2 < v) pre ->
  bracket_for points angles v (pre ++ idx) = bracket_for points angles v idx.
Proof.
  induction 1 as [|i pre (p1 & p2 & Hp1 & Hp2 & Hlt) _ IH]; [reflexivity|].
  cbn [app bracket_for].
  apply getitem_Ok in Hp1, Hp2. rewrite Hp1.
  destruct (decide (value p1 <= v)); [|exact IH].
  rewrite Hp2. destruct (decide (v <= value p2)); [lra|exact IH].
Qed.

(** The bracket whose right end is exactly [v], with a lower left end:
    the right end's angle, normalised. *)
Lemma bracket_for_hit (points : list CalibrationPoint) (angles : list Q)
    (v : Q) (i : nat) (idx : list nat) (p1 p2 : CalibrationPoint)
    (ai aj : Q) :
  points !! i = Some p1 ->
  points !! (i + 1)%nat = Some p2 ->
  angles !! i = Some ai ->
  angles !! (i + 1)%nat = Some aj ->
  value p1 < v ->
  v == value p2 ->
  exists a, bracket_for points angles v (i :: idx) = Ok (Some a) /\
            a == Py.mod_ aj 360.
Proof.
  intros Hp1 Hp2 Hai Haj Hlt Heq. cbn [bracket_for].
  apply getitem_Ok in Hp1, Hp2, Hai, Haj. rewrite Hp1.
  destruct (decide (value p1 <= v)); [|lra].
  rewrite Hp2. destruct (decide (v <= value p2)); [|lra].
  destruct (decide (value p2 == value p1)) as [He|Hne]; [lra|].
  unfold Py.div.
  destruct (decide (value p2 - value p1 == 0)) as [Hz|Hnz]; [lra|].
  rewrite Hai, Haj. eexists. split; [reflexivity|].
  apply mod_comp; [|reflexivity].
  assert ((v - value p1) / (value p2 - value p1) == 1) as ->.
  { rewrite Heq. field. exact Hnz. }
  lra.
Qed.

(** At a stored value that no other point shares, the look-up in any
    unwrapping of the bearings gives that point's bearing. *)
Lemma lookup_angle_at_point (points : list CalibrationPoint)
    (raw u : list Q) (v : Q) (k : nat) (p : CalibrationPoint) (r : Q) :
  sorted_by_value points ->
  length raw = length points ->
  unwrapped raw u ->
  points !! k = Some p ->
  raw !! k = Some r ->
  (forall j q, points !! j = Some q -> j <> k -> ~ value q == value p) ->
  v == value p ->
  exists a, lookup_angle points u v = Ok a /\ a == Py.mod_ r 360.
Proof.
  intros Hs Hlen (Hulen & Hu0 & Hcong & _) Hp Hr Huniq Hv.
  assert ((k < length points)%nat) as Hk by (eapply lookup_lt_Some; eauto).
  assert (forall j q, points !! j = Some q -> (j < k)%nat -> value q < v) as Hbelow.
  { intros j q Hq Hjk.
    pose proof (Sorted_lookup_le value points j k q p Hs Hq Hp ltac:(lia)).
    pose proof (Huniq j q Hq ltac:(lia)). lra. }
  assert (forall j q, points !! j = Some q -> (k < j)%nat -> v < value q) as Habove.
  { intros j q Hq Hjk.
    pose proof (Sorted_lookup_le value points k j p q Hs Hp Hq ltac:(lia)).
    pose proof (Huniq j q Hq ltac:(lia)). lra. }
  destruct (lookup_lt_is_Some_2 u k) as [ak Hak]; [lia|].
  destruct (Hcong k ak r Hak Hr) as [z Hz].
  destruct (decide (k = 0%nat)) as [->|Hk0].
  { exists (Py.mod_ ak 360). split.
    - eapply lookup_angle_first; eauto. lra.
    - eapply mod_congr; eauto. }
  destruct (lookup_lt_is_Some_2 points 0) as [p0 Hp0]; [lia|].
  pose proof (Hbelow 0%nat p0 Hp0 ltac:(lia)) as Hp0v.
  destruct (decide (S k = length points)) as [Hlast|Hnl].
  { exists (Py.mod_ ak 360). split.
    - apply (lookup_angle_last points u v p0 p ak); auto; try lra.
      + rewrite last_lookup. now replace (pred (length points)) with k by lia.
      + rewrite last_lookup. now replace (pred (length u)) with k by lia.
    - eapply mod_congr; eauto. }
  destruct (lookup_lt_is_Some_2 points (pred (length points))) as [pl Hpl]; [lia|].
  pose proof (Habove _ pl Hpl ltac:(lia)) as Hplv.
  destruct (lookup_lt_is_Some_2 points (k - 1)) as [p1 Hp1]; [lia|].
  destruct (lookup_lt_is_Some_2 u (k - 1)) as [a1 Ha1]; [lia|].
  pose proof (Hbelow _ p1 Hp1 ltac:(lia)) as Hp1v.
  destruct (bracket_for_hit points u v (k - 1) (seq k (length points - 1 - k))
              p1 p a1 ak) as (a & Ha & Haeq); auto.
  { now replace (k - 1 + 1)%nat with k by lia. }
  { now replace (k - 1 + 1)%nat with k by lia. }
  exists a. split; [|rewrite Haeq; eapply mod_congr; eauto].
  unfold lookup_angle.
  apply getitem_Ok in Hp0. rewrite Hp0.
  destruct (decide (v <= value p0)); [lra|].
  rewrite <- last_lookup in Hpl. apply getlast_Ok in Hpl. rewrite Hpl.
  destruct (decide (value pl <= v)); [lra|].
  replace (seq 0 (length points - 1))
    with (seq 0 (k - 1) ++ (k - 1)%nat :: seq k (length points - 1 - k)).
  2:{ replace (length points - 1)%nat
        with ((k - 1) + S (length points - 1 - k))%nat by lia.
      rewrite seq_app. cbn [seq]. do 3 f_equal; lia. }
  rewrite bracket_for_skip, Ha; [reflexivity|].
  apply Forall_forall. intros i Hi.
  apply list_elem_of_In, in_seq in Hi.
  destruct (lookup_lt_is_Some_2 points i) as [q1 Hq1]; [lia|].
  destruct (lookup_lt_is_Some_2 points (i + 1)) as [q2 Hq2]; [lia|].
  exists q1, q2. repeat split; auto. apply (Hbelow (i + 1)%nat); auto. lia.
Qed.

Lemma value_to_angle_mono (fuel fuel' : nat) (self : AngleCalculator)
    (v a : Q) :
  (fuel <= fuel')%nat ->
  value_to_angle atan2_degrees fuel self v = Ok a ->
  value_to_angle atan2_degrees fuel' self v = Ok a.
Proof.
  unfold value_to_angle, unwrap. intros Hle.
  destruct (calibration_points self) as [|p0 rest]; auto.
  destruct (unwrap_for fuel _ _) as [u| |] eqn:Hu; try discriminate.
  now rewrite (unwrap_for_mono fuel fuel' _ _ u Hle Hu).
Qed.

(** A run that finished with some fuel is the result of the call. *)
Lemma value_to_angle_run (fuel : nat) (self : AngleCalculator) (v a : Q) :
  value_to_angle atan2_degrees fuel self v = Ok a ->
  returns (fun fuel => value_to_angle atan2_degrees fuel self v) a.
Proof.
  intros Hrun. exists fuel. intros fuel' Hle.
  eapply value_to_angle_mono; eauto.
Qed.

Lemma unwrap_run (fuel : nat) (raw u : list Q) :
  unwrap fuel raw = Ok u -> returns (fun fuel => unwrap fuel raw) u.
Proof.
  intros Hrun. exists fuel. intros fuel' Hle. unfold unwrap in *.
  eapply unwrap_for_mono; eauto.
Qed.

(** The call as the look-up in the unwrapped bearings. *)
Lemma value_to_angle_lookup (self : AngleCalculator) (v a : Q)
    (u : list Q) :
  calibration_points self <> [] ->
  returns (fun fuel => unwrap fuel (bearing atan2_degrees self
                                      <$> calibration_points self)) u ->
  lookup_angle (calibration_points self) u v = Ok a ->
  returns (fun fuel => value_to_angle atan2_degrees fuel self v) a.
Proof.
  intros Hne [n Hn] Ha. exists n. intros fuel Hf. unfold value_to_angle.
  destruct (calibration_points self) as [|p0 rest]; [congruence|].
  now rewrite (Hn fuel Hf).
Qed.

End Lookup.

End AngleCalcFacts.
(** ** The interpolation of calibration_utils.py *)

Module CalibrationUtilsFacts.
Import CalibrationUtils.

Lemma validate_points_sorted (self : NeedleAngleCalculator) :
  sorted_by_value (calibration_points (_validate_points self)).
Proof.
  unfold _validate_points.
  destruct (calibration_points self) as [|p rest] eqn:E.
  - rewrite E. constructor.
  - apply sort_by_Sorted.
Qed.

Lemma needle_reachable_sorted (self : NeedleAngleCalculator) :
  reachable self -> sorted_by_value (calibration_points self).
Proof. induction 1; apply validate_points_sorted. Qed.

Lemma validate_points_Permutation (self : NeedleAngleCalculator) :
  calibration_points (_validate_points self) ≡ₚ calibration_points self.
Proof.
  unfold _validate_points.
  destruct (calibration_points self) as [|p rest] eqn:E.
  - now rewrite E.
  - apply sort_by_Permutation.
Qed.

(** The interpolation loop entered at an index whose point lies strictly
    below [v] never divides by zero and never leaves the list; what it
    returns is a normalised angle. *)
Lemma interpolate_for_ok (points : list CalibrationPoint) (v : Q) (m : nat) :
  forall (j : nat) (pj : CalibrationPoint),
    points !! j = Some pj ->
    value pj < v ->
    (j + m < length points)%nat ->
    exists r : option Q,
      interpolate_for points v (seq j m) = Ok r /\
      forall a, r = Some a -> 0 <= a /\ a < 360.
Proof.
  induction m as [|m IH]; intros j pj Hpj Hlt Hlen.
  - exists None. split; [reflexivity|]. intros a Ha. discriminate.
  - cbn [seq interpolate_for].
    destruct (lookup_lt_is_Some_2 points (j + 1)) as [p2 Hp2]; [lia|].
    pose proof Hp2 as Hp2'.
    apply getitem_Ok in Hpj, Hp2. rewrite Hpj, Hp2.
    rewrite (bool_decide_eq_true_2 (value pj <= v)) by lra.
    cbn [andb]. destruct (bool_decide (v <= value p2)) eqn:Hc.
    + apply bool_decide_eq_true_1 in Hc. unfold Py.div.
      destruct (decide (value p2 - value pj == 0)) as [Hz|_]; [lra|].
      eexists. split; [reflexivity|]. intros a [= <-].
      match goal with
      | |- context [Py.mod_ ?e 360] => pose proof (mod_range e) as [H0 H1]
      end.
      destruct (decide (_ < 0)); split; lra.
    + apply bool_decide_eq_false_1 in Hc.
      replace (S j) with (j + 1)%nat by lia.
      apply (IH (j + 1)%nat p2); auto; [lra|lia].
Qed.

(** At or below the first stored value: the first stored angle. *)
Lemma needle_value_to_angle_first (self : NeedleAngleCalculator) (v : Q)
    (p0 : CalibrationPoint) :
  calibration_points self !! 0%nat = Some p0 ->
  v <= value p0 ->
  value_to_angle self v = Ok (angle p0).
Proof.
  intros Hp0 Hv. unfold value_to_angle.
  destruct (calibration_points self) as [|q rest]; [discriminate|].
  cbn in Hp0. injection Hp0 as ->. cbn [Py.getitem lookup list_lookup].
  destruct (decide (v <= value p0)); [reflexivity|contradiction].
Qed.

(** Above the first stored value and at or above the last one: the last
    stored angle. *)
Lemma needle_value_to_angle_last (self : NeedleAngleCalculator) (v : Q)
    (p0 pl : CalibrationPoint) :
  calibration_points self !! 0%nat = Some p0 ->
  ~ v <= value p0 ->
  last (calibration_points self) = Some pl ->
  value pl <= v ->
  value_to_angle self v = Ok (angle pl).
Proof.
  intros Hp0 Hv Hpl Hvl. unfold value_to_angle.
  destruct (calibration_points self) as [|q rest]; [discriminate|].
  apply getitem_Ok in Hp0. apply getlast_Ok in Hpl. rewrite Hp0.
  destruct (decide (v <= value p0)); [contradiction|].
  rewrite Hpl. destruct (decide (value pl <= v)); [reflexivity|contradiction].
Qed.

(** [value_to_angle] never raises; it answers [0] on an empty store, a
    stored angle, or a normalised angle. *)
Lemma needle_value_to_angle_ok (self : NeedleAngleCalculator) (v : Q) :
  exists a : Q,
    value_to_angle self v = Ok a /\
    ((calibration_points self = [] /\ a = 0) \/
     (exists p, p ∈ calibration_points self /\ a = angle p) \/
     (0 <= a /\ a < 360)).
Proof.
  unfold value_to_angle.
  destruct (calibration_points self) as [|p0 rest] eqn:Hpts.
  { exists 0. split; [reflexivity|]. now left. }
  cbn [Py.getitem lookup list_lookup].
  destruct (decide (v <= value p0)) as [|Hv0].
  { exists (angle p0). split; [reflexivity|]. right. left.
    exists p0. split; [constructor|reflexivity]. }
  assert (exists pl, last (p0 :: rest) = Some pl) as [pl Hpl].
  { rewrite last_lookup. apply lookup_lt_is_Some_2. cbn [length]. lia. }
  pose proof Hpl as Hpl'. apply getlast_Ok in Hpl. rewrite Hpl.
  destruct (decide (value pl <= v)).
  { exists (angle pl). split; [reflexivity|]. right. left.
    exists pl. split; [|reflexivity].
    rewrite last_lookup in Hpl'. eapply list_elem_of_lookup_2. exact Hpl'. }
  destruct (interpolate_for_ok (p0 :: rest) v (length (p0 :: rest) - 1) 0 p0)
    as (r & Hr & Hrange); [reflexivity|lra|cbn [length]; lia|].
  rewrite Hr. destruct r as [a|].
  - exists a. split; [reflexivity|]. right. right. now apply Hrange.
  - exists (angle p0). split; [reflexivity|]. right. left.
    exists p0. split; [constructor|reflexivity].
Qed.

End CalibrationUtilsFacts.

(** ** Needle painting and named needles of image_gauge.py *)

Module ImageGaugeFacts.
Import ImageGauge.

Lemma truthy_int_nonzero (z : Z) : truthy_int (Some z) = true -> z <> 0%Z.
Proof.
  cbn. intros H. apply negb_true_iff, Z.eqb_neq in H. exact H.
Qed.

Lemma truthy_nonzero (q : Q) : Py.truthy q = true -> ~ q == 0.
Proof. unfold Py.truthy. apply bool_decide_eq_true_1. Qed.

Lemma div_ok (a b : Q) : ~ b == 0 -> Py.div a b = Ok (a / b).
Proof.
  intros Hb. unfold Py.div. destruct (decide (b == 0)); [contradiction|reflexivity].
Qed.

Lemma inject_Z_nonzero (z : Z) : z <> 0%Z -> ~ inject_Z z == 0.
Proof.
  intros Hz H. apply Hz. apply inject_Z_injective. exact H.
Qed.

(** The SVG needle is always drawn at a proportion of the live gauge
    radius, scaled by [needle_scale]: the calibrated one or 90 %. *)
Lemma svg_desired_length_ok (self : ImageBasedGauge) (radius : Q) :
  exists p : Q,
    svg_desired_length self radius = Ok (radius * p * needle_scale self) /\
    (p = 0.9 \/
     exists tip w h,
       desired_tip_radius_px self = Some tip /\
       gauge_bg_width self = Some w /\ gauge_bg_height self = Some h /\
       p = tip / (inject_Z (Z.min w h) / 2)).
Proof.
  unfold svg_desired_length.
  destruct (desired_tip_radius_px self) as [tip|]; [|exists 0.9; auto].
  destruct (gauge_bg_width self) as [w|]; [|exists 0.9; auto].
  destruct (gauge_bg_height self) as [h|]; [|exists 0.9; auto].
  destruct (Py.truthy tip); [|exists 0.9; auto].
  destruct (Py.truthy (gauge_display_scale self)); [|exists 0.9; auto].
  destruct (truthy_int (Some w)) eqn:Hw; [|exists 0.9; auto].
  destruct (truthy_int (Some h)) eqn:Hh; [|exists 0.9; auto].
  destruct (bool_decide (0 < tip)); [|exists 0.9; auto]. cbn [andb].
  apply truthy_int_nonzero in Hw, Hh.
  rewrite div_ok.
  - eexists. split; [reflexivity|]. right. exists tip, w, h. auto.
  - intros H. apply (inject_Z_nonzero (Z.min w h)); [lia|].
    set (m := inject_Z (Z.min w h)) in *. clearbody m.
    assert (m == 2 * (m / 2)) as -> by (field; lra). rewrite H. lra.
Qed.

Lemma draw_svg_needle_ok (self : ImageBasedGauge) (radius angle : Q) :
  exists d, _draw_svg_needle self radius angle = Ok d.
Proof.
  unfold _draw_svg_needle. destruct (needle_svg self) as [svg|]; [|eauto].
  destruct (svg_desired_length_ok self radius) as (p & -> & _).
  rewrite div_ok; [eauto|].
  apply inject_Z_nonzero. destruct (decide (0 < svg_height svg)%Z); lia.
Qed.

Lemma pixmap_size_ok (self : ImageBasedGauge) (pm : QPixmap) (radius : Q) :
  exists sz, pixmap_size self pm radius = Ok sz.
Proof.
  unfold pixmap_size.
  set (desired_length :=
         if Py.truthy_opt (desired_tip_radius_px self)
            && Py.truthy (gauge_display_scale self)
         then (fun tip => tip * gauge_display_scale self)
                <$> desired_tip_radius_px self
         else None).
  clearbody desired_length.
  destruct (needle_length_px self) as [len|]; [|eauto].
  destruct desired_length as [desired|]; [|eauto].
  destruct (Py.truthy len) eqn:Hlen; [|eauto].
  destruct (Py.truthy desired); [|eauto]. cbn [andb].
  rewrite div_ok; [eauto|]. now apply truthy_nonzero.
Qed.

(** Without a usable calibrated needle length the PNG needle is sized
    from the live radius alone. *)
Lemma pixmap_size_fallback (self : ImageBasedGauge) (pm : QPixmap)
    (radius : Q) :
  Py.truthy_opt (needle_length_px self) = false ->
  pixmap_size self pm radius
  = Ok (PixmapScaledToHeight (Py.int (radius * 1.5 * needle_scale self))).
Proof.
  unfold pixmap_size, Py.truthy_opt.
  set (desired_length :=
         if match desired_tip_radius_px self with
            | Some v => Py.truthy v
            | None => false
            end && Py.truthy (gauge_display_scale self)
         then (fun tip => tip * gauge_display_scale self)
                <$> desired_tip_radius_px self
         else None).
  clearbody desired_length.
  destruct (needle_length_px self) as [len|]; intros Hlen.
  - rewrite Hlen. now destruct desired_length.
  - reflexivity.
Qed.

Lemma rotate_and_draw_needle_ok (self : ImageBasedGauge) (angle radius : Q) :
  exists d, _rotate_and_draw_needle self angle radius = Ok d.
Proof.
  unfold _rotate_and_draw_needle.
  destruct (is_svg_needle self && bool_decide (is_Some (needle_svg self))).
  - apply draw_svg_needle_ok.
  - destruct (needle_pixmap self) as [pm|]; [|eauto].
    destruct (isNull pm); [eauto|].
    destruct (pixmap_size_ok self pm radius) as [sz ->]. eauto.
Qed.

(** The angle of a named needle: 270 at or below zero, and
    [270 - 180 * (value / 100)] above. *)
Lemma named_needle_angle_ok (d : needle_data) :
  exists a : Q,
    named_needle_angle d = Ok a /\
    let v := default 0 (nd_value d) in
    (v <= 0 -> a == 270) /\ (0 <= v -> a == 270 - 180 * (v / 100)).
Proof.
  unfold named_needle_angle. cbv zeta.
  set (v := default 0 (nd_value d)). clearbody v.
  destruct (decide (0 < v)) as [Hpos|Hneg].
  - rewrite div_ok by lra. eexists. split; [reflexivity|].
    split; intros Hv; [lra|].
    assert (100 - 0 == 100) as -> by ring.
    assert (v - 0 == v) as -> by ring. reflexivity.
  - eexists. split; [reflexivity|]. split; intros Hv; [lra|].
    assert (v == 0) as -> by lra. reflexivity.
Qed.

(** Setting the scale of a needle that already exists stores a scale
    between 0.5 and 2.0. *)
Lemma clamp_range (scale : Q) :
  0.5 <= Py.max 0.5 (Py.min 2.0 scale) /\ Py.max 0.5 (Py.min 2.0 scale) <= 2.0.
Proof.
  unfold Py.max, Py.min.
  destruct (decide (scale < 2.0)); destruct (decide (0.5 < _)); split; lra.
Qed.

Lemma set_named_needle_scale_existing (self : ImageBasedGauge)
    (needle_name : string) (scale : Q) (d : needle_data) :
  named_needles self !! needle_name = Some d ->
  exists s : Q,
    nd_scale <$> (named_needles (set_named_needle_scale self needle_name scale)
                    !! needle_name) = Some (Some s) /\
    0.5 <= s /\ s <= 2.0.
Proof.
  intros Hd. unfold set_named_needle_scale. rewrite Hd.
  cbn [named_needles set_named_needles]. rewrite lookup_insert_eq.
  eexists. split; [reflexivity|]. apply clamp_range.
Qed.

(** Setting the scale of a needle that does not exist yet stores the
    argument as it is. *)
Lemma set_named_needle_scale_new (self : ImageBasedGauge)
    (needle_name : string) (scale : Q) :
  named_needles self !! needle_name = None ->
  named_needles (set_named_needle_scale self needle_name scale) !! needle_name
  = Some (mkNeedle (Some 0) (Some scale) None).
Proof.
  intros Hd. unfold set_named_needle_scale. rewrite Hd.
  cbn [named_needles set_named_needles]. now rewrite lookup_insert_eq.
Qed.

(** *** Method bodies: inversion and framing *)

Lemma bind_Ok {S A B : Type} (m : M S A) (k : A -> M S B) (s s' : S) (b : B) :
  bind m k s = (s', Ok b) ->
  exists s1 a, m s = (s1, Ok a) /\ k a s1 = (s', Ok b).
Proof.
  unfold bind. destruct (m s) as [s1 [a| |]]; intros H; try discriminate.
  eauto.
Qed.

Lemma try_except_Ok_true {S : Type} (body : M S bool) (s s' : S) :
  try_except body false s = (s', Ok true) -> body s = (s', Ok true).
Proof.
  unfold try_except. destruct (body s) as [s1 [a| |]]; intros H;
    try discriminate; exact H.
Qed.

Lemma frames_ret {S A B : Type} (f : S -> B) (a : A) : frames f (ret a).
Proof. intros s s' r [= <- _]. reflexivity. Qed.

Lemma frames_lift {S A B : Type} (f : S -> B) (x : res A) : frames f (lift x).
Proof. intros s s' r [= <- _]. reflexivity. Qed.

Lemma frames_read {S A B : Type} (f : S -> B) (g : S -> A) : frames f (read g).
Proof. intros s s' r [= <- _]. reflexivity. Qed.

Lemma frames_assign {S B : Type} (f : S -> B) (g : S -> S) :
  (forall s, f (g s) = f s) -> frames f (assign g).
Proof. intros Hg s s' r [= <- _]. apply Hg. Qed.

Lemma frames_bind {S A C B : Type} (f : S -> B) (m : M S A) (k : A -> M S C) :
  frames f m -> (forall a, frames f (k a)) -> frames f (bind m k).
Proof.
  intros Hm Hk s s' r. unfold bind.
  destruct (m s) as [s1 [a| |]] eqn:E; intros H.
  - rewrite (Hk a s1 s' r H). eapply Hm; eauto.
  - injection H as <- _. eapply Hm; eauto.
  - injection H as <- _. eapply Hm; eauto.
Qed.

Lemma frames_when {S B : Type} (f : S -> B) (c : bool) (m : M S unit) :
  frames f m -> frames f (when c m).
Proof. intros Hm. destruct c; [exact Hm|apply frames_ret]. Qed.

(** *** The tip radius *)

Section TipRadius.
Variable atan2_degrees : Q -> Q -> Q.
Variable pow_half : Q -> Q.
Variable AngleCalculator_imported : bool.

Lemma tip_distances_app (gx gy : Q) (points : list AngleCalc.point_dict) :
  forall acc : list Q,
    tip_distances pow_half gx gy points acc
    = acc ++ (distance pow_half gx gy <$> points).
Proof.
  induction points as [|p points IH]; intros acc; cbn [tip_distances fmap list_fmap].
  - now rewrite app_nil_r.
  - rewrite IH, <- app_assoc. reflexivity.
Qed.

Lemma fold_left_total (l : list Q) :
  forall a : Q, fold_left Qplus l a == a + total l.
Proof.
  induction l as [|d l IH]; intros a; cbn [fold_left total].
  - lra.
  - rewrite IH. lra.
Qed.

(** The quotient computed by the tip-radius code is the mean distance
    of the specification. *)
Lemma tip_radius_mean (gx gy : Q) (points : list AngleCalc.point_dict) :
  let distances := tip_distances pow_half gx gy points [] in
  points <> [] ->
  distances <> [] /\
  Py.div (Py.sum distances) (inject_Z (Z.of_nat (length distances)))
  = Ok (Py.sum distances / inject_Z (Z.of_nat (length distances))) /\
  Py.sum distances / inject_Z (Z.of_nat (length distances))
  == mean_distance pow_half gx gy points.
Proof.
  intros distances Hne. unfold distances.
  rewrite tip_distances_app, app_nil_l.
  assert (length (distance pow_half gx gy <$> points) = length points) as Hlen
    by apply length_fmap.
  destruct points as [|p points]; [congruence|].
  split; [discriminate|]. split.
  - apply div_ok, inject_Z_nonzero. cbn [fmap list_fmap length]. lia.
  - unfold mean_distance, Py.sum. rewrite Hlen, fold_left_total.
    apply Qdiv_comp; [lra|reflexivity].
Qed.

Lemma set_needle_geometry_frames {B : Type} (f : ImageBasedGauge -> B)
    (w h : Z) (px py ex ey : Q) :
  (forall v s, f (set_needle_pivot v s) = f s) ->
  (forall v s, f (set_needle_length_px v s) = f s) ->
  (forall v s, f (set_needle_base_angle v s) = f s) ->
  frames f (set_needle_geometry atan2_degrees pow_half w h px py ex ey).
Proof.
  intros H1 H2 H3. unfold set_needle_geometry.
  apply frames_bind; [apply frames_lift|intros fx].
  apply frames_bind; [apply frames_lift|intros fy].
  apply frames_bind; [apply frames_assign, H1|intros _].
  destruct (Py.truthy ex || Py.truthy ey).
  - apply frames_bind; [apply frames_assign, H2|intros _].
    apply frames_assign, H3.
  - apply frames_assign, H2.
Qed.

Lemma load_needle_geometry_frames {B : Type} (f : ImageBasedGauge -> B)
    (cal : needle_cal) :
  (forall v s, f (set_needle_pivot v s) = f s) ->
  (forall v s, f (set_needle_length_px v s) = f s) ->
  (forall v s, f (set_needle_base_angle v s) = f s) ->
  frames f (load_needle_geometry atan2_degrees pow_half cal).
Proof.
  intros H1 H2 H3. unfold load_needle_geometry.
  apply frames_bind; [apply frames_read|intros [svg|]];
    (apply frames_bind; [apply frames_read|intros pmo]).
  - now apply frames_when, set_needle_geometry_frames.
  - destruct pmo as [pm|]; [|apply frames_ret].
    now apply frames_when, frames_when, set_needle_geometry_frames.
Qed.

Lemma load_center_offset_frames {B : Type} (f : ImageBasedGauge -> B)
    (gx gy : Q) :
  (forall v s, f (set_needle_center_offset v s) = f s) ->
  frames f (load_center_offset gx gy).
Proof.
  intros H1. unfold load_center_offset.
  apply frames_bind; [apply frames_read|intros [[w|] [h|]]];
    try apply frames_ret.
  apply frames_when.
  apply frames_bind; [apply frames_lift|intros cx].
  apply frames_bind; [apply frames_lift|intros cy].
  now apply frames_assign.
Qed.

(** With the gauge pivot set and at least one point, the tip-radius
    block stores the quotient of the summed distances by their number. *)
Lemma load_tip_radius_run (gx gy : Q) (points : list AngleCalc.point_dict)
    (s : ImageBasedGauge) :
  let distances := tip_distances pow_half gx gy points [] in
  is_Some (gauge_pivot_px s) ->
  points <> [] ->
  load_tip_radius pow_half gx gy points s
  = (set_desired_tip_radius_px
       (Some (Py.sum distances / inject_Z (Z.of_nat (length distances)))) s,
     Ok tt).
Proof.
  intros distances Hpivot Hne.
  destruct (tip_radius_mean gx gy points Hne) as (Hdne & Hdiv & _).
  fold distances in Hdne, Hdiv.
  unfold load_tip_radius, bind, read.
  rewrite (bool_decide_eq_true_2 _ Hpivot), (bool_decide_eq_true_2 _ Hne).
  cbn [andb when]. fold distances.
  rewrite (bool_decide_eq_true_2 _ Hdne). cbn [when].
  unfold bind, lift, assign. now rewrite Hdiv.
Qed.

(** After a successful [load_v2_calibration] of an entry with at least
    one calibration point, the tip radius is the quotient computed
    from the distances to all of them. *)
Lemma load_v2_calibration_tip (calibration_data : gmap string needle_cal)
    (needle_id : string) (cal : needle_cal) (self self' : ImageBasedGauge) :
  let gx := default 0 (cal_gauge_pivot_x cal) in
  let gy := default 0 (cal_gauge_pivot_y cal) in
  let points := default [] (cal_calibration_points cal) in
  let distances := tip_distances pow_half gx gy points [] in
  calibration_data !! needle_id = Some cal ->
  points <> [] ->
  load_v2_calibration atan2_degrees pow_half AngleCalculator_imported
    calibration_data needle_id self = (self', Ok true) ->
  desired_tip_radius_px self'
  = Some (Py.sum distances / inject_Z (Z.of_nat (length distances))).
Proof.
  intros gx gy points distances Hcal Hne Hrun.
  unfold load_v2_calibration in Hrun. rewrite Hcal in Hrun.
  apply try_except_Ok_true in Hrun.
  destruct AngleCalculator_imported; [|discriminate].
  fold gx gy points in Hrun.
  apply bind_Ok in Hrun as (s1 & [] & _ & Hrun).
  apply bind_Ok in Hrun as (s2 & [] & _ & Hrun).
  apply bind_Ok in Hrun as (s3 & [] & H3 & Hrun).
  apply bind_Ok in Hrun as (s4 & [] & H4 & Hrun).
  apply bind_Ok in Hrun as (s5 & [] & H5 & Hrun).
  apply bind_Ok in Hrun as (s6 & [] & H6 & Hrun).
  apply bind_Ok in Hrun as (s7 & [] & H7 & Hrun).
  injection Hrun as <-. injection H3 as <-.
  (* the gauge pivot set above is still there when the loop is reached *)
  assert (is_Some (gauge_pivot_px s5)) as Hpivot.
  { rewrite (load_center_offset_frames gauge_pivot_px gx gy
               ltac:(reflexivity) _ _ _ H5).
    rewrite (load_needle_geometry_frames gauge_pivot_px cal
               ltac:(reflexivity) ltac:(reflexivity) ltac:(reflexivity)
               _ _ _ H4).
    cbn. eauto. }
  rewrite (load_tip_radius_run gx gy points s5 Hpivot Hne) in H6.
  injection H6 as <-.
  destruct (cal_needle_scale cal); injection H7 as <-; reflexivity.
Qed.

(** [load_v2_calibration] succeeds as soon as the module was imported
    and every calibration point carries its three keys: no division in
    it can fail. *)
Lemma set_needle_geometry_Ok (w h : Z) (px py ex ey : Q)
    (s : ImageBasedGauge) :
  (0 < w)%Z -> (0 < h)%Z ->
  exists s', set_needle_geometry atan2_degrees pow_half w h px py ex ey s
             = (s', Ok tt).
Proof.
  intros Hw Hh. unfold set_needle_geometry, bind, lift, assign.
  rewrite !div_ok by (apply inject_Z_nonzero; lia).
  destruct (Py.truthy ex || Py.truthy ey); eauto.
Qed.

Lemma load_needle_geometry_Ok (cal : needle_cal) (s : ImageBasedGauge) :
  exists s', load_needle_geometry atan2_degrees pow_half cal s = (s', Ok tt).
Proof.
  unfold load_needle_geometry, bind, read.
  destruct (if is_svg_needle s then needle_svg s else None) as [svg|].
  - destruct (decide (0 < svg_width svg)%Z);
      destruct (decide (0 < svg_height svg)%Z);
      (rewrite !bool_decide_eq_true_2 by lia); cbn [andb when];
      apply set_needle_geometry_Ok; lia.
  - destruct (needle_pixmap s) as [pm|]; [|unfold ret; eauto].
    destruct (isNull pm); cbn [negb when]; [unfold ret; eauto|].
    destruct (bool_decide (0 < width pm)%Z) eqn:Hw;
      destruct (bool_decide (0 < height pm)%Z) eqn:Hh;
      cbn [andb when]; try (unfold ret; eauto).
    apply bool_decide_eq_true_1 in Hw, Hh.
    now apply set_needle_geometry_Ok.
Qed.

Lemma load_center_offset_Ok (gx gy : Q) (s : ImageBasedGauge) :
  exists s', load_center_offset gx gy s = (s', Ok tt).
Proof.
  unfold load_center_offset, bind, read.
  destruct (gauge_bg_width s) as [w|]; [|unfold ret; eauto].
  destruct (gauge_bg_height s) as [h|]; [|unfold ret; eauto].
  destruct (truthy_int (Some w)) eqn:Hw; [|unfold ret; cbn; eauto].
  destruct (truthy_int (Some h)) eqn:Hh; [|unfold ret; cbn; eauto].
  apply truthy_int_nonzero in Hw, Hh. cbn [andb when].
  unfold lift, assign.
  rewrite !div_ok by (now apply inject_Z_nonzero). eauto.
Qed.

Lemma load_tip_radius_Ok (gx gy : Q) (points : list AngleCalc.point_dict)
    (s : ImageBasedGauge) :
  exists s', load_tip_radius pow_half gx gy points s = (s', Ok tt).
Proof.
  unfold load_tip_radius, bind, read.
  destruct (bool_decide (is_Some (gauge_pivot_px s))
            && bool_decide (points <> [])) eqn:Hc;
    cbn [when]; [|unfold ret; eauto].
  apply andb_true_iff in Hc as [_ Hne]. apply bool_decide_eq_true_1 in Hne.
  destruct (tip_radius_mean gx gy points Hne) as (Hdne & Hdiv & _).
  rewrite (bool_decide_eq_true_2 _ Hdne). cbn [when].
  unfold lift, assign. rewrite Hdiv. eauto.
Qed.

Lemma points_from_list_loop_Ok (points : list AngleCalc.point_dict) :
  forall c : AngleCalc.AngleCalculator,
    Forall (fun d => is_Some (AngleCalc.d_x d) /\ is_Some (AngleCalc.d_y d)
                     /\ is_Some (AngleCalc.d_value d)) points ->
    (AngleCalc.points_from_list_loop c points).2 = Ok tt.
Proof.
  induction points as [|d points IH]; intros c Hall; [reflexivity|].
  inversion Hall as [|? ? ([px Hx] & [py Hy] & [v Hv]) Hrest]; subst.
  cbn [AngleCalc.points_from_list_loop]. rewrite Hx, Hy, Hv. cbn.
  now apply IH.
Qed.

Lemma load_v2_calibration_succeeds
    (calibration_data : gmap string needle_cal) (needle_id : string)
    (cal : needle_cal) (self : ImageBasedGauge) :
  AngleCalculator_imported = true ->
  calibration_data !! needle_id = Some cal ->
  Forall (fun d => is_Some (AngleCalc.d_x d) /\ is_Some (AngleCalc.d_y d)
                   /\ is_Some (AngleCalc.d_value d))
         (default [] (cal_calibration_points cal)) ->
  exists self',
    load_v2_calibration atan2_degrees pow_half AngleCalculator_imported
      calibration_data needle_id self = (self', Ok true).
Proof.
  intros Himp Hcal Hkeys. unfold load_v2_calibration.
  rewrite Hcal, Himp. unfold try_except.
  set (gx := default 0 (cal_gauge_pivot_x cal)).
  set (gy := default 0 (cal_gauge_pivot_y cal)).
  set (points := default [] (cal_calibration_points cal)) in *.
  pose proof (points_from_list_loop_Ok points (AngleCalc.mkCalc gx gy []) Hkeys)
    as Hpts.
  unfold bind at 1. unfold AngleCalc.points_from_list, AngleCalc.init.
  cbn [AngleCalc.gauge_pivot_x AngleCalc.gauge_pivot_y].
  destruct (AngleCalc.points_from_list_loop _ points) as [calc r].
  cbn in Hpts. subst r.
  unfold bind at 1. unfold assign at 1.
  unfold bind at 1. unfold assign at 1.
  unfold bind at 1.
  destruct (load_needle_geometry_Ok cal
              (set_gauge_pivot_px (Some (gx, gy))
                 (set_calibration_points_px points
                    (set_angle_calculator (Some calc) self)))) as [s4 ->].
  unfold bind at 1. destruct (load_center_offset_Ok gx gy s4) as [s5 ->].
  unfold bind at 1. destruct (load_tip_radius_Ok gx gy points s5) as [s6 ->].
  unfold bind at 1.
  destruct (cal_needle_scale cal); unfold assign, ret; eauto.
Qed.

(** The same for the water needle of the fuel gauge. *)
Lemma load_water_calibration_tip (water_cal : needle_cal)
    (water_artwork : option artwork) (self self' : ImageFuelGauge) :
  let gx := default 0 (cal_gauge_pivot_x water_cal) in
  let gy := default 0 (cal_gauge_pivot_y water_cal) in
  let points := default [] (cal_calibration_points water_cal) in
  let distances := tip_distances pow_half gx gy points [] in
  AngleCalculator_imported = true ->
  points <> [] ->
  load_water_calibration atan2_degrees pow_half AngleCalculator_imported
    water_cal water_artwork self = (self', Ok tt) ->
  water_tip_radius_px self'
  = Some (Py.sum distances / inject_Z (Z.of_nat (length distances))).
Proof.
  intros gx gy points distances Himp Hne Hrun.
  unfold load_water_calibration in Hrun. rewrite Himp in Hrun.
  cbn [when] in Hrun. fold gx gy points in Hrun.
  apply bind_Ok in Hrun as (s1 & [] & _ & Hrun).
  apply bind_Ok in Hrun as (s2 & [] & _ & Hrun).
  apply bind_Ok in Hrun as (s3 & [] & _ & Hrun).
  apply bind_Ok in Hrun as (s4 & svg & _ & Hrun).
  apply bind_Ok in Hrun as (s5 & pm & _ & Hrun).
  destruct (match svg with Some _ => _ | None => _ end) as [needle_w needle_h].
  apply bind_Ok in Hrun as (s6 & fx & _ & Hrun).
  apply bind_Ok in Hrun as (s7 & fy & _ & Hrun).
  apply bind_Ok in Hrun as (s8 & [] & _ & Hrun).
  apply bind_Ok in Hrun as (s9 & [] & _ & Hrun).
  apply bind_Ok in Hrun as (s10 & bg & _ & Hrun).
  apply bind_Ok in Hrun as (s11 & [] & _ & Hrun).
  destruct (tip_radius_mean gx gy points Hne) as (Hdne & Hdiv & _).
  fold distances in Hdne, Hdiv.
  rewrite (bool_decide_eq_true_2 (points <> [])) in Hrun by exact Hne.
  cbn [when] in Hrun. fold distances in Hrun.
  rewrite (bool_decide_eq_true_2 (distances <> [])) in Hrun by exact Hdne.
  unfold bind, lift in Hrun. rewrite Hdiv in Hrun.
  now injection Hrun as <-.
Qed.

Lemma load_dual_v2_calibration_tip (calibration_data : gmap string needle_cal)
    (water_cal : needle_cal) (water_artwork : option artwork)
    (self self' : ImageFuelGauge) :
  let gx := default 0 (cal_gauge_pivot_x water_cal) in
  let gy := default 0 (cal_gauge_pivot_y water_cal) in
  let points := default [] (cal_calibration_points water_cal) in
  let distances := tip_distances pow_half gx gy points [] in
  AngleCalculator_imported = true ->
  calibration_data !! "water"%string = Some water_cal ->
  points <> [] ->
  load_dual_v2_calibration atan2_degrees pow_half AngleCalculator_imported
    calibration_data water_artwork self = (self', Ok tt) ->
  water_tip_radius_px self'
  = Some (Py.sum distances / inject_Z (Z.of_nat (length distances))).
Proof.
  intros gx gy points distances Himp Hcal Hne Hrun.
  unfold load_dual_v2_calibration in Hrun.
  apply bind_Ok in Hrun as (s1 & [] & _ & Hrun).
  rewrite Hcal in Hrun.
  eapply load_water_calibration_tip; eauto.
Qed.

End TipRadius.

End ImageGaugeFacts.
(** ** More about the stable sort *)

Section SortMore.
Context {A : Type} (key : A -> Q).

#[export] Instance le_by_trans : Transitive (Py.le_by key).
Proof. intros u v w Huv Hvw. unfold Py.le_by in *. lra. Qed.

(** An element at most as large as the whole list goes in front. *)
Lemma insert_by_front (x : A) (l : list A) :
  Forall (fun a => key x <= key a) l -> Py.insert_by key x l = x :: l.
Proof.
  intros H. destruct H as [|y l Hy _]; cbn [Py.insert_by]; [reflexivity|].
  destruct (decide (key x <= key y)); [reflexivity|contradiction].
Qed.

(** Sorting a sorted list with one more element at its end: the new
    element goes behind the elements at most as large and in front of
    the larger ones, which all stay where they are. *)
Lemma sort_by_snoc (x : A) (s : list A) :
  Sorted (Py.le_by key) s ->
  exists before after : list A,
    s = before ++ after /\
    Py.sort_by key (s ++ [x]) = before ++ x :: after /\
    Forall (fun a => key a <= key x) before /\
    Forall (fun a => key x < key a) after.
Proof.
  intros Hs. apply Sorted_StronglySorted in Hs; [|apply le_by_trans].
  induction Hs as [|y s Hs IH Hy].
  - exists [], []. repeat split; constructor.
  - destruct IH as (before & after & -> & E & Hb & Ha).
    cbn [app Py.sort_by]. rewrite E.
    destruct before as [|b before].
    + cbn [app] in *. cbn [Py.insert_by].
      destruct (decide (key y <= key x)) as [Hyx|Hyx].
      * exists [y], after. repeat split; [|exact Ha].
        constructor; [exact Hyx|constructor].
      * exists [], (y :: after). cbn [app]. repeat split.
        -- now rewrite insert_by_front.
        -- constructor.
        -- constructor; [lra|exact Ha].
    + apply Forall_cons in Hb as [Hbx Hb].
      apply Forall_cons in Hy as [Hyb Hy]. unfold Py.le_by in Hyb.
      cbn [app Py.insert_by].
      destruct (decide (key y <= key b)); [|contradiction].
      exists (y :: b :: before), after. repeat split; [|exact Ha].
      constructor; [lra|]. constructor; assumption.
Qed.

(** Lists with the same elements, no two different ones of which share a
    key, sort to the same list. *)
Lemma sort_by_order_free (l1 l2 : list A) :
  l1 ≡ₚ l2 ->
  (forall a b, a ∈ l1 -> b ∈ l1 -> key a == key b -> a = b) ->
  Py.sort_by key l1 = Py.sort_by key l2.
Proof.
  intros Hp Hd.
  apply (Sorted_unique_strong (Py.le_by key)).
  - intros a b Ha Hb Hab Hba. unfold Py.le_by in *.
    apply Hd.
    + now rewrite <- (sort_by_Permutation key l1).
    + now rewrite Hp, <- (sort_by_Permutation key l2).
    + lra.
  - apply sort_by_Sorted.
  - apply sort_by_Sorted.
  - now rewrite !sort_by_Permutation.
Qed.

End SortMore.
(** ** The scenarios of the specification, run on the model *)

Section Scenarios.
Import Examples.

(** Pivot (256, 256), points (256, 100, 0), (410, 256, 5000) and
    (256, 410, 10000): 270 degrees at 0, 0 at 5000, 90 at 10000. *)
Example three_points_scenario :
  exists a0 a1 a2 : Q,
    AngleCalc.value_to_angle AngleCalc.atan2_degrees_compass 1 three_points 0
    = Ok a0 /\
    AngleCalc.value_to_angle AngleCalc.atan2_degrees_compass 1 three_points 5000
    = Ok a1 /\
    AngleCalc.value_to_angle AngleCalc.atan2_degrees_compass 1 three_points 10000
    = Ok a2 /\
    a0 == 270 /\ a1 == 0 /\ a2 == 90.
Proof. do 3 eexists. repeat split; reflexivity. Qed.

(** The tachometer preset: 270, 135 and 0 degrees at its three values,
    and between 200 and 210 degrees at 2500. *)
Example tachometer_scenario :
  exists a0 a1 a2 a3 : Q,
    CalibrationUtils.value_to_angle CalibrationUtils.tachometer_calibration 0
    = Ok a0 /\
    CalibrationUtils.value_to_angle CalibrationUtils.tachometer_calibration 5000
    = Ok a1 /\
    CalibrationUtils.value_to_angle CalibrationUtils.tachometer_calibration 10000
    = Ok a2 /\
    CalibrationUtils.value_to_angle CalibrationUtils.tachometer_calibration 2500
    = Ok a3 /\
    a0 == 270 /\ a1 == 135 /\ a2 == 0 /\ 200 < a3 /\ a3 < 210.
Proof. do 4 eexists. repeat split; reflexivity. Qed.

(** An empty calibration gives 0 for any value, in both calculators. *)
Example empty_scenario (atan2_degrees : Q -> Q -> Q) (gx gy v : Q) (fuel : nat) :
  AngleCalc.value_to_angle atan2_degrees fuel (AngleCalc.init gx gy) v = Ok 0 /\
  CalibrationUtils.value_to_angle (CalibrationUtils.init None) v = Ok 0.
Proof. split; reflexivity. Qed.

(** The single point (0, 270) gives 270 at 5000. *)
Example single_point_scenario :
  CalibrationUtils.value_to_angle
    (CalibrationUtils.add_point (CalibrationUtils.init None) 0 270) 5000
  = Ok 270.
Proof. reflexivity. Qed.

(** The speedometer preset, as its test expects it: 240, 90 and -60. *)
Example speedometer_scenario :
  exists a : Q,
    CalibrationUtils.value_to_angle CalibrationUtils.speedometer_calibration 0
    = Ok 240 /\
    CalibrationUtils.value_to_angle CalibrationUtils.speedometer_calibration 160
    = Ok a /\
    CalibrationUtils.value_to_angle CalibrationUtils.speedometer_calibration 320
    = Ok (-60) /\
    a == 90.
Proof. eexists. repeat split; reflexivity. Qed.

(** The uncalibrated fallback of a named needle: 270, 180 and 90 degrees
    at 0, 50 and 100, and the clamp to 270 below zero. *)
Example fallback_scenario :
  exists a0 a50 a100 below : Q,
    ImageGauge.named_needle_angle (ImageGauge.mkNeedle (Some 0) None None)
    = Ok a0 /\
    ImageGauge.named_needle_angle (ImageGauge.mkNeedle (Some 50) None None)
    = Ok a50 /\
    ImageGauge.named_needle_angle (ImageGauge.mkNeedle (Some 100) None None)
    = Ok a100 /\
    ImageGauge.named_needle_angle (ImageGauge.mkNeedle (Some (-20)) None None)
    = Ok below /\
    a0 == 270 /\ a50 == 180 /\ a100 == 90 /\ below == 270.
Proof. do 4 eexists. repeat split; reflexivity. Qed.

(** Calibration points 5 and 10 pixels from the pivot: the mean distance
    is 7.5, the distance to neither of them. *)
Example mean_distance_scenario :
  ImageGauge.distance pow_half_whole 0 0 (AngleCalc.dict_of 3 4 0) == 5 /\
  ImageGauge.distance pow_half_whole 0 0 (AngleCalc.dict_of 6 8 100) == 10 /\
  ImageGauge.mean_distance pow_half_whole 0 0
    [AngleCalc.dict_of 3 4 0; AngleCalc.dict_of 6 8 100] == 7.5.
Proof. repeat split; reflexivity. Qed.

End Scenarios.
(** ** Interpolation and the point store of angle_calculator.py *)

Module AngleCalcMore.
Import AngleCalc AngleCalcFacts Predicates.

(** The bracket [i] whose ends lie strictly below and above [v]. *)
Lemma bracket_for_between (points : list CalibrationPoint) (angles : list Q)
    (v : Q) (i : nat) (idx : list nat) (p1 p2 : CalibrationPoint)
    (ai aj : Q) :
  points !! i = Some p1 ->
  points !! S i = Some p2 ->
  angles !! i = Some ai ->
  angles !! S i = Some aj ->
  value p1 < v ->
  v < value p2 ->
  bracket_for points angles v (i :: idx)
  = Ok (Some (Py.mod_ (ai + (v - value p1) / (value p2 - value p1) * (aj - ai))
                      360)).
Proof.
  intros Hp1 Hp2 Hai Haj Hlo Hhi. cbn [bracket_for].
  rewrite <- Nat.add_1_r in Hp2, Haj.
  apply getitem_Ok in Hp1, Hp2, Hai, Haj. rewrite Hp1.
  destruct (decide (value p1 <= v)); [|lra].
  rewrite Hp2. destruct (decide (v <= value p2)); [|lra].
  destruct (decide (value p2 == value p1)) as [He|Hne]; [lra|].
  unfold Py.div.
  destruct (decide (value p2 - value p1 == 0)) as [Hz|Hnz]; [lra|].
  now rewrite Hai, Haj.
Qed.

(** The look-up of a value strictly between two neighbours of a sorted
    store. *)
Lemma lookup_angle_between (points : list CalibrationPoint) (u : list Q)
    (v : Q) (i : nat) (p1 p2 : CalibrationPoint) (a1 a2 : Q) :
  sorted_by_value points ->
  points !! i = Some p1 ->
  points !! S i = Some p2 ->
  u !! i = Some a1 ->
  u !! S i = Some a2 ->
  value p1 < v ->
  v < value p2 ->
  lookup_angle points u v
  = Ok (Py.mod_ (a1 + (v - value p1) / (value p2 - value p1) * (a2 - a1)) 360).
Proof.
  intros Hs Hp1 Hp2 Ha1 Ha2 Hlo Hhi.
  assert ((S i < length points)%nat) as Hi by (eapply lookup_lt_Some; eauto).
  destruct (lookup_lt_is_Some_2 points 0) as [p0 Hp0]; [lia|].
  destruct (lookup_lt_is_Some_2 points (pred (length points))) as [pl Hpl]; [lia|].
  pose proof (Sorted_lookup_le value points 0 i p0 p1 Hs Hp0 Hp1 ltac:(lia)).
  pose proof (Sorted_lookup_le value points (S i) _ p2 pl Hs Hp2 Hpl ltac:(lia)).
  unfold lookup_angle.
  apply getitem_Ok in Hp0. rewrite Hp0.
  destruct (decide (v <= value p0)); [lra|].
  rewrite <- last_lookup in Hpl. apply getlast_Ok in Hpl. rewrite Hpl.
  destruct (decide (value pl <= v)); [lra|].
  replace (seq 0 (length points - 1))
    with (seq 0 i ++ i :: seq (S i) (length points - 1 - S i)).
  2:{ replace (length points - 1)%nat
        with (i + S (length points - 1 - S i))%nat by lia.
      rewrite seq_app. cbn [seq]. do 3 f_equal; lia. }
  rewrite bracket_for_skip.
  - now rewrite (bracket_for_between points u v i _ p1 p2 a1 a2).
  - apply Forall_forall. intros j Hj.
    apply list_elem_of_In, in_seq in Hj.
    destruct (lookup_lt_is_Some_2 points j) as [q1 Hq1]; [lia|].
    destruct (lookup_lt_is_Some_2 points (j + 1)) as [q2 Hq2]; [lia|].
    exists q1, q2. repeat split; auto.
    pose proof (Sorted_lookup_le value points (j + 1) i q2 p1 Hs Hq2 Hp1
                  ltac:(lia)).
    lra.
Qed.

(** *** The store after a run of [add_point] *)

(** Loading well-formed entries is a run of [add_point]: the store ends
    up with the loaded points added, sorted, and points of equal value
    in the order they came in. *)
Lemma points_from_list_loop_app (good : list CalibrationPoint)
    (rest : list point_dict) :
  forall self : AngleCalculator,
    exists store : list CalibrationPoint,
      points_from_list_loop self
        ((to_dict <$> good) ++ rest)
      = points_from_list_loop
          (mkCalc (gauge_pivot_x self) (gauge_pivot_y self) store) rest /\
      store ≡ₚ calibration_points self ++ good /\
      (sorted_by_value (calibration_points self) -> sorted_by_value store) /\
      forall k, filter (fun p => value p == k) store
                = filter (fun p => value p == k) (calibration_points self ++ good).
Proof.
  induction good as [|p good IH]; intros self.
  - exists (calibration_points self). cbn [fmap list_fmap app].
    rewrite app_nil_r. destruct self. repeat split; auto.
  - destruct p as [px py pv].
    cbn [fmap list_fmap app points_from_list_loop dict_of d_x d_y d_value getkey
         to_dict x y value].
    destruct (IH (add_point self px py pv)) as (store & E & Hp & Hs & Hf).
    exists store. cbn [add_point gauge_pivot_x gauge_pivot_y calibration_points]
      in E, Hp, Hs, Hf.
    split; [exact E|]. split; [|split].
    + rewrite Hp, sort_by_Permutation. now rewrite <- app_assoc.
    + intros _. apply Hs. apply sort_by_Sorted.
    + intros k. rewrite Hf, filter_app, sort_by_stable, <- filter_app.
      now rewrite <- app_assoc.
Qed.



End AngleCalcMore.
(** ** Interpolation between stored angles in calibration_utils.py *)

Module CalibrationUtilsMore.
Import CalibrationUtils CalibrationUtilsFacts Predicates.

(** Brackets that end below [v] are passed over. *)
Lemma interpolate_for_skip (points : list CalibrationPoint) (v : Q)
    (pre idx : list nat) :
  Forall (fun i => exists p1 p2, points !! i = Some p1 /\
                                 points !! (i + 1)%nat = Some p2 /\
                                 value p2 < v) pre ->
  interpolate_for points v (pre ++ idx) = interpolate_for points v idx.
Proof.
  induction 1 as [|i pre (p1 & p2 & Hp1 & Hp2 & Hlt) _ IH]; [reflexivity|].
  cbn [app interpolate_for].
  apply getitem_Ok in Hp1, Hp2. rewrite Hp1, Hp2.
  rewrite (bool_decide_eq_false_2 (v <= value p2)) by lra.
  rewrite andb_false_r. exact IH.
Qed.

(** The bracket [i] with its left end strictly below [v] and its right
    end at or above [v]. *)
Lemma interpolate_for_between (points : list CalibrationPoint) (v : Q)
    (i : nat) (idx : list nat) (p1 p2 : CalibrationPoint) :
  points !! i = Some p1 ->
  points !! S i = Some p2 ->
  value p1 < v ->
  v <= value p2 ->
  exists d : Q,
    sweep_of (angle p1) (angle p2) d /\
    interpolate_for points v (i :: idx)
    = Ok (Some (Py.mod_ (angle p1
                         + d * ((v - value p1) / (value p2 - value p1))) 360)).
Proof.
  intros Hp1 Hp2 Hlo Hhi. cbn [interpolate_for].
  rewrite <- Nat.add_1_r in Hp2.
  apply getitem_Ok in Hp1, Hp2. rewrite Hp1, Hp2.
  rewrite (bool_decide_eq_true_2 (value p1 <= v)) by lra.
  rewrite (bool_decide_eq_true_2 (v <= value p2)) by lra.
  cbn [andb]. unfold Py.div.
  destruct (decide (value p2 - value p1 == 0)) as [Hz|_]; [lra|].
  unfold sweep_of.
  destruct (decide (180 < angle p2 - angle p1)) as [Hgt|Hgt];
    [|destruct (decide (angle p2 - angle p1 < -180)) as [Hlt|Hlt]];
    eexists; (split; [|
      match goal with
      | |- context [Py.mod_ ?e 360] => pose proof (mod_range e) as [H0 H1]
      end;
      destruct (decide (_ < 0)); [lra|reflexivity]]).
  - left. split; [exact Hgt|reflexivity].
  - right. left. split; [exact Hlt|reflexivity].
  - right. right. repeat split; lra.
Qed.

(** [value_to_angle] strictly above the first stored value and strictly
    below the last one, in the bracket found on a sorted store. *)
Lemma needle_value_to_angle_between (self : NeedleAngleCalculator) (v : Q)
    (i : nat) (p1 p2 pl : CalibrationPoint) :
  sorted_by_value (calibration_points self) ->
  calibration_points self !! i = Some p1 ->
  calibration_points self !! S i = Some p2 ->
  last (calibration_points self) = Some pl ->
  value p1 < v ->
  v <= value p2 ->
  v < value pl ->
  exists d : Q,
    sweep_of (angle p1) (angle p2) d /\
    value_to_angle self v
    = Ok (Py.mod_ (angle p1
                   + d * ((v - value p1) / (value p2 - value p1))) 360).
Proof.
  intros Hs Hp1 Hp2 Hpl Hlo Hhi Hlast.
  set (points := calibration_points self) in *.
  assert ((S i < length points)%nat) as Hi by (eapply lookup_lt_Some; eauto).
  destruct (lookup_lt_is_Some_2 points 0) as [p0 Hp0]; [lia|].
  pose proof (Sorted_lookup_le value points 0 i p0 p1 Hs Hp0 Hp1 ltac:(lia)).
  destruct (interpolate_for_between points v i
              (seq (S i) (length points - 1 - S i)) p1 p2)
    as (d & Hd & E); auto.
  exists d. split; [exact Hd|].
  unfold value_to_angle. fold points.
  destruct points as [|q rest] eqn:Hpts; [discriminate|]. rewrite <- Hpts in *.
  apply getitem_Ok in Hp0. rewrite Hp0.
  destruct (decide (v <= value p0)); [lra|].
  apply getlast_Ok in Hpl. rewrite Hpl.
  destruct (decide (value pl <= v)); [lra|].
  replace (seq 0 (length points - 1))
    with (seq 0 i ++ i :: seq (S i) (length points - 1 - S i)).
  2:{ replace (length points - 1)%nat
        with (i + S (length points - 1 - S i))%nat by lia.
      rewrite seq_app. cbn [seq]. do 3 f_equal; lia. }
  rewrite interpolate_for_skip.
  - now rewrite E.
  - apply Forall_forall. intros j Hj.
    apply list_elem_of_In, in_seq in Hj.
    destruct (lookup_lt_is_Some_2 points j) as [q1 Hq1]; [lia|].
    destruct (lookup_lt_is_Some_2 points (j + 1)) as [q2 Hq2]; [lia|].
    exists q1, q2. repeat split; auto.
    pose proof (Sorted_lookup_le value points (j + 1) i q2 p1 Hs Hq2 Hp1
                  ltac:(lia)).
    lra.
Qed.

(** A calculator created from a sorted list holds that list. *)
Lemma init_sorted_store (l : list CalibrationPoint) :
  sorted_by_value l -> calibration_points (init (Some l)) = l.
Proof.
  intros Hs. unfold init, _validate_points.
  cbn [default calibration_points].
  destruct l as [|p l]; [reflexivity|].
  cbn [calibration_points]. now apply sort_by_sorted.
Qed.

(** [value_to_angle] never raises; what it answers is [0] on an empty
    store, the stored angle of the first or of the last point, or an
    angle the interpolation has normalised. *)
Lemma needle_value_to_angle_ends (self : NeedleAngleCalculator) (v : Q) :
  exists a : Q,
    value_to_angle self v = Ok a /\
    ((calibration_points self = [] /\ a = 0) \/
     (exists p, (calibration_points self !! 0%nat = Some p \/
                 last (calibration_points self) = Some p) /\ a = angle p) \/
     (0 <= a /\ a < 360)).
Proof.
  unfold value_to_angle.
  destruct (calibration_points self) as [|p0 rest] eqn:Hpts.
  { exists 0. split; [reflexivity|]. now left. }
  cbn [Py.getitem lookup list_lookup].
  destruct (decide (v <= value p0)) as [|Hv0].
  { exists (angle p0). split; [reflexivity|]. right. left.
    exists p0. split; [now left|reflexivity]. }
  assert (exists pl, last (p0 :: rest) = Some pl) as [pl Hpl].
  { rewrite last_lookup. apply lookup_lt_is_Some_2. cbn [length]. lia. }
  pose proof Hpl as Hpl'. apply getlast_Ok in Hpl. rewrite Hpl.
  destruct (decide (value pl <= v)).
  { exists (angle pl). split; [reflexivity|]. right. left.
    exists pl. split; [now right|reflexivity]. }
  destruct (interpolate_for_ok (p0 :: rest) v (length (p0 :: rest) - 1) 0 p0)
    as (r & Hr & Hrange); [reflexivity|lra|cbn [length]; lia|].
  rewrite Hr. destruct r as [a|].
  - exists a. split; [reflexivity|]. right. right. now apply Hrange.
  - exists (angle p0). split; [reflexivity|]. right. left.
    exists p0. split; [now left|reflexivity].
Qed.

(** Each end angle of a store is handed back for some value. *)
Lemma needle_value_to_angle_end_returned (self : NeedleAngleCalculator)
    (p : CalibrationPoint) :
  calibration_points self !! 0%nat = Some p \/
  last (calibration_points self) = Some p ->
  exists v : Q, value_to_angle self v = Ok (angle p).
Proof.
  intros [Hp|Hp].
  - exists (value p). apply needle_value_to_angle_first; [exact Hp|lra].
  - destruct (calibration_points self !! 0%nat) as [p0|] eqn:Hp0.
    + exists (Py.max (value p) (value p0) + 1).
      apply (needle_value_to_angle_last self _ p0 p); auto;
        unfold Py.max; destruct (decide (value p < value p0)); lra.
    + destruct (calibration_points self); discriminate.
Qed.

End CalibrationUtilsMore.
(** ** The two interpolation strategies side by side *)

Module Agreement.
Import Predicates.

(** Whole turns apart and less than a turn apart: equal. *)
Lemma whole_turns_apart (a b : Q) (m : Z) :
  a == b + 360 * inject_Z m -> a - b < 360 -> -360 < a - b -> a == b.
Proof.
  intros E Hu Hl.
  assert (inject_Z m < inject_Z 1) as H1 by (change (inject_Z 1) with 1; lra).
  assert (inject_Z (-1) < inject_Z m) as H2
    by (change (inject_Z (-1)) with (-1); lra).
  rewrite <- Zlt_Qlt in H1, H2.
  assert (m = 0%Z) as -> by lia.
  change (inject_Z 0) with 0 in E. lra.
Qed.

(** Between two bearings that are not opposite, the unwrap step and the
    short-way rule take the same sweep. *)
Lemma sweep_unwrapped (r1 r2 u1 u2 d : Q) (k1 k2 : Z) :
  0 <= r1 -> r1 < 360 -> 0 <= r2 -> r2 < 360 ->
  u1 == r1 + 360 * inject_Z k1 ->
  u2 == r2 + 360 * inject_Z k2 ->
  -180 <= u2 - u1 -> u2 - u1 <= 180 ->
  ~ r2 - r1 == 180 -> ~ r2 - r1 == -180 ->
  sweep_of r1 r2 d ->
  d == u2 - u1.
Proof.
  intros ? ? ? ? E1 E2 Hl Hu Hn1 Hn2 Hd.
  assert (u2 - u1 == r2 - r1 + 360 * inject_Z (k2 - k1)) as E.
  { unfold Z.sub. rewrite inject_Z_plus, inject_Z_opp. lra. }
  destruct Hd as [[Hc ->]|[[Hc ->]|(Hc1 & Hc2 & ->)]]; symmetry.
  - apply (whole_turns_apart _ _ (k2 - k1 + 1));
      [rewrite inject_Z_plus; change (inject_Z 1) with 1|..]; lra.
  - apply (whole_turns_apart _ _ (k2 - k1 - 1));
      [unfold Z.sub at 1; rewrite inject_Z_plus;
       change (inject_Z (- (1))) with (-1)|..]; lra.
  - apply (whole_turns_apart _ _ (k2 - k1)); lra.
Qed.

Section Loops.
Variables (points : list AngleCalc.CalibrationPoint) (raw u : list Q).
Variable npoints : list CalibrationUtils.CalibrationPoint.

Hypothesis raw_length : length raw = length points.
Hypothesis raw_range :
  forall i r, raw !! i = Some r -> 0 <= r /\ r < 360.
Hypothesis raw_not_opposite :
  forall i r1 r2, raw !! i = Some r1 -> raw !! S i = Some r2 ->
                  ~ r2 - r1 == 180 /\ ~ r2 - r1 == -180.
Hypothesis u_unwrapped : AngleCalc.unwrapped raw u.
Hypothesis npoints_lookup :
  forall i p r, points !! i = Some p -> raw !! i = Some r ->
                npoints !! i = Some (CalibrationUtils.mkPoint
                                       (AngleCalc.value p) r).

(** The two bracket loops, entered at an index whose point lies
    strictly below [v], end alike. *)
Lemma loops_agree (v : Q) (m : nat) :
  forall (j : nat) (pj : AngleCalc.CalibrationPoint),
    points !! j = Some pj ->
    AngleCalc.value pj < v ->
    (j + m < length points)%nat ->
    match AngleCalc.bracket_for points u v (seq j m),
          CalibrationUtils.interpolate_for npoints v (seq j m) with
    | Ok (Some a), Ok (Some b) => a == b
    | Ok None, Ok None =>
        exists p, points !! (j + m)%nat = Some p /\ AngleCalc.value p < v
    | _, _ => False
    end.
Proof.
  destruct u_unwrapped as (Hulen & _ & Hcong & Hdiff).
  induction m as [|m IH]; intros j pj Hpj Hlt Hlen.
  { exists pj. now rewrite Nat.add_0_r. }
  destruct (lookup_lt_is_Some_2 points (S j)) as [p2 Hp2]; [lia|].
  destruct (lookup_lt_is_Some_2 raw j) as [r1 Hr1]; [lia|].
  destruct (lookup_lt_is_Some_2 raw (S j)) as [r2 Hr2]; [lia|].
  destruct (lookup_lt_is_Some_2 u j) as [u1 Hu1]; [lia|].
  destruct (lookup_lt_is_Some_2 u (S j)) as [u2 Hu2]; [lia|].
  pose proof (npoints_lookup j pj r1 Hpj Hr1) as Hn1.
  pose proof (npoints_lookup (S j) p2 r2 Hp2 Hr2) as Hn2.
  cbn [seq].
  destruct (decide (v <= AngleCalc.value p2)) as [Hhit|Hmiss].
  - destruct (CalibrationUtilsMore.interpolate_for_between npoints v j
                (seq (S j) m) _ _ Hn1 Hn2) as (d & Hd & ->); auto.
    destruct (decide (v == AngleCalc.value p2)) as [Heq|Hne].
    + destruct (AngleCalcFacts.bracket_for_hit points u v j (seq (S j) m)
                  pj p2 u1 u2) as (a & -> & Ha); auto;
        try (now rewrite Nat.add_1_r).
      rewrite Ha. cbn [CalibrationUtils.value CalibrationUtils.angle].
      destruct (Hcong j u1 r1 Hu1 Hr1) as [k1 E1].
      destruct (Hcong (S j) u2 r2 Hu2 Hr2) as [k2 E2].
      destruct (raw_range j r1 Hr1), (raw_range (S j) r2 Hr2).
      destruct (raw_not_opposite j r1 r2 Hr1 Hr2).
      destruct (Hdiff j u2 u1 Hu1 Hu2).
      pose proof (sweep_unwrapped r1 r2 u1 u2 d k1 k2) as Hs.
      apply (mod_congr _ _ k1).
      assert ((v - AngleCalc.value pj)
              / (AngleCalc.value p2 - AngleCalc.value pj) == 1) as ->.
      { rewrite Heq. field. lra. }
      rewrite Hs by assumption. lra.
    + rewrite (AngleCalcMore.bracket_for_between points u v j (seq (S j) m)
                 pj p2 u1 u2); auto; [|lra].
      cbn [CalibrationUtils.value CalibrationUtils.angle].
      destruct (Hcong j u1 r1 Hu1 Hr1) as [k1 E1].
      destruct (Hcong (S j) u2 r2 Hu2 Hr2) as [k2 E2].
      destruct (raw_range j r1 Hr1), (raw_range (S j) r2 Hr2).
      destruct (raw_not_opposite j r1 r2 Hr1 Hr2).
      destruct (Hdiff j u2 u1 Hu1 Hu2).
      pose proof (sweep_unwrapped r1 r2 u1 u2 d k1 k2) as Hs.
      apply (mod_congr _ _ k1).
      rewrite Hs by assumption. lra.
  - cbn [AngleCalc.bracket_for CalibrationUtils.interpolate_for].
    rewrite <- Nat.add_1_r in Hp2, Hn2.
    pose proof Hp2 as Hp2'.
    apply getitem_Ok in Hpj, Hp2, Hn1, Hn2.
    rewrite Hpj, Hp2, Hn1, Hn2.
    cbn [CalibrationUtils.value].
    destruct (decide (AngleCalc.value pj <= v)); [|lra].
    destruct (decide (v <= AngleCalc.value p2)); [contradiction|].
    rewrite (bool_decide_eq_false_2 (v <= AngleCalc.value p2)) by assumption.
    rewrite andb_false_r.
    replace (S j) with (j + 1)%nat by lia.
    replace (j + S m)%nat with (j + 1 + m)%nat by lia.
    apply (IH (j + 1)%nat p2); auto; [lra|lia].
Qed.

End Loops.

End Agreement.
(** ** Loading a calibration in image_gauge.py, step by step *)

Module ImageGaugeMore.
Import ImageGauge ImageGaugeFacts Predicates.

(** A list with an entry that lacks a key makes the loading loop raise
    [KeyError]. *)
Lemma points_from_list_loop_KeyError (points : list AngleCalc.point_dict) :
  forall c : AngleCalc.AngleCalculator,
    ~ Forall well_formed points ->
    (AngleCalc.points_from_list_loop c points).2 = Raise KeyError.
Proof.
  induction points as [|d points IH]; intros c Hbad.
  - exfalso. apply Hbad. constructor.
  - cbn [AngleCalc.points_from_list_loop].
    destruct d as [[dx|] [dy|] [dv|]];
      cbn [AngleCalc.d_x AngleCalc.d_y AngleCalc.d_value AngleCalc.getkey];
      try reflexivity.
    apply IH. intros Hall. apply Hbad. constructor; [|exact Hall].
    unfold well_formed. cbn. eauto.
Qed.

Section Load.
Variable atan2_degrees : Q -> Q -> Q.
Variable pow_half : Q -> Q.

Lemma load_tip_radius_frames {B : Type} (f : ImageBasedGauge -> B)
    (gx gy : Q) (points : list AngleCalc.point_dict) :
  (forall v s, f (set_desired_tip_radius_px v s) = f s) ->
  frames f (load_tip_radius pow_half gx gy points).
Proof.
  intros H. unfold load_tip_radius.
  apply frames_bind; [apply frames_read|intros pivot_px].
  apply frames_when, frames_when.
  apply frames_bind; [apply frames_lift|intros r].
  apply frames_assign, H.
Qed.

(** The steps of a [load_v2_calibration] that returned [True]. *)
Lemma load_v2_calibration_steps (calibration_data : gmap string needle_cal)
    (needle_id : string) (cal : needle_cal) (imported : bool)
    (self self' : ImageBasedGauge) :
  let gx := default 0 (cal_gauge_pivot_x cal) in
  let gy := default 0 (cal_gauge_pivot_y cal) in
  let points := default [] (cal_calibration_points cal) in
  calibration_data !! needle_id = Some cal ->
  load_v2_calibration atan2_degrees pow_half imported
    calibration_data needle_id self = (self', Ok true) ->
  exists (calc : AngleCalc.AngleCalculator) (s4 s5 s6 : ImageBasedGauge),
    imported = true /\
    AngleCalc.points_from_list (AngleCalc.init gx gy) points = (calc, Ok tt) /\
    load_needle_geometry atan2_degrees pow_half cal
      (set_gauge_pivot_px (Some (gx, gy))
         (set_calibration_points_px points
            (set_angle_calculator (Some calc) self))) = (s4, Ok tt) /\
    load_center_offset gx gy s4 = (s5, Ok tt) /\
    load_tip_radius pow_half gx gy points s5 = (s6, Ok tt) /\
    self' = match cal_needle_scale cal with
            | Some sc => set_needle_scale sc s6
            | None => s6
            end.
Proof.
  intros gx gy points Hcal Hrun.
  unfold load_v2_calibration in Hrun. rewrite Hcal in Hrun.
  apply try_except_Ok_true in Hrun.
  destruct imported; [|discriminate].
  fold gx gy points in Hrun.
  apply bind_Ok in Hrun as (s1 & [] & H1 & Hrun).
  apply bind_Ok in Hrun as (s2 & [] & H2 & Hrun).
  apply bind_Ok in Hrun as (s3 & [] & H3 & Hrun).
  apply bind_Ok in Hrun as (s4 & [] & H4 & Hrun).
  apply bind_Ok in Hrun as (s5 & [] & H5 & Hrun).
  apply bind_Ok in Hrun as (s6 & [] & H6 & Hrun).
  apply bind_Ok in Hrun as (s7 & [] & H7 & Hrun).
  injection Hrun as <-. injection H3 as <-. injection H2 as <-.
  destruct (AngleCalc.points_from_list _ points) as [calc r] eqn:Hpts.
  injection H1 as <- ->.
  exists calc, s4, s5, s6. repeat split; auto.
  destruct (cal_needle_scale cal); now injection H7 as <-.
Qed.

(** What a [load_v2_calibration] does when an entry of the point list
    lacks a key: the new calculator is in place, nothing else is. *)
Lemma load_v2_calibration_KeyError (calibration_data : gmap string needle_cal)
    (needle_id : string) (cal : needle_cal) (self : ImageBasedGauge) :
  let gx := default 0 (cal_gauge_pivot_x cal) in
  let gy := default 0 (cal_gauge_pivot_y cal) in
  let points := default [] (cal_calibration_points cal) in
  calibration_data !! needle_id = Some cal ->
  ~ Forall well_formed points ->
  load_v2_calibration atan2_degrees pow_half true
    calibration_data needle_id self
  = (set_angle_calculator
       (Some (AngleCalc.points_from_list (AngleCalc.init gx gy) points).1)
       self,
     Ok false).
Proof.
  intros gx gy points Hcal Hbad.
  unfold load_v2_calibration. rewrite Hcal. fold gx gy points.
  pose proof (points_from_list_loop_KeyError points
                (AngleCalc.mkCalc gx gy []) Hbad) as Hr.
  unfold try_except, bind at 1.
  unfold AngleCalc.points_from_list, AngleCalc.init.
  cbn [AngleCalc.gauge_pivot_x AngleCalc.gauge_pivot_y].
  destruct (AngleCalc.points_from_list_loop _ points) as [calc r].
  cbn [snd fst] in *. now subst r.
Qed.

(** An attribute that none of the later steps assigns is, after a
    load that returned [True], as the first three assignments left
    it. *)
Lemma load_v2_calibration_keeps {B : Type} (f : ImageBasedGauge -> B)
    (calibration_data : gmap string needle_cal)
    (needle_id : string) (cal : needle_cal) (imported : bool)
    (self self' : ImageBasedGauge) :
  let gx := default 0 (cal_gauge_pivot_x cal) in
  let gy := default 0 (cal_gauge_pivot_y cal) in
  let points := default [] (cal_calibration_points cal) in
  (forall v s, f (ImageGauge.set_needle_pivot v s) = f s) ->
  (forall v s, f (set_needle_length_px v s) = f s) ->
  (forall v s, f (set_needle_base_angle v s) = f s) ->
  (forall v s, f (set_needle_center_offset v s) = f s) ->
  (forall v s, f (set_desired_tip_radius_px v s) = f s) ->
  (forall v s, f (set_needle_scale v s) = f s) ->
  calibration_data !! needle_id = Some cal ->
  load_v2_calibration atan2_degrees pow_half imported
    calibration_data needle_id self = (self', Ok true) ->
  exists calc : AngleCalc.AngleCalculator,
    AngleCalc.points_from_list (AngleCalc.init gx gy) points = (calc, Ok tt) /\
    f self' = f (set_gauge_pivot_px (Some (gx, gy))
                   (set_calibration_points_px points
                      (set_angle_calculator (Some calc) self))).
Proof.
  intros gx gy points F1 F2 F3 F4 F5 F6 Hcal Hrun.
  destruct (load_v2_calibration_steps _ _ _ _ _ _ Hcal Hrun)
    as (calc & s4 & s5 & s6 & _ & Hpts & H4 & H5 & H6 & ->).
  exists calc. split; [exact Hpts|].
  fold gx gy points in H4, H5, H6.
  rewrite <- (load_needle_geometry_frames atan2_degrees pow_half f cal
                F1 F2 F3 _ _ _ H4).
  rewrite <- (load_center_offset_frames f gx gy F4 _ _ _ H5).
  rewrite <- (load_tip_radius_frames f gx gy points F5 _ _ _ H6).
  destruct (cal_needle_scale cal); [apply F6|reflexivity].
Qed.

(** The needle geometry block on a PNG needle of positive size. *)
Lemma load_needle_geometry_pixmap (cal : needle_cal) (pm : QPixmap)
    (s : ImageBasedGauge) :
  let piv_x := default 0 (cal_needle_pivot_x cal) in
  let piv_y := default 0 (cal_needle_pivot_y cal) in
  let end_x := default 0 (cal_needle_end_x cal) in
  let end_y := default 0 (cal_needle_end_y cal) in
  let dx := end_x - piv_x in
  let dy := end_y - piv_y in
  let pivot := (piv_x / inject_Z (width pm), piv_y / inject_Z (height pm)) in
  is_svg_needle s = false ->
  needle_pixmap s = Some pm ->
  isNull pm = false ->
  (0 < width pm)%Z -> (0 < height pm)%Z ->
  load_needle_geometry atan2_degrees pow_half cal s
  = (if Py.truthy end_x || Py.truthy end_y
     then set_needle_base_angle (Py.mod_ (atan2_degrees dy dx + 360) 360)
            (set_needle_length_px (Some (pow_half (dx * dx + dy * dy)))
               (ImageGauge.set_needle_pivot pivot s))
     else set_needle_length_px None (ImageGauge.set_needle_pivot pivot s),
     Ok tt).
Proof.
  intros piv_x piv_y end_x end_y dx dy pivot Hsvg Hpm Hnull Hw Hh.
  unfold load_needle_geometry, bind at 1, read at 1.
  rewrite Hsvg. unfold bind at 1, read at 1. rewrite Hpm, Hnull.
  rewrite !bool_decide_eq_true_2 by assumption. cbn [negb andb when].
  unfold set_needle_geometry, bind, lift, assign.
  rewrite !div_ok by (apply inject_Z_nonzero; lia).
  fold piv_x piv_y end_x end_y.
  destruct (Py.truthy end_x || Py.truthy end_y); reflexivity.
Qed.

(** The centre block on a background of non-zero size. *)
Lemma load_center_offset_run (gx gy : Q) (w h : Z) (s : ImageBasedGauge) :
  gauge_bg_width s = Some w -> gauge_bg_height s = Some h ->
  w <> 0%Z -> h <> 0%Z ->
  load_center_offset gx gy s
  = (set_needle_center_offset (gx / inject_Z w, gy / inject_Z h) s, Ok tt).
Proof.
  intros Hw Hh Hw0 Hh0. unfold load_center_offset, bind at 1, read.
  rewrite Hw, Hh. cbn [truthy_int].
  rewrite (proj2 (Z.eqb_neq w 0)), (proj2 (Z.eqb_neq h 0)) by assumption.
  cbn [negb andb when]. unfold bind, lift, assign.
  now rewrite !div_ok by (now apply inject_Z_nonzero).
Qed.

(** After a load that returned [True], on a background of non-zero
    size, the needle centre is the gauge pivot over that size. *)
Lemma load_v2_calibration_center (calibration_data : gmap string needle_cal)
    (needle_id : string) (cal : needle_cal) (imported : bool)
    (self self' : ImageBasedGauge) (w h : Z) :
  let gx := default 0 (cal_gauge_pivot_x cal) in
  let gy := default 0 (cal_gauge_pivot_y cal) in
  gauge_bg_width self = Some w -> gauge_bg_height self = Some h ->
  w <> 0%Z -> h <> 0%Z ->
  calibration_data !! needle_id = Some cal ->
  load_v2_calibration atan2_degrees pow_half imported
    calibration_data needle_id self = (self', Ok true) ->
  needle_center_offset self' = (gx / inject_Z w, gy / inject_Z h) /\
  gauge_bg_width self' = Some w /\ gauge_bg_height self' = Some h.
Proof.
  intros gx gy Hbw Hbh Hw0 Hh0 Hcal Hrun.
  destruct (load_v2_calibration_steps _ _ _ _ _ _ Hcal Hrun)
    as (calc & s4 & s5 & s6 & _ & Hpts & H4 & H5 & H6 & ->).
  fold gx gy in H4, H5, H6.
  pose proof (load_needle_geometry_frames atan2_degrees pow_half
                gauge_bg_width cal ltac:(reflexivity) ltac:(reflexivity)
                ltac:(reflexivity) _ _ _ H4) as Hw4.
  pose proof (load_needle_geometry_frames atan2_degrees pow_half
                gauge_bg_height cal ltac:(reflexivity) ltac:(reflexivity)
                ltac:(reflexivity) _ _ _ H4) as Hh4.
  cbn in Hw4, Hh4. rewrite Hbw in Hw4. rewrite Hbh in Hh4.
  rewrite (load_center_offset_run gx gy w h s4 Hw4 Hh4 Hw0 Hh0) in H5.
  injection H5 as <-.
  assert (forall (B : Type) (f : ImageBasedGauge -> B),
             (forall v s, f (set_desired_tip_radius_px v s) = f s) ->
             (forall v s, f (set_needle_scale v s) = f s) ->
             f (match cal_needle_scale cal with
                | Some sc => set_needle_scale sc s6
                | None => s6
                end)
             = f (set_needle_center_offset (gx / inject_Z w, gy / inject_Z h)
                    s4)) as K.
  { intros B f F5 F6.
    rewrite <- (load_tip_radius_frames f gx gy _ F5 _ _ _ H6).
    destruct (cal_needle_scale cal); [apply F6|reflexivity]. }
  rewrite !K by reflexivity. cbn. auto.
Qed.

End Load.

(** *** The named needles *)

Lemma registry_complete (self : ImageBasedGauge) :
  registry self -> complete (named_needles self).
Proof.
  induction 1 as [self Hempty|self name v _ IH|self name scale _ IH
                  |self name _ IH]; intros other d.
  - rewrite Hempty, lookup_empty. discriminate.
  - unfold set_named_needle_value.
    destruct (named_needles self !! name) as [d0|] eqn:E;
      cbn [named_needles set_named_needles];
      (destruct (decide (other = name)) as [->|Hne];
       [rewrite lookup_insert_eq|rewrite lookup_insert_ne by auto; apply IH]);
      intros [= <-]; cbn; eauto.
    split; [eauto|]. apply (IH name d0 E).
  - unfold set_named_needle_scale.
    destruct (named_needles self !! name) as [d0|] eqn:E;
      cbn [named_needles set_named_needles];
      (destruct (decide (other = name)) as [->|Hne];
       [rewrite lookup_insert_eq|rewrite lookup_insert_ne by auto; apply IH]);
      intros [= <-]; cbn; eauto.
    split; [|eauto]. apply (IH name d0 E).
  - unfold delete_named_needle.
    destruct (named_needles self !! name) as [d0|] eqn:E; [|apply IH].
    cbn [named_needles set_named_needles].
    destruct (decide (other = name)) as [->|Hne].
    + rewrite lookup_delete_eq. discriminate.
    + rewrite lookup_delete_ne by auto. apply IH.
Qed.

Lemma registry_uncalibrated (self : ImageBasedGauge) :
  registry self ->
  forall (name : string) (d : needle_data),
    named_needles self !! name = Some d -> nd_angle_calc d = None.
Proof.
  induction 1 as [self Hempty|self name v _ IH|self name scale _ IH
                  |self name _ IH]; intros other d.
  - rewrite Hempty, lookup_empty. discriminate.
  - unfold set_named_needle_value.
    destruct (named_needles self !! name) as [d0|] eqn:E;
      cbn [named_needles set_named_needles];
      (destruct (decide (other = name)) as [->|Hne];
       [rewrite lookup_insert_eq|rewrite lookup_insert_ne by auto; apply IH]);
      intros [= <-]; cbn; eauto.
  - unfold set_named_needle_scale.
    destruct (named_needles self !! name) as [d0|] eqn:E;
      cbn [named_needles set_named_needles];
      (destruct (decide (other = name)) as [->|Hne];
       [rewrite lookup_insert_eq|rewrite lookup_insert_ne by auto; apply IH]);
      intros [= <-]; cbn; eauto.
  - unfold delete_named_needle.
    destruct (named_needles self !! name) as [d0|] eqn:E; [|apply IH].
    cbn [named_needles set_named_needles].
    destruct (decide (other = name)) as [->|Hne].
    + rewrite lookup_delete_eq. discriminate.
    + rewrite lookup_delete_ne by auto. apply IH.
Qed.

End ImageGaugeMore.
(** ** The file loaders and the loader of the fuel gauge *)

Module GaugeFilesMore.
Import ImageGauge GaugeFiles Predicates.

(** The loop over the other needles runs through exactly when none of
    them has two calibration points. *)
Lemma load_named_needles_Finished (entries : list (string * needle_cal))
    (main_needle_id : string) :
  load_named_needles entries main_needle_id = Finished <->
  Forall (fun e => e.1 <> main_needle_id ->
                   (length (default [] (cal_calibration_points e.2)) < 2)%nat)
         entries.
Proof.
  induction entries as [|[needle_id cal] entries IH];
    cbn [load_named_needles].
  { split; [constructor|reflexivity]. }
  rewrite Forall_cons. cbn [fst snd].
  destruct (decide (needle_id <> main_needle_id)) as [Hne|He].
  - set (points := default [] (cal_calibration_points cal)).
    destruct (decide (2 <= length points)%nat) as [Hlen|Hlen].
    + rewrite (bool_decide_eq_true_2 (2 <= length points)%nat) by exact Hlen.
      rewrite (bool_decide_eq_true_2 (points <> []))
        by (intros E; rewrite E in Hlen; cbn in Hlen; lia).
      cbn [andb]. split; [discriminate|]. intros [H _].
      specialize (H Hne). lia.
    + rewrite (bool_decide_eq_false_2 (2 <= length points)%nat) by exact Hlen.
      rewrite andb_false_r, IH. split; [|now intros [_ H]].
      intros H. split; [intros _; lia|exact H].
  - rewrite IH. split; [|now intros [_ H]].
    intros H. split; [intros Hne; contradiction|exact H].
Qed.

Section Loading.
Variable atan2_degrees : Q -> Q -> Q.
Variable pow_half : Q -> Q.

(** [load_v2_calibration] returns, and leaves the named needles as
    they were. *)
Lemma load_v2_calibration_named (imported : bool)
    (calibration_data : gmap string needle_cal) (needle_id : string)
    (self : ImageBasedGauge) :
  exists (self' : ImageBasedGauge) (loaded : bool),
    load_v2_calibration atan2_degrees pow_half imported calibration_data
      needle_id self = (self', Ok loaded) /\
    named_needles self' = named_needles self.
Proof.
  destruct (calibration_data !! needle_id) as [cal|] eqn:Hcal.
  2:{ exists self, false. unfold load_v2_calibration. now rewrite Hcal. }
  destruct imported.
  2:{ exists self, false. unfold load_v2_calibration. now rewrite Hcal. }
  destruct (decide (Forall well_formed
                      (default [] (cal_calibration_points cal))))
    as [Hwf|Hbad].
  - destruct (ImageGaugeFacts.load_v2_calibration_succeeds atan2_degrees
                pow_half true calibration_data needle_id cal self eq_refl
                Hcal Hwf) as [self' Hrun].
    exists self', true. split; [exact Hrun|].
    destruct (ImageGaugeMore.load_v2_calibration_keeps atan2_degrees pow_half
                named_needles calibration_data needle_id cal true self self')
      as (calc & _ & ->); auto.
  - eexists _, false. split.
    + exact (ImageGaugeMore.load_v2_calibration_KeyError atan2_degrees
               pow_half calibration_data needle_id cal self Hcal Hbad).
    + reflexivity.
Qed.

(** The water part of [load_dual_v2_calibration] assigns water
    attributes only. *)
Lemma load_water_calibration_frames {B : Type} (f : ImageFuelGauge -> B)
    (imported : bool) (water_cal : needle_cal)
    (water_artwork : option artwork) :
  (forall v s, f (set_water_angle_calculator v s) = f s) ->
  (forall v s, f (set_water_needle_svg v s) = f s) ->
  (forall v s, f (set_is_water_svg_needle v s) = f s) ->
  (forall v s, f (set_water_needle_pixmap v s) = f s) ->
  (forall v s, f (set_water_needle_scale v s) = f s) ->
  (forall v s, f (set_water_needle_pivot v s) = f s) ->
  (forall v s, f (set_water_needle_length_px v s) = f s) ->
  (forall v s, f (set_water_base_angle v s) = f s) ->
  (forall v s, f (set_water_needle_center_offset v s) = f s) ->
  (forall v s, f (set_water_tip_radius_px v s) = f s) ->
  frames f (load_water_calibration atan2_degrees pow_half imported water_cal
              water_artwork).
Proof.
  intros F1 F2 F3 F4 F5 F6 F7 F8 F9 F10.
  unfold load_water_calibration.
  apply ImageGaugeFacts.frames_when.
  apply ImageGaugeFacts.frames_bind.
  { intros s s' r.
    destruct (AngleCalc.points_from_list _ _) as [calc r'].
    intros [= <- _]. apply F1. }
  intros _. apply ImageGaugeFacts.frames_bind.
  { destruct water_artwork as [[renderer [|]|pixmap]|].
    - apply ImageGaugeFacts.frames_bind;
        [|intros _]; apply ImageGaugeFacts.frames_assign; auto.
    - apply ImageGaugeFacts.frames_assign; auto.
    - apply ImageGaugeFacts.frames_assign; auto.
    - apply ImageGaugeFacts.frames_ret. }
  intros _. apply ImageGaugeFacts.frames_bind;
    [apply ImageGaugeFacts.frames_assign; auto|].
  intros _. apply ImageGaugeFacts.frames_bind;
    [apply ImageGaugeFacts.frames_read|].
  intros svg. apply ImageGaugeFacts.frames_bind;
    [apply ImageGaugeFacts.frames_read|].
  intros pm.
  destruct (match svg with Some _ => _ | None => _ end) as [needle_w needle_h].
  apply ImageGaugeFacts.frames_bind; [apply ImageGaugeFacts.frames_lift|].
  intros fx. apply ImageGaugeFacts.frames_bind;
    [apply ImageGaugeFacts.frames_lift|].
  intros fy. apply ImageGaugeFacts.frames_bind;
    [apply ImageGaugeFacts.frames_assign; auto|].
  intros _. apply ImageGaugeFacts.frames_bind.
  { destruct (_ || _).
    - apply ImageGaugeFacts.frames_bind;
        [|intros _]; apply ImageGaugeFacts.frames_assign; auto.
    - apply ImageGaugeFacts.frames_assign; auto. }
  intros _. apply ImageGaugeFacts.frames_bind;
    [apply ImageGaugeFacts.frames_read|].
  intros [[w|] [h|]]; apply ImageGaugeFacts.frames_bind;
    try apply ImageGaugeFacts.frames_ret.
  - apply ImageGaugeFacts.frames_when.
    apply ImageGaugeFacts.frames_bind; [apply ImageGaugeFacts.frames_lift|].
    intros cx. apply ImageGaugeFacts.frames_bind;
      [apply ImageGaugeFacts.frames_lift|].
    intros cy. apply ImageGaugeFacts.frames_assign; auto.
  - intros _. apply ImageGaugeFacts.frames_when, ImageGaugeFacts.frames_when.
    apply ImageGaugeFacts.frames_bind; [apply ImageGaugeFacts.frames_lift|].
    intros r. apply ImageGaugeFacts.frames_assign; auto.
  - intros _. apply ImageGaugeFacts.frames_when, ImageGaugeFacts.frames_when.
    apply ImageGaugeFacts.frames_bind; [apply ImageGaugeFacts.frames_lift|].
    intros r. apply ImageGaugeFacts.frames_assign; auto.
  - intros _. apply ImageGaugeFacts.frames_when, ImageGaugeFacts.frames_when.
    apply ImageGaugeFacts.frames_bind; [apply ImageGaugeFacts.frames_lift|].
    intros r. apply ImageGaugeFacts.frames_assign; auto.
  - intros _. apply ImageGaugeFacts.frames_when, ImageGaugeFacts.frames_when.
    apply ImageGaugeFacts.frames_bind; [apply ImageGaugeFacts.frames_lift|].
    intros r. apply ImageGaugeFacts.frames_assign; auto.
Qed.

(** The water part stops at the first calibration point that lacks a
    key. *)
Lemma load_water_calibration_KeyError (water_cal : needle_cal)
    (water_artwork : option artwork) (self : ImageFuelGauge) :
  ~ Forall well_formed (default [] (cal_calibration_points water_cal)) ->
  (load_water_calibration atan2_degrees pow_half true water_cal
     water_artwork self).2 = Raise KeyError.
Proof.
  intros Hbad. unfold load_water_calibration. cbn [when].
  set (gx := default 0 (cal_gauge_pivot_x water_cal)).
  set (gy := default 0 (cal_gauge_pivot_y water_cal)).
  set (points := default [] (cal_calibration_points water_cal)) in *.
  pose proof (ImageGaugeMore.points_from_list_loop_KeyError points
                (AngleCalc.mkCalc gx gy []) Hbad) as Hr.
  unfold bind at 1.
  unfold AngleCalc.points_from_list, AngleCalc.init.
  cbn [AngleCalc.gauge_pivot_x AngleCalc.gauge_pivot_y].
  destruct (AngleCalc.points_from_list_loop _ points) as [calc r].
  cbn [snd] in Hr. subst r. reflexivity.
Qed.

(** [load_dual_v2_calibration] is its fuel part, which returns,
    followed by its water part. *)
Lemma load_dual_v2_calibration_run (imported : bool)
    (calibration_data : gmap string needle_cal)
    (water_artwork : option artwork) (self : ImageFuelGauge) :
  let after_fuel :=
    match calibration_data !! "fuel"%string with
    | Some _ =>
        let b := (load_v2_calibration atan2_degrees pow_half imported
                    calibration_data "fuel" (base self)).1 in
        set_fuel_angle_calculator (angle_calculator b) (set_base b self)
    | None => self
    end in
  load_dual_v2_calibration atan2_degrees pow_half imported calibration_data
    water_artwork self
  = match calibration_data !! "water"%string with
    | Some water_cal =>
        load_water_calibration atan2_degrees pow_half imported water_cal
          water_artwork after_fuel
    | None => (after_fuel, Ok tt)
    end.
Proof.
  intros after_fuel. subst after_fuel. unfold load_dual_v2_calibration.
  destruct (calibration_data !! "fuel"%string) as [cal|] eqn:Hfuel.
  - destruct (load_v2_calibration_named imported calibration_data "fuel"
                (base self)) as (b & loaded & Hrun & _).
    unfold bind at 1. unfold bind at 1. unfold on_base. rewrite Hrun.
    cbn [fst]. unfold bind at 1, read, assign.
    now destruct (calibration_data !! "water"%string).
  - unfold bind at 1, ret at 1.
    now destruct (calibration_data !! "water"%string).
Qed.

End Loading.

End GaugeFilesMore.
(** ** The widget: smoothing, the frame of a paint event *)

Module GaugeWidgetFacts.
Import ImageGauge ImageGaugeFacts GaugeWidget.

(** One smoothing step with a factor between 0 and 1 keeps the value
    between whatever bounds hold the value and the target. *)
Lemma smooth_value_between (d : display) (lo hi : Q) :
  0 <= smoothing_factor d -> smoothing_factor d <= 1 ->
  lo <= value d -> value d <= hi ->
  lo <= target_value d -> target_value d <= hi ->
  lo <= value (_smooth_value d) /\ value (_smooth_value d) <= hi.
Proof.
  intros Hf0 Hf1 Hv0 Hv1 Ht0 Ht1.
  cbn [_smooth_value set_value value].
  set (f := smoothing_factor d) in *. set (v := value d) in *.
  set (t := target_value d) in *. clearbody f v t.
  assert (v + (t - v) * f == (1 - f) * v + f * t) as -> by ring.
  assert (0 <= (1 - f) * (v - lo)) by (apply Qmult_le_0_compat; lra).
  assert (0 <= f * (t - lo)) by (apply Qmult_le_0_compat; lra).
  assert (0 <= (1 - f) * (hi - v)) by (apply Qmult_le_0_compat; lra).
  assert (0 <= f * (hi - t)) by (apply Qmult_le_0_compat; lra).
  split; lra.
Qed.

Lemma smooth_value_keeps (d : display) :
  target_value (_smooth_value d) = target_value d /\
  smoothing_factor (_smooth_value d) = smoothing_factor d /\
  bg_pixmap (_smooth_value d) = bg_pixmap d.
Proof. repeat split. Qed.

Lemma iter_smooth_keeps (n : nat) (d : display) :
  target_value (Nat.iter n _smooth_value d) = target_value d /\
  smoothing_factor (Nat.iter n _smooth_value d) = smoothing_factor d.
Proof.
  induction n as [|n [IH1 IH2]]; [split; reflexivity|].
  cbn [Nat.iter]. split; [exact IH1|exact IH2].
Qed.

(** [min] and [max] clamp into the interval. *)
Lemma clamp_between (v hi : Q) :
  0 <= hi ->
  0 <= Py.max 0 (Py.min v hi) /\ Py.max 0 (Py.min v hi) <= hi.
Proof.
  intros Hhi. unfold Py.max, Py.min.
  destruct (decide (hi < v)); destruct (decide (0 < _)); split; lra.
Qed.

Section Painting.
Variables scaledToWidth scaledToHeight : QPixmap -> Z -> QPixmap.

Lemma set_gauge_display_scale_same (g : ImageBasedGauge) :
  set_gauge_display_scale (gauge_display_scale g) g = g.
Proof. now destruct g. Qed.

Lemma update_display_scale_run (gauge_width : Z) (self : Widget) :
  update_display_scale gauge_width self
  = (set_gauge
       (set_gauge_display_scale
          (display_scale_after gauge_width (gauge self)) (gauge self)) self,
     Ok tt).
Proof.
  unfold update_display_scale, display_scale_after, bind, read.
  destruct (gauge_bg_width (gauge self)) as [w|].
  - cbn [truthy_int]. destruct (w =? 0)%Z eqn:Hw; cbn [negb when].
    + rewrite set_gauge_display_scale_same. now destruct self.
    + apply Z.eqb_neq in Hw. unfold bind, lift, assign.
      now rewrite div_ok by (now apply inject_Z_nonzero).
  - rewrite set_gauge_display_scale_same. now destruct self.
Qed.

(** The frame of a paint event and the widget it leaves. *)
Lemma paint_frame_run (width height : Z) (self : Widget) :
  let bg := bg_pixmap (shown self) in
  let scaled_pixmap :=
    fit_background scaledToWidth scaledToHeight bg width height in
  let gauge_width := ImageGauge.width scaled_pixmap in
  let gauge_height := ImageGauge.height scaled_pixmap in
  let x := inject_Z (width - gauge_width) / 2 in
  let y := inject_Z (height - gauge_height) / 2 in
  let offset := needle_center_offset (gauge self) in
  paint_frame scaledToWidth scaledToHeight width height self
  = if isNull bg then
      (mkWidget (gauge self) (_smooth_value (shown self)),
       Ok (mkFrame None (inject_Z width / 2, inject_Z height / 2)
                   (inject_Z (Z.min width height) / 2)))
    else
      (mkWidget
         (set_gauge_display_scale
            (display_scale_after gauge_width (gauge self)) (gauge self))
         (_smooth_value (shown self)),
       Ok (mkFrame (Some (Py.int x, Py.int y, scaled_pixmap))
                   (x + inject_Z gauge_width * offset.1,
                    y + inject_Z gauge_height * offset.2)
                   (inject_Z (Z.min gauge_width gauge_height) / 2))).
Proof.
  intros bg scaled_pixmap gauge_width gauge_height x y offset.
  unfold paint_frame, bind at 1, assign at 1, bind at 1, read at 1.
  cbn [shown set_shown bg_pixmap _smooth_value set_value]. fold bg.
  destruct (isNull bg); cbn [negb]; [reflexivity|].
  fold scaled_pixmap gauge_width gauge_height.
  unfold bind at 1. rewrite update_display_scale_run.
  reflexivity.
Qed.

End Painting.

(** *** The three gauges *)

Section Gauges.
Variable atan2_degrees : Q -> Q -> Q.
Variables scaledToWidth scaledToHeight : QPixmap -> Z -> QPixmap.

Lemma tachometer_needle_angle_returns (self : Widget) :
  exists a : Q,
    returns (fun fuel => ImageTachometer.needle_angle atan2_degrees fuel self)
            a /\
    (angle_calculator (gauge self) = None ->
     a = 270 - 279 * (value (shown self) / ImageTachometer.max_rpm)).
Proof.
  unfold ImageTachometer.needle_angle.
  destruct (angle_calculator (gauge self)) as [calc|].
  - destruct (AngleCalcFacts.value_to_angle_ok atan2_degrees calc
                (value (shown self))) as (a & Ha & _).
    exists a. split; [exact Ha|discriminate].
  - rewrite div_ok by discriminate. eexists. split; [|reflexivity].
    exists 0%nat. reflexivity.
Qed.

Lemma speedometer_needle_angle_returns (self : Widget) :
  exists a : Q,
    returns (fun fuel => ImageSpeedometer.needle_angle atan2_degrees fuel self)
            a /\
    (angle_calculator (gauge self) = None ->
     a = 240 - 300 * (value (shown self) / ImageSpeedometer.max_speed)).
Proof.
  unfold ImageSpeedometer.needle_angle.
  destruct (angle_calculator (gauge self)) as [calc|].
  - destruct (AngleCalcFacts.value_to_angle_ok atan2_degrees calc
                (value (shown self))) as (a & Ha & _).
    exists a. split; [exact Ha|discriminate].
  - rewrite div_ok by discriminate. eexists. split; [|reflexivity].
    exists 0%nat. reflexivity.
Qed.

Lemma fuel_needle_angle_returns (self : FuelGaugeWidget.FuelWidget) :
  exists a : Q,
    returns (fun fuel =>
               FuelGaugeWidget.fuel_needle_angle atan2_degrees fuel self) a /\
    (fuel_angle_calculator (FuelGaugeWidget.dual self) = None ->
     a = 180 - (180 - 90)
               * (value (FuelGaugeWidget.fuel_shown self) / 100)).
Proof.
  unfold FuelGaugeWidget.fuel_needle_angle.
  destruct (fuel_angle_calculator (FuelGaugeWidget.dual self)) as [calc|].
  - destruct (AngleCalcFacts.value_to_angle_ok atan2_degrees calc
                (value (FuelGaugeWidget.fuel_shown self))) as (a & Ha & _).
    exists a. split; [exact Ha|discriminate].
  - rewrite div_ok by discriminate. eexists. split; [|reflexivity].
    exists 0%nat. reflexivity.
Qed.

Lemma tachometer_paintEvent_run (fuel : nat) (width height : Z)
    (self : Widget) :
  ImageTachometer.paintEvent atan2_degrees scaledToWidth scaledToHeight
    fuel width height self
  = match paint_frame scaledToWidth scaledToHeight width height self with
    | (self', Ok fr) =>
        (self', Ok (ImageTachometer._draw_needle atan2_degrees fuel self' fr))
    | (self', Raise e) => (self', Raise e)
    | (self', OutOfFuel) => (self', OutOfFuel)
    end.
Proof. reflexivity. Qed.

Lemma speedometer_paintEvent_run (fuel : nat) (width height : Z)
    (self : Widget) :
  ImageSpeedometer.paintEvent atan2_degrees scaledToWidth scaledToHeight
    fuel width height self
  = match paint_frame scaledToWidth scaledToHeight width height self with
    | (self', Ok fr) =>
        (self', Ok (ImageSpeedometer._draw_needle atan2_degrees fuel self' fr))
    | (self', Raise e) => (self', Raise e)
    | (self', OutOfFuel) => (self', OutOfFuel)
    end.
Proof. reflexivity. Qed.

(** A paint event always gets its frame. *)
Lemma paint_frame_ok (width height : Z) (self : Widget) :
  exists (g : ImageBasedGauge) (fr : frame),
    paint_frame scaledToWidth scaledToHeight width height self
    = (mkWidget g (_smooth_value (shown self)), Ok fr) /\
    g = set_gauge_display_scale (gauge_display_scale g) (gauge self).
Proof.
  rewrite paint_frame_run.
  destruct (isNull (bg_pixmap (shown self))); eexists _, _;
    (split; [reflexivity|]).
  - now rewrite set_gauge_display_scale_same.
  - reflexivity.
Qed.

End Gauges.

(** *** The fuel gauge *)

Lemma water_pixmap_size_ok (self : FuelGaugeWidget.FuelWidget) (pm : QPixmap)
    (radius : Q) :
  exists sz, FuelGaugeWidget.water_pixmap_size self pm radius = Ok sz.
Proof.
  unfold FuelGaugeWidget.water_pixmap_size. cbv zeta.
  match goal with
  | |- context [if ?c then ?a else None] =>
      set (desired_length := if c then a else None)
  end.
  clearbody desired_length.
  destruct (water_needle_length_px _) as [len|]; [|eauto].
  destruct desired_length as [desired|]; [|eauto].
  destruct (Py.truthy len) eqn:Hlen; [|eauto].
  destruct (Py.truthy desired); [|eauto]. cbn [andb].
  rewrite div_ok; [eauto|]. now apply truthy_nonzero.
Qed.

Lemma draw_svg_water_needle_ok (self : FuelGaugeWidget.FuelWidget)
    (radius angle : Q) :
  exists d, FuelGaugeWidget._draw_svg_water_needle self radius angle = Ok d.
Proof.
  unfold FuelGaugeWidget._draw_svg_water_needle.
  destruct (water_needle_svg _) as [svg|]; [|eauto]. cbv zeta.
  destruct (decide (0 < svg_height svg)%Z); [|eauto].
  rewrite div_ok; [eauto|]. apply inject_Z_nonzero. lia.
Qed.

Section FuelGauge.
Variable atan2_degrees : Q -> Q -> Q.
Variables scaledToWidth scaledToHeight : QPixmap -> Z -> QPixmap.

Lemma draw_fuel_needle_returns (self : FuelGaugeWidget.FuelWidget)
    (radius : Q) :
  exists d : option needle_draw,
    returns (fun fuel => FuelGaugeWidget._draw_fuel_needle atan2_degrees fuel
                           self radius) (d).
Proof.
  destruct (fuel_needle_angle_returns atan2_degrees self) as (a & [n Hn] & _).
  destruct (rotate_and_draw_needle_ok (base (FuelGaugeWidget.dual self))
              a radius) as [d Hd].
  exists d, n. intros fuel Hfuel.
  unfold FuelGaugeWidget._draw_fuel_needle. now rewrite (Hn fuel Hfuel).
Qed.

Lemma draw_water_needle_returns (self : FuelGaugeWidget.FuelWidget)
    (radius : Q) :
  exists d : option needle_draw,
    returns (fun fuel => FuelGaugeWidget._draw_water_needle atan2_degrees fuel
                           self radius) d /\
    (water_angle_calculator (FuelGaugeWidget.dual self) = None -> d = None).
Proof.
  unfold FuelGaugeWidget._draw_water_needle.
  destruct (water_angle_calculator _) as [calc|].
  2:{ exists None. split; [|reflexivity]. exists 0%nat. reflexivity. }
  destruct (AngleCalcFacts.value_to_angle_ok atan2_degrees calc
              (FuelGaugeWidget.water_value self)) as (a & [n Hn] & _).
  assert (exists d,
             (if is_water_svg_needle (FuelGaugeWidget.dual self)
                 && bool_decide (is_Some (water_needle_svg
                                            (FuelGaugeWidget.dual self)))
              then FuelGaugeWidget._draw_svg_water_needle self radius a
              else
                match water_needle_pixmap (FuelGaugeWidget.dual self) with
                | None => Ok None
                | Some pm =>
                    let* sz :=
                      FuelGaugeWidget.water_pixmap_size self pm radius in
                    Ok (Some (mkDraw sz
                                (a - water_base_angle
                                       (FuelGaugeWidget.dual self))))
                end) = Ok d) as [d Hd].
  { destruct (_ && _); [apply draw_svg_water_needle_ok|].
    destruct (water_needle_pixmap _) as [pm|]; [|eauto].
    destruct (water_pixmap_size_ok self pm radius) as [sz ->]. eauto. }
  exists d. split; [|discriminate].
  exists n. intros fuel Hfuel. now rewrite (Hn fuel Hfuel).
Qed.

Lemma fuel_update_display_scale_run (gauge_width : Z)
    (self : FuelGaugeWidget.FuelWidget) :
  FuelGaugeWidget.update_display_scale gauge_width self
  = (FuelGaugeWidget.set_dual
       (set_base
          (set_gauge_display_scale
             (display_scale_after gauge_width
                (base (FuelGaugeWidget.dual self)))
             (base (FuelGaugeWidget.dual self)))
          (FuelGaugeWidget.dual self)) self,
     Ok tt).
Proof.
  unfold FuelGaugeWidget.update_display_scale, display_scale_after, bind, read.
  destruct (gauge_bg_width (base (FuelGaugeWidget.dual self))) as [w|].
  - cbn [truthy_int]. destruct (w =? 0)%Z eqn:Hw; cbn [negb when].
    + rewrite set_gauge_display_scale_same.
      destruct self as [[] ? ? ? ? ?]. reflexivity.
    + apply Z.eqb_neq in Hw. unfold bind, lift, assign.
      now rewrite div_ok by (now apply inject_Z_nonzero).
  - rewrite set_gauge_display_scale_same.
    destruct self as [[] ? ? ? ? ?]. reflexivity.
Qed.

(** What a paint event of the fuel gauge leaves and draws. *)
Lemma fuel_paintEvent_run (width height : Z)
    (self : FuelGaugeWidget.FuelWidget) :
  exists (self' : FuelGaugeWidget.FuelWidget)
         (drawn : option (Z * Z * QPixmap)) (fc wc : Q * Q) (radius : Q),
    (forall fuel : nat,
        FuelGaugeWidget.paintEvent atan2_degrees scaledToWidth scaledToHeight
          fuel width height self
        = (self',
           Ok (FuelGaugeWidget.mkFuelPainted drawn fc wc radius
                 (FuelGaugeWidget._draw_fuel_needle atan2_degrees fuel self'
                    radius)
                 (FuelGaugeWidget._draw_water_needle atan2_degrees fuel self'
                    radius)
                 (_draw_all_named_needles
                    (base (FuelGaugeWidget.dual self')) radius)))) /\
    FuelGaugeWidget.fuel_shown self'
    = _smooth_value (FuelGaugeWidget.fuel_shown self) /\
    FuelGaugeWidget.water_value self'
    = FuelGaugeWidget.water_value self
      + (FuelGaugeWidget.water_target_value self
         - FuelGaugeWidget.water_value self)
        * smoothing_factor (FuelGaugeWidget.fuel_shown self) /\
    FuelGaugeWidget.water_target_value self'
    = FuelGaugeWidget.water_target_value self /\
    FuelGaugeWidget.temperature self' = FuelGaugeWidget.temperature self /\
    FuelGaugeWidget.boost self' = FuelGaugeWidget.boost self /\
    FuelGaugeWidget.dual self'
    = set_base
        (set_gauge_display_scale
           (gauge_display_scale (base (FuelGaugeWidget.dual self')))
           (base (FuelGaugeWidget.dual self)))
        (FuelGaugeWidget.dual self).
Proof.
  unfold FuelGaugeWidget.paintEvent.
  unfold bind at 1, assign at 1. unfold bind at 1, assign at 1.
  unfold bind at 1, read at 1.
  cbn [FuelGaugeWidget.fuel_shown FuelGaugeWidget.set_fuel_shown
       FuelGaugeWidget.set_water_value FuelGaugeWidget.water_value
       FuelGaugeWidget.water_target_value bg_pixmap _smooth_value set_value
       smoothing_factor].
  destruct (isNull (bg_pixmap (FuelGaugeWidget.fuel_shown self))).
  - cbn [negb]. eexists _, _, _, _, _. split.
    + intros fuel. unfold bind, ret, read. reflexivity.
    + cbn. repeat split. rewrite set_gauge_display_scale_same.
      now destruct (FuelGaugeWidget.dual self).
  - cbn [negb]. eexists _, _, _, _, _. split.
    + intros fuel. unfold bind at 1. unfold bind at 1.
      rewrite fuel_update_display_scale_run. unfold ret, bind, read.
      reflexivity.
    + cbn. repeat split.
Qed.

End FuelGauge.

(** Every named needle is painted without raising. *)
Lemma draw_all_named_needles_ok (g : ImageBasedGauge) (radius : Q)
    (name : string) (r : res (option needle_draw)) :
  _draw_all_named_needles g radius !! name = Some r -> exists d, r = Ok d.
Proof.
  unfold _draw_all_named_needles. rewrite lookup_fmap.
  destruct (named_needles g !! name) as [nd|]; [|discriminate].
  intros [= <-].
  destruct (named_needle_angle_ok nd) as (a & -> & _).
  apply rotate_and_draw_needle_ok.
Qed.

End GaugeWidgetFacts.
(** * The angle resolver: range, unwrap invariant, calibration values,
      clamping, termination, sortedness *)

Section AngleResolver.
Import Examples.

Local Abbreviation compass := AngleCalc.atan2_degrees_compass.

(** A goal about every point [p] of a concrete store, [Hp : p ∈ store]:
    go through the points one by one and compute. *)
Ltac each_stored_point Hp :=
  vm_compute in Hp;
  repeat (apply elem_of_cons in Hp as [-> | Hp];
          [vm_compute; try split; discriminate|]);
  now apply elem_of_nil in Hp.

(** C1, as the code has it.  The pixel-based [AngleCalculator] answers
    every query, for every calibration, with an angle between 0 and
    360.  The angle-based [NeedleAngleCalculator] answers every query,
    without raising, with an angle between 0 and 360 whenever the first
    and the last stored calibration angle lie between 0 and 360: at or
    beyond the end values it hands back the stored end angle as it is,
    and each of the two end angles is the answer to some query. *)
Theorem value_to_angle_range :
  (forall (atan2_degrees : Q -> Q -> Q) (self : AngleCalc.AngleCalculator)
          (v : Q),
      exists a : Q,
        returns (fun fuel => AngleCalc.value_to_angle atan2_degrees fuel self v) a
        /\ 0 <= a /\ a <= 360) /\
  (forall (self : CalibrationUtils.NeedleAngleCalculator) (v : Q),
      (forall p,
          CalibrationUtils.calibration_points self !! 0%nat = Some p \/
          last (CalibrationUtils.calibration_points self) = Some p ->
          0 <= CalibrationUtils.angle p /\ CalibrationUtils.angle p <= 360) ->
      exists a : Q,
        CalibrationUtils.value_to_angle self v = Ok a /\ 0 <= a /\ a <= 360) /\
  (forall (self : CalibrationUtils.NeedleAngleCalculator)
          (p : CalibrationUtils.CalibrationPoint),
      CalibrationUtils.calibration_points self !! 0%nat = Some p \/
      last (CalibrationUtils.calibration_points self) = Some p ->
      exists v : Q,
        CalibrationUtils.value_to_angle self v
        = Ok (CalibrationUtils.angle p)).
Proof.
  split; [|split].
  - intros atan2_degrees self v.
    destruct (AngleCalcFacts.value_to_angle_ok atan2_degrees self v)
      as (a & Ha & H0 & H1).
    exists a. split; [exact Ha|]. split; lra.
  - intros self v Hends.
    destruct (CalibrationUtilsMore.needle_value_to_angle_ends self v)
      as (a & Ha & [[_ ->] | [(p & Hp & ->) | [H0 H1]]]);
      eexists; (split; [exact Ha|]).
    + lra.
    + now apply Hends.
    + lra.
  - apply CalibrationUtilsMore.needle_value_to_angle_end_returned.
Qed.

(** The tachometer preset at 2500 RPM, as an instance of C1. *)
Lemma value_to_angle_range_tachometer :
  exists a : Q,
    CalibrationUtils.value_to_angle CalibrationUtils.tachometer_calibration 2500
    = Ok a /\ 0 <= a /\ a <= 360.
Proof.
  apply (proj1 (proj2 value_to_angle_range)
               CalibrationUtils.tachometer_calibration 2500).
  intros p [Hp|Hp]; vm_compute in Hp; injection Hp as <-;
    vm_compute; split; discriminate.
Defined.

(** C1 as stated fails: the speedometer preset stores the end angle
    [-60], and at 320 km/h (and beyond) [value_to_angle] hands it back. *)
Lemma speedometer_returns_minus_60 :
  exists a : Q,
    CalibrationUtils.value_to_angle CalibrationUtils.speedometer_calibration 320
    = Ok a /\
    a == -60 /\
    ~ (0 <= a /\ a <= 360).
Proof.
  exists (-60). split; [reflexivity|]. split; [reflexivity|].
  intros [H _]. lra.
Qed.

(** C2, as the code has it.  The unwrap step of
    [AngleCalculator.value_to_angle] finishes, and in its result every
    bearing differs from its left neighbour by at least -180 and at most
    180 degrees: the difference lies in the closed interval
    [[-180, 180]], so its absolute value is at most 180. *)
Theorem unwrap_adjacent_bearings (atan2_degrees : Q -> Q -> Q)
    (self : AngleCalc.AngleCalculator) :
  let raw := AngleCalc.bearing atan2_degrees self
               <$> AngleCalc.calibration_points self in
  (exists u : list Q, returns (fun fuel => AngleCalc.unwrap fuel raw) u) /\
  (forall (fuel : nat) (u : list Q) (i : nat) (a b : Q),
      AngleCalc.unwrap fuel raw = Ok u ->
      u !! i = Some b -> u !! S i = Some a ->
      -180 <= a - b /\ a - b <= 180 /\ Qabs (a - b) <= 180).
Proof.
  intros raw. split.
  - destruct (AngleCalcFacts.unwrap_spec raw) as (u & Hu & _). now exists u.
  - intros fuel u i a b Hrun Hb Ha.
    destruct (AngleCalcFacts.unwrap_finished raw u fuel Hrun) as (_ & _ & _ & Hdiff).
    destruct (Hdiff i a b Hb Ha) as [Hlo Hhi].
    repeat split; auto. apply Qabs_Qle_condition. split; lra.
Qed.

(** The pair of opposite points, as an instance of C2. *)
Lemma unwrap_adjacent_bearings_opposite_pair :
  let raw := AngleCalc.bearing compass opposite_pair
               <$> AngleCalc.calibration_points opposite_pair in
  AngleCalc.unwrap 0 raw = Ok [180; 0] /\
  -180 <= 0 - 180 /\ 0 - 180 <= 180 /\ Qabs (0 - 180) <= 180.
Proof.
  split; [reflexivity|].
  apply (proj2 (unwrap_adjacent_bearings compass opposite_pair)
               0%nat [180; 0] 0%nat 0 180); reflexivity.
Defined.

(** C2 as stated fails at the lower end: with one point straight left of
    the pivot (bearing 180) and the next straight right of it (bearing
    0) neither loop runs, and the difference stays at -180, outside
    (-180, 180]. *)
Lemma opposite_pair_gap_is_minus_180 :
  let raw := AngleCalc.bearing compass opposite_pair
               <$> AngleCalc.calibration_points opposite_pair in
  exists (u : list Q) (a b : Q),
    raw = [180; 0] /\
    returns (fun fuel => AngleCalc.unwrap fuel raw) u /\
    u !! 0%nat = Some b /\ u !! 1%nat = Some a /\
    a - b == -180 /\
    ~ (-180 < a - b /\ a - b <= 180).
Proof.
  exists [180; 0], 0, 180.
  split; [reflexivity|]. split; [|repeat split].
  - apply (AngleCalcFacts.unwrap_run 0). reflexivity.
  - intros [H _]. lra.
Qed.




(** C4, as the code has it.  On a non-empty store [value_to_angle]
    never raises.  A value at or below every calibration value gets the
    first point's bearing mod 360 (the first bearing is never moved by
    the unwrap step).  A value at or above every calibration value, and
    above the first point's value, gets the last point's unwrapped
    bearing mod 360, which is the last point's bearing mod 360.  With
    exactly one point every value gets that point's bearing mod 360,
    and a bearing is its own residue mod 360 as soon as the arctangent
    it comes from lies between -180 and 180 degrees.
    [NeedleAngleCalculator.value_to_angle] clamps in the same way to the
    stored end angles. *)
Theorem value_to_angle_clamped :
  (forall (atan2_degrees : Q -> Q -> Q) (self : AngleCalc.AngleCalculator)
          (v : Q) (p0 pl : AngleCalc.CalibrationPoint),
      let points := AngleCalc.calibration_points self in
      let run := fun fuel => AngleCalc.value_to_angle atan2_degrees fuel self v in
      points !! 0%nat = Some p0 ->
      last points = Some pl ->
      ((forall p, p ∈ points -> v <= AngleCalc.value p) ->
       returns run (Py.mod_ (AngleCalc.bearing atan2_degrees self p0) 360)) /\
      ((forall p, p ∈ points -> AngleCalc.value p <= v) ->
       AngleCalc.value p0 < v ->
       exists (u : list Q) (al : Q),
         returns (fun fuel => AngleCalc.unwrap fuel
                    (AngleCalc.bearing atan2_degrees self <$> points)) u /\
         last u = Some al /\
         returns run (Py.mod_ al 360) /\
         Py.mod_ al 360 == Py.mod_ (AngleCalc.bearing atan2_degrees self pl) 360) /\
      (points = [p0] ->
       returns run (Py.mod_ (AngleCalc.bearing atan2_degrees self p0) 360)) /\
      (let dy := AngleCalc.y p0 - AngleCalc.gauge_pivot_y self in
       let dx := AngleCalc.x p0 - AngleCalc.gauge_pivot_x self in
       -180 <= atan2_degrees dy dx -> atan2_degrees dy dx <= 180 ->
       Py.mod_ (AngleCalc.bearing atan2_degrees self p0) 360
       == AngleCalc.bearing atan2_degrees self p0)) /\
  (forall (self : CalibrationUtils.NeedleAngleCalculator) (v : Q)
          (p0 pl : CalibrationUtils.CalibrationPoint),
      let points := CalibrationUtils.calibration_points self in
      points !! 0%nat = Some p0 ->
      last points = Some pl ->
      ((forall p, p ∈ points -> v <= CalibrationUtils.value p) ->
       CalibrationUtils.value_to_angle self v = Ok (CalibrationUtils.angle p0)) /\
      ((forall p, p ∈ points -> CalibrationUtils.value p <= v) ->
       CalibrationUtils.value p0 < v ->
       CalibrationUtils.value_to_angle self v = Ok (CalibrationUtils.angle pl)) /\
      (points = [p0] ->
       CalibrationUtils.value_to_angle self v = Ok (CalibrationUtils.angle p0))).
Proof.
  split.
  - intros atan2_degrees self v p0 pl points run Hp0 Hpl.
    set (raw := AngleCalc.bearing atan2_degrees self <$> points).
    destruct (AngleCalcFacts.unwrap_spec raw) as (u & Hrun & Hlen & Hu0 & Hcong & _).
    assert (points <> []) as Hne by (intros E; rewrite E in Hp0; discriminate).
    assert (raw !! 0%nat = Some (AngleCalc.bearing atan2_degrees self p0)) as Hraw0.
    { unfold raw. now rewrite list_lookup_fmap, Hp0. }
    assert (length raw = length points) as Hrlen.
    { unfold raw. now rewrite length_fmap. }
    assert ((0 < length points)%nat) as Hpos.
    { apply lookup_lt_Some in Hp0. exact Hp0. }
    destruct (lookup_lt_is_Some_2 u (pred (length u))) as [al Hal]; [lia|].
    rewrite <- last_lookup in Hal.
    assert (v <= AngleCalc.value p0 ->
            returns run (Py.mod_ (AngleCalc.bearing atan2_degrees self p0) 360))
      as Hfirst.
    { intros Hv.
      apply (AngleCalcFacts.value_to_angle_lookup atan2_degrees self v _ u Hne Hrun).
      apply (AngleCalcFacts.lookup_angle_first points u v p0); auto.
      now rewrite Hu0. }
    assert (~ v <= AngleCalc.value p0 -> AngleCalc.value pl <= v ->
            returns run (Py.mod_ al 360)) as Hlast.
    { intros Hv0 Hvl.
      apply (AngleCalcFacts.value_to_angle_lookup atan2_degrees self v _ u Hne Hrun).
      now apply (AngleCalcFacts.lookup_angle_last points u v p0 pl al). }
    split; [|split; [|split]]; [| | |apply AngleCalcFacts.bearing_mod].
    + intros Hall. apply Hfirst, Hall.
      eapply list_elem_of_lookup_2. exact Hp0.
    + intros Hall Hgt. exists u, al.
      split; [exact Hrun|]. split; [exact Hal|].
      rewrite last_lookup in Hpl. rewrite last_lookup in Hal. split.
      * apply Hlast; [lra|]. apply Hall.
        eapply list_elem_of_lookup_2. exact Hpl.
      * destruct (Hcong (pred (length u)) al
                    (AngleCalc.bearing atan2_degrees self pl)) as [z Hz]; auto.
        { unfold raw. rewrite list_lookup_fmap.
          replace (length u) with (length points) by lia. now rewrite Hpl. }
        eapply mod_congr. exact Hz.
    + intros Hone. destruct (decide (v <= AngleCalc.value p0)) as [Hv|Hv].
      * now apply Hfirst.
      * assert (pl = p0) as -> by (rewrite Hone in Hpl; now injection Hpl).
        assert (al = AngleCalc.bearing atan2_degrees self p0) as <-.
        { rewrite last_lookup in Hal.
          replace (length u) with 1%nat in Hal by (rewrite Hlen, Hrlen, Hone; reflexivity).
          cbn [pred] in Hal. rewrite Hu0, Hraw0 in Hal. now injection Hal. }
        apply Hlast; [exact Hv|lra].
  - intros self v p0 pl points Hp0 Hpl. split; [|split].
    + intros Hall. apply CalibrationUtilsFacts.needle_value_to_angle_first; auto.
      apply Hall. eapply list_elem_of_lookup_2. exact Hp0.
    + intros Hall Hgt.
      apply (CalibrationUtilsFacts.needle_value_to_angle_last self v p0 pl); auto; [lra|].
      apply Hall. rewrite last_lookup in Hpl.
      eapply list_elem_of_lookup_2. exact Hpl.
    + intros Hone. destruct (decide (v <= CalibrationUtils.value p0)) as [Hv|Hv].
      * now apply CalibrationUtilsFacts.needle_value_to_angle_first.
      * assert (pl = p0) as -> by (fold points in Hpl; rewrite Hone in Hpl; now injection Hpl).
        apply (CalibrationUtilsFacts.needle_value_to_angle_last self v p0 p0); auto. lra.
Qed.

(** The three-point calibration below and above its range, and the
    single-point calibration, as instances of C4. *)
Lemma value_to_angle_clamped_examples :
  returns (fun fuel => AngleCalc.value_to_angle compass fuel three_points (-100))
          (Py.mod_ (AngleCalc.bearing compass three_points
                      (AngleCalc.mkPoint 256 100 0)) 360) /\
  (exists (u : list Q) (al : Q),
      returns (fun fuel => AngleCalc.unwrap fuel
                 (AngleCalc.bearing compass three_points
                    <$> AngleCalc.calibration_points three_points)) u /\
      last u = Some al /\
      returns (fun fuel => AngleCalc.value_to_angle compass fuel three_points 20000)
              (Py.mod_ al 360) /\
      Py.mod_ al 360
      == Py.mod_ (AngleCalc.bearing compass three_points
                    (AngleCalc.mkPoint 256 410 10000)) 360) /\
  returns (fun fuel => AngleCalc.value_to_angle compass fuel single_point 7)
          (Py.mod_ (AngleCalc.bearing compass single_point
                      (AngleCalc.mkPoint 256 100 0)) 360).
Proof.
  split; [|split].
  - apply (proj1 (proj1 value_to_angle_clamped compass three_points (-100)
                   (AngleCalc.mkPoint 256 100 0) (AngleCalc.mkPoint 256 410 10000)
                   eq_refl eq_refl)).
    intros p Hp. each_stored_point Hp.
  - apply (proj1 (proj2 (proj1 value_to_angle_clamped compass three_points 20000
                           (AngleCalc.mkPoint 256 100 0)
                           (AngleCalc.mkPoint 256 410 10000)
                           eq_refl eq_refl))).
    + intros p Hp. each_stored_point Hp.
    + reflexivity.
  - apply (proj1 (proj2 (proj2 (proj1 value_to_angle_clamped compass
                                   single_point 7
                                   (AngleCalc.mkPoint 256 100 0)
                                   (AngleCalc.mkPoint 256 100 0)
                                   eq_refl eq_refl)))).
    reflexivity.
Defined.

(** C4 as stated fails when every point carries the same value: at that
    value, which is at or above the largest calibration value,
    [value_to_angle] returns the first point's bearing (0), not the last
    point's unwrapped bearing (90). *)
Lemma one_value_returns_first_bearing :
  let points := AngleCalc.calibration_points one_value in
  (forall p, p ∈ points -> AngleCalc.value p <= 50) /\
  returns (fun fuel => AngleCalc.unwrap fuel
             (AngleCalc.bearing compass one_value <$> points)) [0; 90] /\
  returns (fun fuel => AngleCalc.value_to_angle compass fuel one_value 50)
          (Py.mod_ 0 360) /\
  ~ Py.mod_ 0 360 == Py.mod_ 90 360.
Proof.
  split; [|split; [|split]].
  - intros p Hp. each_stored_point Hp.
  - apply (AngleCalcFacts.unwrap_run 0). reflexivity.
  - apply (AngleCalcFacts.value_to_angle_run compass 0). reflexivity.
  - vm_compute. discriminate.
Qed.

(** C9.  Every call finishes: the unwrap loops stop on every list of
    angles, [AngleCalculator.value_to_angle] returns an angle for every
    calibration and value, and so does
    [NeedleAngleCalculator.value_to_angle]; none of them raises. *)
Theorem value_to_angle_terminates :
  (forall angles : list Q,
      exists u : list Q, returns (fun fuel => AngleCalc.unwrap fuel angles) u) /\
  (forall (atan2_degrees : Q -> Q -> Q) (self : AngleCalc.AngleCalculator)
          (v : Q),
      exists a : Q,
        returns (fun fuel => AngleCalc.value_to_angle atan2_degrees fuel self v) a) /\
  (forall (self : CalibrationUtils.NeedleAngleCalculator) (v : Q),
      exists a : Q, CalibrationUtils.value_to_angle self v = Ok a).
Proof.
  split; [|split].
  - intros angles.
    destruct (AngleCalcFacts.unwrap_spec angles) as (u & Hu & _). now exists u.
  - intros atan2_degrees self v.
    destruct (AngleCalcFacts.value_to_angle_ok atan2_degrees self v) as (a & Ha & _).
    now exists a.
  - intros self v.
    destruct (CalibrationUtilsFacts.needle_value_to_angle_ok self v) as (a & Ha & _).
    now exists a.
Qed.

(** C10.  Every mutator of either calibration point store leaves the
    stored list in ascending order of value: [add_point] and
    [points_from_list] of [AngleCalculator] (the latter also when it is
    cut short by a missing key), and [__init__], [add_point] and
    [set_points] of [NeedleAngleCalculator].  So the store of every
    calculator built through these methods is sorted when
    [value_to_angle] reads it. *)
Theorem stored_points_sorted :
  (forall (self : AngleCalc.AngleCalculator) (px py v : Q),
      AngleCalc.sorted_by_value
        (AngleCalc.calibration_points (AngleCalc.add_point self px py v))) /\
  (forall (self : AngleCalc.AngleCalculator)
          (points : list AngleCalc.point_dict),
      AngleCalc.sorted_by_value
        (AngleCalc.calibration_points
           (AngleCalc.points_from_list self points).1)) /\
  (forall points : option (list CalibrationUtils.CalibrationPoint),
      CalibrationUtils.sorted_by_value
        (CalibrationUtils.calibration_points (CalibrationUtils.init points))) /\
  (forall (self : CalibrationUtils.NeedleAngleCalculator) (v a : Q),
      CalibrationUtils.sorted_by_value
        (CalibrationUtils.calibration_points
           (CalibrationUtils.add_point self v a))) /\
  (forall (self : CalibrationUtils.NeedleAngleCalculator)
          (points : list (Q * Q)),
      CalibrationUtils.sorted_by_value
        (CalibrationUtils.calibration_points
           (CalibrationUtils.set_points self points))) /\
  (forall self : AngleCalc.AngleCalculator,
      AngleCalc.reachable self ->
      AngleCalc.sorted_by_value (AngleCalc.calibration_points self)) /\
  (forall self : CalibrationUtils.NeedleAngleCalculator,
      CalibrationUtils.reachable self ->
      CalibrationUtils.sorted_by_value (CalibrationUtils.calibration_points self)).
Proof.
  split; [|split; [|split; [|split; [|split; [|split]]]]].
  - intros self px py v. apply sort_by_Sorted.
  - intros self points. apply AngleCalcFacts.points_from_list_sorted.
  - intros points. apply CalibrationUtilsFacts.validate_points_sorted.
  - intros self v a. apply CalibrationUtilsFacts.validate_points_sorted.
  - intros self points. apply CalibrationUtilsFacts.validate_points_sorted.
  - apply AngleCalcFacts.reachable_sorted.
  - apply CalibrationUtilsFacts.needle_reachable_sorted.
Qed.

(** The three-point calibration and the tachometer preset, as instances
    of C10. *)
Lemma stored_points_sorted_examples :
  AngleCalc.sorted_by_value (AngleCalc.calibration_points three_points) /\
  CalibrationUtils.sorted_by_value
    (CalibrationUtils.calibration_points CalibrationUtils.tachometer_calibration).
Proof.
  split.
  - apply (proj1 (proj2 (proj2 (proj2 (proj2 (proj2 stored_points_sorted)))))
                 three_points).
    apply AngleCalc.reach_points_from_list, AngleCalc.reach_init.
  - apply (proj2 (proj2 (proj2 (proj2 (proj2 (proj2 stored_points_sorted)))))
                 CalibrationUtils.tachometer_calibration).
    apply CalibrationUtils.reach_set_points, CalibrationUtils.reach_init.
Defined.

End AngleResolver.
(** * The gauge widget: fallback angle, tip radius, needle sizing, named
      needle scale *)

Section GaugeWidget.
Import Examples ImageGauge.

Local Abbreviation compass := AngleCalc.atan2_degrees_compass.

(** C5.  A named needle (in particular one that carries no calibration)
    whose value [v] lies in the assumed domain [0, 100] is drawn at the
    angle [270 - 180 * (v / 100)]: 270 degrees at 0, 180 at 50 and 90 at
    100.  That angle is the one [_draw_all_named_needles] hands to the
    needle painting. *)
Theorem named_needle_fallback_angle :
  (forall (d : needle_data) (v : Q),
      default 0 (nd_value d) = v -> 0 <= v -> v <= 100 ->
      exists a : Q, named_needle_angle d = Ok a /\ a == 270 - 180 * (v / 100)) /\
  (exists a0 a50 a100 : Q,
      named_needle_angle (mkNeedle (Some 0) (Some 1.0) None) = Ok a0 /\
      named_needle_angle (mkNeedle (Some 50) (Some 1.0) None) = Ok a50 /\
      named_needle_angle (mkNeedle (Some 100) (Some 1.0) None) = Ok a100 /\
      a0 == 270 /\ a50 == 180 /\ a100 == 90) /\
  (forall (self : ImageBasedGauge) (radius : Q) (needle_name : string)
          (d : needle_data),
      named_needles self !! needle_name = Some d ->
      _draw_all_named_needles self radius !! needle_name
      = Some (let* angle := named_needle_angle d in
              _rotate_and_draw_needle
                (set_needle_scale (default 1.0 (nd_scale d)) self)
                angle radius)).
Proof.
  split; [|split].
  - intros d v Hv H0 H100.
    destruct (ImageGaugeFacts.named_needle_angle_ok d) as (a & Ha & _ & Hpos).
    exists a. split; [exact Ha|]. rewrite Hv in Hpos. now apply Hpos.
  - do 3 eexists. repeat split; reflexivity.
  - intros self radius needle_name d Hd. unfold _draw_all_named_needles.
    now rewrite lookup_fmap, Hd.
Qed.

(** A named needle at 25, as an instance of C5. *)
Lemma named_needle_fallback_angle_quarter :
  exists a : Q,
    named_needle_angle (mkNeedle (Some 25) (Some 1.0) None) = Ok a /\
    a == 270 - 180 * (25 / 100).
Proof.
  apply (proj1 named_needle_fallback_angle
               (mkNeedle (Some 25) (Some 1.0) None) 25 eq_refl);
    vm_compute; discriminate.
Defined.

(** C6.  After [load_v2_calibration] succeeded on an entry with at least
    one calibration point, [desired_tip_radius_px] is the arithmetic mean
    of the distances from the gauge pivot to all the calibration points;
    after [load_dual_v2_calibration] finished, so is
    [water_tip_radius_px] for the ['water'] entry.  [load_v2_calibration]
    does succeed whenever the calculator module is there and every
    calibration point carries its three keys. *)
Theorem tip_radius_is_mean_distance (atan2_degrees : Q -> Q -> Q)
    (pow_half : Q -> Q) (AngleCalculator_imported : bool) :
  (forall (calibration_data : gmap string needle_cal) (needle_id : string)
          (cal : needle_cal) (self self' : ImageBasedGauge),
      let points := default [] (cal_calibration_points cal) in
      calibration_data !! needle_id = Some cal ->
      points <> [] ->
      load_v2_calibration atan2_degrees pow_half AngleCalculator_imported
        calibration_data needle_id self = (self', Ok true) ->
      exists r : Q,
        desired_tip_radius_px self' = Some r /\
        r == mean_distance pow_half (default 0 (cal_gauge_pivot_x cal))
               (default 0 (cal_gauge_pivot_y cal)) points) /\
  (forall (calibration_data : gmap string needle_cal) (water_cal : needle_cal)
          (water_artwork : option artwork) (self self' : ImageFuelGauge),
      let points := default [] (cal_calibration_points water_cal) in
      AngleCalculator_imported = true ->
      calibration_data !! "water"%string = Some water_cal ->
      points <> [] ->
      load_dual_v2_calibration atan2_degrees pow_half AngleCalculator_imported
        calibration_data water_artwork self = (self', Ok tt) ->
      exists r : Q,
        water_tip_radius_px self' = Some r /\
        r == mean_distance pow_half (default 0 (cal_gauge_pivot_x water_cal))
               (default 0 (cal_gauge_pivot_y water_cal)) points) /\
  (forall (calibration_data : gmap string needle_cal) (needle_id : string)
          (cal : needle_cal) (self : ImageBasedGauge),
      AngleCalculator_imported = true ->
      calibration_data !! needle_id = Some cal ->
      Forall (fun d => is_Some (AngleCalc.d_x d) /\ is_Some (AngleCalc.d_y d)
                       /\ is_Some (AngleCalc.d_value d))
             (default [] (cal_calibration_points cal)) ->
      exists self',
        load_v2_calibration atan2_degrees pow_half AngleCalculator_imported
          calibration_data needle_id self = (self', Ok true)).
Proof.
  split; [|split]; [| |apply ImageGaugeFacts.load_v2_calibration_succeeds].
  - intros calibration_data needle_id cal self self' points Hcal Hne Hrun.
    eexists. split.
    + eapply ImageGaugeFacts.load_v2_calibration_tip; eauto.
    + now apply ImageGaugeFacts.tip_radius_mean.
  - intros calibration_data water_cal water_artwork self self' points
           Himp Hcal Hne Hrun.
    eexists. split.
    + eapply ImageGaugeFacts.load_dual_v2_calibration_tip; eauto.
    + now apply ImageGaugeFacts.tip_radius_mean.
Qed.

(** The two-point entry loaded as the main needle of a fresh gauge, as
    an instance of C6: the points lie 5 and 10 pixels from the pivot. *)
Lemma tip_radius_is_mean_distance_two_points :
  exists r : Q,
    desired_tip_radius_px
      (load_v2_calibration compass pow_half_whole true
         {[ "main"%string := two_point_cal ]} "main" fresh_gauge).1 = Some r /\
    r == mean_distance pow_half_whole 0 0
           [AngleCalc.dict_of 3 4 0; AngleCalc.dict_of 6 8 100].
Proof.
  apply (proj1 (tip_radius_is_mean_distance compass pow_half_whole true)
               {[ "main"%string := two_point_cal ]} "main"%string two_point_cal
               fresh_gauge).
  - apply lookup_singleton_eq.
  - discriminate.
  - vm_compute. reflexivity.
Defined.

(** C7.  Painting a needle never divides by zero: for every gauge
    state, angle and radius [_rotate_and_draw_needle] returns without
    raising, also for every named needle.  When the calibrated needle
    length is absent or zero, the PNG needle skips the scale-by-length
    branch and is sized to the height [int (radius * 1.5 * needle_scale)].
    The SVG needle never looks at the calibrated needle length: its
    length is the live radius times [needle_scale] times a proportion,
    the calibrated one or 90 %. *)
Theorem needle_scale_never_divides_by_zero :
  (forall (self : ImageBasedGauge) (angle radius : Q),
      exists d, _rotate_and_draw_needle self angle radius = Ok d) /\
  (forall (self : ImageBasedGauge) (radius : Q) (needle_name : string)
          (r : res (option needle_draw)),
      _draw_all_named_needles self radius !! needle_name = Some r ->
      exists d, r = Ok d) /\
  (forall (self : ImageBasedGauge) (angle radius : Q) (pm : QPixmap),
      is_svg_needle self && bool_decide (is_Some (needle_svg self)) = false ->
      needle_pixmap self = Some pm ->
      isNull pm = false ->
      Py.truthy_opt (needle_length_px self) = false ->
      _rotate_and_draw_needle self angle radius
      = Ok (Some (mkDraw
                    (PixmapScaledToHeight
                       (Py.int (radius * 1.5 * needle_scale self)))
                    (angle - needle_base_angle self)))) /\
  (forall (self : ImageBasedGauge) (radius : Q),
      exists p : Q,
        svg_desired_length self radius = Ok (radius * p * needle_scale self) /\
        (p = 0.9 \/
         exists tip w h,
           desired_tip_radius_px self = Some tip /\
           gauge_bg_width self = Some w /\ gauge_bg_height self = Some h /\
           p = tip / (inject_Z (Z.min w h) / 2))) /\
  (forall (self : ImageBasedGauge) (len : option Q) (radius angle : Q),
      _draw_svg_needle (set_needle_length_px len self) radius angle
      = _draw_svg_needle self radius angle).
Proof.
  split; [|split; [|split; [|split]]].
  - apply ImageGaugeFacts.rotate_and_draw_needle_ok.
  - intros self radius needle_name r Hr. unfold _draw_all_named_needles in Hr.
    rewrite lookup_fmap in Hr.
    destruct (named_needles self !! needle_name) as [d|]; [|discriminate].
    injection Hr as <-.
    destruct (ImageGaugeFacts.named_needle_angle_ok d) as (a & -> & _).
    apply ImageGaugeFacts.rotate_and_draw_needle_ok.
  - intros self angle radius pm Hsvg Hpm Hnull Hlen.
    unfold _rotate_and_draw_needle. rewrite Hsvg, Hpm, Hnull.
    now rewrite ImageGaugeFacts.pixmap_size_fallback.
  - apply ImageGaugeFacts.svg_desired_length_ok.
  - reflexivity.
Qed.

(** A fresh gauge, which has no calibrated needle length, painted at
    radius 540, as an instance of C7. *)
Lemma needle_scale_never_divides_by_zero_fresh_gauge :
  _rotate_and_draw_needle fresh_gauge 270 540
  = Ok (Some (mkDraw
                (PixmapScaledToHeight
                   (Py.int (540 * 1.5 * needle_scale fresh_gauge)))
                (270 - needle_base_angle fresh_gauge))).
Proof.
  apply (proj1 (proj2 (proj2 needle_scale_never_divides_by_zero))
               fresh_gauge 270 540 (mkPixmap false 40 370));
    reflexivity.
Defined.

(** C8 fails on the creating call.  [set_named_needle_scale] with scale
    5 for a needle name not yet known stores 5, above the clamp range
    [0.5, 2.0] its docstring gives; the same call for a needle that
    already exists stores 2. *)
Theorem set_named_needle_scale_creation_unclamped :
  named_needles fresh_gauge !! "boost"%string = None /\
  named_needles (set_named_needle_scale fresh_gauge "boost" 5) !! "boost"%string
  = Some (mkNeedle (Some 0) (Some 5) None) /\
  ~ (0.5 <= 5 /\ 5 <= 2.0) /\
  named_needles
    (set_named_needle_scale (set_named_needle_value fresh_gauge "boost" 40)
                            "boost" 5) !! "boost"%string
  = Some (mkNeedle (Some 40) (Some 2.0) None).
Proof.
  split; [reflexivity|]. split; [|split].
  - now apply ImageGaugeFacts.set_named_needle_scale_new.
  - intros [_ H]. vm_compute in H. now apply H.
  - vm_compute. reflexivity.
Qed.

End GaugeWidget.
(** * Beyond the claims: interpolation, the point stores, the two
      calculators side by side *)

Section Calculators.
Import Examples Predicates.

Local Abbreviation compass := AngleCalc.atan2_degrees_compass.

(** X1.  Between two neighbouring calibration points of a sorted store,
    strictly above the value of the first and strictly below the value
    of the second, [AngleCalculator.value_to_angle] interpolates
    linearly between their unwrapped bearings and returns the result
    mod 360.  The unwrapped bearings are the bearings of the two points
    moved by whole turns, and lie within half a turn of each other. *)
Theorem value_to_angle_interpolates (atan2_degrees : Q -> Q -> Q)
    (self : AngleCalc.AngleCalculator) (i : nat)
    (p1 p2 : AngleCalc.CalibrationPoint) (v : Q) :
  AngleCalc.sorted_by_value (AngleCalc.calibration_points self) ->
  AngleCalc.calibration_points self !! i = Some p1 ->
  AngleCalc.calibration_points self !! S i = Some p2 ->
  AngleCalc.value p1 < v ->
  v < AngleCalc.value p2 ->
  exists (u : list Q) (a1 a2 : Q) (k1 k2 : Z),
    returns (fun fuel => AngleCalc.unwrap fuel
               (AngleCalc.bearing atan2_degrees self
                  <$> AngleCalc.calibration_points self)) u /\
    u !! i = Some a1 /\ u !! S i = Some a2 /\
    a1 == AngleCalc.bearing atan2_degrees self p1 + 360 * inject_Z k1 /\
    a2 == AngleCalc.bearing atan2_degrees self p2 + 360 * inject_Z k2 /\
    -180 <= a2 - a1 /\ a2 - a1 <= 180 /\
    returns (fun fuel => AngleCalc.value_to_angle atan2_degrees fuel self v)
            (Py.mod_ (a1 + (v - AngleCalc.value p1)
                           / (AngleCalc.value p2 - AngleCalc.value p1)
                           * (a2 - a1)) 360).
Proof.
  intros Hs Hp1 Hp2 Hlo Hhi.
  set (points := AngleCalc.calibration_points self) in *.
  set (raw := AngleCalc.bearing atan2_degrees self <$> points).
  destruct (AngleCalcFacts.unwrap_spec raw) as (u & Hrun & Hu).
  pose proof Hu as (Hlen & _ & Hcong & Hdiff).
  assert ((S i < length points)%nat) as Hi by (eapply lookup_lt_Some; eauto).
  assert (length raw = length points) as Hraw by apply length_fmap.
  destruct (lookup_lt_is_Some_2 u i) as [a1 Ha1]; [lia|].
  destruct (lookup_lt_is_Some_2 u (S i)) as [a2 Ha2]; [lia|].
  assert (raw !! i = Some (AngleCalc.bearing atan2_degrees self p1)) as Hr1.
  { unfold raw. now rewrite list_lookup_fmap, Hp1. }
  assert (raw !! S i = Some (AngleCalc.bearing atan2_degrees self p2)) as Hr2.
  { unfold raw. now rewrite list_lookup_fmap, Hp2. }
  destruct (Hcong i a1 _ Ha1 Hr1) as [k1 E1].
  destruct (Hcong (S i) a2 _ Ha2 Hr2) as [k2 E2].
  destruct (Hdiff i a2 a1 Ha1 Ha2) as [Hd1 Hd2].
  exists u, a1, a2, k1, k2. repeat split; auto.
  apply (AngleCalcFacts.value_to_angle_lookup atan2_degrees self v _ u).
  - fold points. intros E. rewrite E in Hp1. discriminate.
  - exact Hrun.
  - now apply (AngleCalcMore.lookup_angle_between points u v i p1 p2 a1 a2).
Qed.

(** Half way between the first two of the three points, as an instance
    of X1: half way between the bearings 270 and 360. *)
Lemma value_to_angle_interpolates_three_points :
  exists (u : list Q) (a1 a2 : Q) (k1 k2 : Z),
    returns (fun fuel => AngleCalc.unwrap fuel
               (AngleCalc.bearing compass three_points
                  <$> AngleCalc.calibration_points three_points)) u /\
    u !! 0%nat = Some a1 /\ u !! 1%nat = Some a2 /\
    a1 == AngleCalc.bearing compass three_points (AngleCalc.mkPoint 256 100 0)
          + 360 * inject_Z k1 /\
    a2 == AngleCalc.bearing compass three_points (AngleCalc.mkPoint 410 256 5000)
          + 360 * inject_Z k2 /\
    -180 <= a2 - a1 /\ a2 - a1 <= 180 /\
    returns (fun fuel => AngleCalc.value_to_angle compass fuel three_points 2500)
            (Py.mod_ (a1 + (2500 - 0) / (5000 - 0) * (a2 - a1)) 360).
Proof.
  apply (value_to_angle_interpolates compass three_points 0
           (AngleCalc.mkPoint 256 100 0) (AngleCalc.mkPoint 410 256 5000) 2500).
  - apply AngleCalcFacts.points_from_list_sorted.
  - reflexivity.
  - reflexivity.
  - reflexivity.
  - reflexivity.
Defined.

(** X2.  [points_from_list] replaces the store: whatever the calculator
    held before, after loading a list of well-formed entries it holds
    exactly the loaded points (and keeps its pivot), in ascending order
    of value, points of equal value in the order of the list. *)
Theorem points_from_list_replaces_store (self : AngleCalc.AngleCalculator)
    (l : list AngleCalc.CalibrationPoint) :
  exists store : list AngleCalc.CalibrationPoint,
    AngleCalc.points_from_list self (to_dict <$> l)
    = (AngleCalc.mkCalc (AngleCalc.gauge_pivot_x self)
                        (AngleCalc.gauge_pivot_y self) store, Ok tt) /\
    store ≡ₚ l /\
    AngleCalc.sorted_by_value store /\
    forall k : Q, filter (fun p => AngleCalc.value p == k) store
                  = filter (fun p => AngleCalc.value p == k) l.
Proof.
  unfold AngleCalc.points_from_list.
  destruct (AngleCalcMore.points_from_list_loop_app l []
              (AngleCalc.mkCalc (AngleCalc.gauge_pivot_x self)
                                (AngleCalc.gauge_pivot_y self) []))
    as (store & E & Hp & Hs & Hf).
  rewrite app_nil_r in E. exists store. split; [exact E|].
  split; [exact Hp|]. split; [|exact Hf].
  apply Hs. constructor.
Qed.

(** X3.  The order in which calibration points are handed over does not
    matter as long as no two different points share a value: two lists
    with the same points give the same store, in [points_from_list] as
    in [set_points]. *)
Theorem calibration_order_irrelevant :
  (forall (self : AngleCalc.AngleCalculator)
          (l1 l2 : list AngleCalc.CalibrationPoint),
      l1 ≡ₚ l2 ->
      distinct_keys AngleCalc.value l1 ->
      AngleCalc.points_from_list self (to_dict <$> l1)
      = AngleCalc.points_from_list self (to_dict <$> l2)) /\
  (forall (self : CalibrationUtils.NeedleAngleCalculator)
          (l1 l2 : list (Q * Q)),
      l1 ≡ₚ l2 ->
      distinct_keys fst l1 ->
      CalibrationUtils.set_points self l1 = CalibrationUtils.set_points self l2).
Proof.
  split.
  - intros self l1 l2 Hp Hd. unfold AngleCalc.points_from_list.
    destruct (AngleCalcMore.points_from_list_loop_app l1 []
                (AngleCalc.mkCalc (AngleCalc.gauge_pivot_x self)
                                  (AngleCalc.gauge_pivot_y self) []))
      as (s1 & E1 & Hp1 & Hs1 & _).
    destruct (AngleCalcMore.points_from_list_loop_app l2 []
                (AngleCalc.mkCalc (AngleCalc.gauge_pivot_x self)
                                  (AngleCalc.gauge_pivot_y self) []))
      as (s2 & E2 & Hp2 & Hs2 & _).
    rewrite app_nil_r in E1, E2. rewrite E1, E2.
    cbn [AngleCalc.points_from_list_loop AngleCalc.calibration_points app]
      in *.
    assert (s1 = s2) as ->; [|reflexivity].
    apply (Sorted_unique_strong (Py.le_by AngleCalc.value)).
    + intros a b Ha Hb Hab Hba. unfold Py.le_by in *.
      apply Hd; [now rewrite <- Hp1|now rewrite Hp, <- Hp2|lra].
    + apply Hs1. constructor.
    + apply Hs2. constructor.
    + now rewrite Hp1, Hp2.
  - intros self l1 l2 Hp Hd. unfold CalibrationUtils.set_points.
    set (mk := fun va : Q * Q => CalibrationUtils.mkPoint va.1 va.2).
    assert (Py.sort_by CalibrationUtils.value (mk <$> l1)
            = Py.sort_by CalibrationUtils.value (mk <$> l2)) as E.
    { apply sort_by_order_free; [now rewrite Hp|].
      intros a b Ha Hb Hab.
      apply list_elem_of_fmap in Ha as (a' & -> & Ha').
      apply list_elem_of_fmap in Hb as (b' & -> & Hb').
      now rewrite (Hd a' b' Ha' Hb' Hab). }
    unfold CalibrationUtils._validate_points.
    cbn [CalibrationUtils.calibration_points].
    destruct l1 as [|a1 l1]; destruct l2 as [|a2 l2].
    + reflexivity.
    + apply Permutation_nil_l in Hp. discriminate.
    + apply Permutation_nil_r in Hp. discriminate.
    + cbn [fmap list_fmap] in *. now rewrite E.
Qed.

(** The three points loaded in two different orders, and the tachometer
    preset set in two different orders, as instances of X3. *)
Lemma calibration_order_irrelevant_examples :
  AngleCalc.points_from_list (AngleCalc.init 256 256)
    (to_dict <$> [AngleCalc.mkPoint 256 100 0; AngleCalc.mkPoint 410 256 5000;
                  AngleCalc.mkPoint 256 410 10000])
  = AngleCalc.points_from_list (AngleCalc.init 256 256)
      (to_dict <$> [AngleCalc.mkPoint 410 256 5000; AngleCalc.mkPoint 256 100 0;
                    AngleCalc.mkPoint 256 410 10000]) /\
  CalibrationUtils.set_points (CalibrationUtils.init None)
    [(0, 270); (5000, 135); (10000, 0)]
  = CalibrationUtils.set_points (CalibrationUtils.init None)
      [(5000, 135); (0, 270); (10000, 0)].
Proof.
  split.
  - apply (proj1 calibration_order_irrelevant).
    + apply perm_swap.
    + intros a b Ha Hb Hab.
      repeat (apply elem_of_cons in Ha as [->|Ha]);
        try (now apply elem_of_nil in Ha);
        repeat (apply elem_of_cons in Hb as [->|Hb]);
        try (now apply elem_of_nil in Hb);
        first [reflexivity | vm_compute in Hab; discriminate].
  - apply (proj2 calibration_order_irrelevant).
    + apply perm_swap.
    + intros a b Ha Hb Hab.
      repeat (apply elem_of_cons in Ha as [->|Ha]);
        try (now apply elem_of_nil in Ha);
        repeat (apply elem_of_cons in Hb as [->|Hb]);
        try (now apply elem_of_nil in Hb);
        first [reflexivity | vm_compute in Hab; discriminate].
Defined.

(** X4.  On a sorted store [add_point] puts the new point behind every
    stored point of lower or equal value and in front of every stored
    point of higher value; the stored points keep their places relative
    to each other.  Among points of one value the one added last comes
    last. *)
Theorem add_point_position (self : AngleCalc.AngleCalculator) (px py v : Q) :
  AngleCalc.sorted_by_value (AngleCalc.calibration_points self) ->
  exists before after : list AngleCalc.CalibrationPoint,
    AngleCalc.calibration_points self = before ++ after /\
    AngleCalc.calibration_points (AngleCalc.add_point self px py v)
    = before ++ AngleCalc.mkPoint px py v :: after /\
    Forall (fun p => AngleCalc.value p <= v) before /\
    Forall (fun p => v < AngleCalc.value p) after.
Proof.
  intros Hs. cbn [AngleCalc.add_point AngleCalc.calibration_points].
  exact (sort_by_snoc AngleCalc.value (AngleCalc.mkPoint px py v) _ Hs).
Qed.

(** A second point of value 5000 added to the three points, as an
    instance of X4: it goes behind the stored point of value 5000. *)
Lemma add_point_position_three_points :
  exists before after : list AngleCalc.CalibrationPoint,
    AngleCalc.calibration_points three_points = before ++ after /\
    AngleCalc.calibration_points (AngleCalc.add_point three_points 100 256 5000)
    = before ++ AngleCalc.mkPoint 100 256 5000 :: after /\
    Forall (fun p => AngleCalc.value p <= 5000) before /\
    Forall (fun p => 5000 < AngleCalc.value p) after.
Proof.
  apply (add_point_position three_points 100 256 5000).
  apply AngleCalcFacts.points_from_list_sorted.
Defined.

(** X5.  An entry that lacks one of the keys ['x'], ['y'], ['value']
    makes [points_from_list] raise [KeyError].  The load is not undone:
    the old points are gone, the store holds the entries in front of the
    malformed one (sorted), and the entries behind it are not loaded. *)
Theorem points_from_list_malformed_entry (self : AngleCalc.AngleCalculator)
    (good : list AngleCalc.CalibrationPoint) (bad : AngleCalc.point_dict)
    (rest : list AngleCalc.point_dict) :
  AngleCalc.d_x bad = None \/ AngleCalc.d_y bad = None
  \/ AngleCalc.d_value bad = None ->
  exists store : list AngleCalc.CalibrationPoint,
    AngleCalc.points_from_list self ((to_dict <$> good) ++ bad :: rest)
    = (AngleCalc.mkCalc (AngleCalc.gauge_pivot_x self)
                        (AngleCalc.gauge_pivot_y self) store,
       Raise KeyError) /\
    store ≡ₚ good /\
    AngleCalc.sorted_by_value store.
Proof.
  intros Hbad. unfold AngleCalc.points_from_list.
  destruct (AngleCalcMore.points_from_list_loop_app good (bad :: rest)
              (AngleCalc.mkCalc (AngleCalc.gauge_pivot_x self)
                                (AngleCalc.gauge_pivot_y self) []))
    as (store & E & Hp & Hs & _).
  exists store. split; [|split; [exact Hp|apply Hs; constructor]].
  rewrite E. cbn [AngleCalc.points_from_list_loop AngleCalc.gauge_pivot_x
                    AngleCalc.gauge_pivot_y].
  destruct bad as [[bx|] [by_|] [bv|]];
    cbn [AngleCalc.d_x AngleCalc.d_y AngleCalc.d_value AngleCalc.getkey] in *;
    try reflexivity.
  destruct Hbad as [|[|]]; discriminate.
Qed.

(** A list whose second entry has no ['y'], loaded over the three
    points, as an instance of X5. *)
Lemma points_from_list_malformed_entry_second :
  exists store : list AngleCalc.CalibrationPoint,
    AngleCalc.points_from_list three_points
      ((to_dict <$> [AngleCalc.mkPoint 3 4 50])
       ++ AngleCalc.mkDict (Some 1) None (Some 2) :: [AngleCalc.dict_of 6 8 100])
    = (AngleCalc.mkCalc (AngleCalc.gauge_pivot_x three_points)
                        (AngleCalc.gauge_pivot_y three_points) store,
       Raise KeyError) /\
    store ≡ₚ [AngleCalc.mkPoint 3 4 50] /\
    AngleCalc.sorted_by_value store.
Proof.
  apply (points_from_list_malformed_entry three_points
           [AngleCalc.mkPoint 3 4 50]
           (AngleCalc.mkDict (Some 1) None (Some 2))
           [AngleCalc.dict_of 6 8 100]).
  right. left. reflexivity.
Defined.

(** X6.  At the value of a calibration point that no other point shares,
    [NeedleAngleCalculator.value_to_angle] on a sorted store answers with
    that point's stored angle: as it is stored at the first and at the
    last point, mod 360 at the points in between. *)
Theorem needle_value_to_angle_at_calibration_value
    (self : CalibrationUtils.NeedleAngleCalculator) (k : nat)
    (p : CalibrationUtils.CalibrationPoint) (v : Q) :
  let points := CalibrationUtils.calibration_points self in
  CalibrationUtils.sorted_by_value points ->
  points !! k = Some p ->
  (forall j q, points !! j = Some q -> j <> k ->
               ~ CalibrationUtils.value q == CalibrationUtils.value p) ->
  v == CalibrationUtils.value p ->
  exists a : Q,
    CalibrationUtils.value_to_angle self v = Ok a /\
    Py.mod_ a 360 == Py.mod_ (CalibrationUtils.angle p) 360 /\
    (k = 0%nat \/ S k = length points -> a = CalibrationUtils.angle p) /\
    ((0 < k)%nat -> (S k < length points)%nat ->
     a == Py.mod_ (CalibrationUtils.angle p) 360).
Proof.
  intros points Hs Hp Huniq Hv.
  assert ((k < length points)%nat) as Hk by (eapply lookup_lt_Some; eauto).
  assert (forall j q, points !! j = Some q -> (j < k)%nat ->
                      CalibrationUtils.value q < v) as Hbelow.
  { intros j q Hq Hjk.
    pose proof (Sorted_lookup_le CalibrationUtils.value points j k q p
                  Hs Hq Hp ltac:(lia)).
    pose proof (Huniq j q Hq ltac:(lia)). lra. }
  assert (forall j q, points !! j = Some q -> (k < j)%nat ->
                      v < CalibrationUtils.value q) as Habove.
  { intros j q Hq Hjk.
    pose proof (Sorted_lookup_le CalibrationUtils.value points k j p q
                  Hs Hp Hq ltac:(lia)).
    pose proof (Huniq j q Hq ltac:(lia)). lra. }
  destruct (decide (k = 0%nat)) as [->|Hk0].
  { exists (CalibrationUtils.angle p). split; [|repeat split; auto; lia].
    apply CalibrationUtilsFacts.needle_value_to_angle_first; [exact Hp|lra]. }
  destruct (lookup_lt_is_Some_2 points 0) as [p0 Hp0]; [lia|].
  pose proof (Hbelow 0%nat p0 Hp0 ltac:(lia)) as Hp0v.
  destruct (decide (S k = length points)) as [Hlast|Hnl].
  { exists (CalibrationUtils.angle p). split; [|repeat split; auto; lia].
    apply (CalibrationUtilsFacts.needle_value_to_angle_last self v p0 p);
      auto; try lra.
    fold points. rewrite last_lookup.
    now replace (pred (length points)) with k by lia. }
  destruct (lookup_lt_is_Some_2 points (pred (length points))) as [pl Hpl];
    [lia|].
  pose proof (Habove _ pl Hpl ltac:(lia)) as Hplv.
  destruct (lookup_lt_is_Some_2 points (k - 1)) as [p1 Hp1]; [lia|].
  pose proof (Hbelow _ p1 Hp1 ltac:(lia)) as Hp1v.
  destruct (CalibrationUtilsMore.needle_value_to_angle_between self v (k - 1)
              p1 p pl) as (d & Hd & E); auto; try lra.
  { fold points. now replace (S (k - 1)) with k by lia. }
  { fold points. now rewrite last_lookup. }
  assert (exists z : Z,
             CalibrationUtils.angle p1
             + d * ((v - CalibrationUtils.value p1)
                    / (CalibrationUtils.value p - CalibrationUtils.value p1))
             == CalibrationUtils.angle p + 360 * inject_Z z) as [z Hz].
  { assert ((v - CalibrationUtils.value p1)
            / (CalibrationUtils.value p - CalibrationUtils.value p1) == 1) as Hf.
    { rewrite Hv. field. lra. }
    destruct Hd as [[_ ->]|[[_ ->]|(_ & _ & ->)]].
    - exists (-1)%Z. rewrite Hf. change (inject_Z (-1)) with (-1). lra.
    - exists 1%Z. rewrite Hf. change (inject_Z 1) with 1. lra.
    - exists 0%Z. rewrite Hf. change (inject_Z 0) with 0. lra. }
  eexists. split; [exact E|].
  pose proof (mod_congr _ _ z Hz) as Hm.
  split; [|split; [intros [|]; lia|intros _ _; exact Hm]].
  rewrite Hm. apply mod_small; apply mod_range.
Qed.

(** The tachometer preset at 5000, the value of its middle point, as an
    instance of X6. *)
Lemma needle_value_to_angle_at_calibration_value_tachometer :
  exists a : Q,
    CalibrationUtils.value_to_angle CalibrationUtils.tachometer_calibration 5000
    = Ok a /\
    Py.mod_ a 360 == Py.mod_ 135 360 /\
    (1%nat = 0%nat \/ 2%nat = 3%nat -> a = 135) /\
    ((0 < 1)%nat -> (2 < 3)%nat -> a == Py.mod_ 135 360).
Proof.
  apply (needle_value_to_angle_at_calibration_value
           CalibrationUtils.tachometer_calibration 1
           (CalibrationUtils.mkPoint 5000 135) 5000).
  - apply CalibrationUtilsFacts.validate_points_sorted.
  - reflexivity.
  - intros [|[|[|j]]] q Hq Hj; try lia; vm_compute in Hq;
      try discriminate; injection Hq as <-; vm_compute; discriminate.
  - reflexivity.
Defined.

(** X7.  Between two neighbouring points of a sorted store, strictly
    above the value of the first and strictly below the value of the
    second, [NeedleAngleCalculator.value_to_angle] moves linearly from
    the first stored angle by the sweep to the second and returns the
    result mod 360.  The sweep is the difference of the stored
    angles, taken the short way round when it exceeds half a turn, so
    that it stays within half a turn whenever the stored angles are less
    than a full turn apart. *)
Theorem needle_value_to_angle_interpolates
    (self : CalibrationUtils.NeedleAngleCalculator) (i : nat)
    (p1 p2 : CalibrationUtils.CalibrationPoint) (v : Q) :
  let points := CalibrationUtils.calibration_points self in
  CalibrationUtils.sorted_by_value points ->
  points !! i = Some p1 ->
  points !! S i = Some p2 ->
  CalibrationUtils.value p1 < v ->
  v < CalibrationUtils.value p2 ->
  exists d : Q,
    sweep_of (CalibrationUtils.angle p1) (CalibrationUtils.angle p2) d /\
    (-360 < CalibrationUtils.angle p2 - CalibrationUtils.angle p1 ->
     CalibrationUtils.angle p2 - CalibrationUtils.angle p1 < 360 ->
     -180 <= d /\ d <= 180) /\
    CalibrationUtils.value_to_angle self v
    = Ok (Py.mod_ (CalibrationUtils.angle p1
                   + d * ((v - CalibrationUtils.value p1)
                          / (CalibrationUtils.value p2
                             - CalibrationUtils.value p1))) 360).
Proof.
  intros points Hs Hp1 Hp2 Hlo Hhi.
  assert ((S i < length points)%nat) as Hi by (eapply lookup_lt_Some; eauto).
  destruct (lookup_lt_is_Some_2 points (pred (length points))) as [pl Hpl];
    [lia|].
  pose proof (Sorted_lookup_le CalibrationUtils.value points (S i) _ p2 pl
                Hs Hp2 Hpl ltac:(lia)).
  destruct (CalibrationUtilsMore.needle_value_to_angle_between self v i
              p1 p2 pl) as (d & Hd & E); auto; try lra.
  { fold points. now rewrite last_lookup. }
  exists d. split; [exact Hd|]. split; [|exact E].
  intros Hl Hu. destruct Hd as [[? ->]|[[? ->]|(? & ? & ->)]]; split; lra.
Qed.

(** The tachometer preset at 2500, as an instance of X7: from 270
    degrees by half of the sweep of -135 degrees. *)
Lemma needle_value_to_angle_interpolates_tachometer :
  exists d : Q,
    sweep_of 270 135 d /\
    (-360 < 135 - 270 -> 135 - 270 < 360 -> -180 <= d /\ d <= 180) /\
    CalibrationUtils.value_to_angle CalibrationUtils.tachometer_calibration 2500
    = Ok (Py.mod_ (270 + d * ((2500 - 0) / (5000 - 0))) 360).
Proof.
  apply (needle_value_to_angle_interpolates
           CalibrationUtils.tachometer_calibration 0
           (CalibrationUtils.mkPoint 0 270) (CalibrationUtils.mkPoint 5000 135)
           2500).
  - apply CalibrationUtilsFacts.validate_points_sorted.
  - reflexivity.
  - reflexivity.
  - reflexivity.
  - reflexivity.
Defined.

(** X8.  The two interpolation strategies give the same needle angle.
    Take a pixel calibration with a sorted store, the arctangent between
    -180 and 180 degrees, and no two neighbouring points at exactly
    opposite bearings; hand the bearings of its points, as value ->
    angle points, to [NeedleAngleCalculator].  Then for every value the
    global unwrap of [AngleCalculator.value_to_angle] and the per-segment
    short-way rule of [NeedleAngleCalculator.value_to_angle] arrive at
    the same angle. *)
Theorem calculators_agree (atan2_degrees : Q -> Q -> Q)
    (self : AngleCalc.AngleCalculator) (v : Q) :
  let points := AngleCalc.calibration_points self in
  let bearing := AngleCalc.bearing atan2_degrees self in
  (forall dy dx : Q,
      -180 <= atan2_degrees dy dx /\ atan2_degrees dy dx <= 180) ->
  AngleCalc.sorted_by_value points ->
  (forall i p q, points !! i = Some p -> points !! S i = Some q ->
                 ~ bearing q - bearing p == 180 /\
                 ~ bearing q - bearing p == -180) ->
  exists a b : Q,
    returns (fun fuel => AngleCalc.value_to_angle atan2_degrees fuel self v) a /\
    CalibrationUtils.value_to_angle
      (CalibrationUtils.init (Some (needle_points_of atan2_degrees self))) v
    = Ok b /\
    a == b.
Proof.
  intros points bearing Hatan Hs Hopp.
  set (npoints := needle_points_of atan2_degrees self).
  set (raw := bearing <$> points).
  destruct (decide (points = [])) as [Hnil|Hne].
  { exists 0, 0. split; [|split; [|reflexivity]].
    - exists 0%nat. intros fuel _. unfold AngleCalc.value_to_angle.
      fold points. now rewrite Hnil.
    - unfold npoints, needle_points_of. fold points. now rewrite Hnil. }
  assert (length raw = length points) as Hraw by apply length_fmap.
  assert (length npoints = length points) as Hnlen by apply length_fmap.
  assert (forall p, AngleCalc.bearing atan2_degrees self p = bearing p)
    as Hb by reflexivity.
  assert (forall p, 0 <= bearing p /\ bearing p < 360) as Hrange.
  { intros p. apply AngleCalcFacts.calculate_angle_to_point_range; apply Hatan. }
  assert (forall p, Py.mod_ (bearing p) 360 == bearing p) as Hmod.
  { intros p. apply mod_small; apply Hrange. }
  assert (CalibrationUtils.calibration_points
            (CalibrationUtils.init (Some npoints)) = npoints) as Hstore.
  { apply CalibrationUtilsMore.init_sorted_store.
    unfold npoints, needle_points_of. fold points.
    eapply Sorted_fmap; [|exact Hs]. intros a b Hab. exact Hab. }
  assert (forall i p r, points !! i = Some p -> raw !! i = Some r ->
                        npoints !! i = Some (CalibrationUtils.mkPoint
                                               (AngleCalc.value p) r)) as Hnl.
  { intros i p r Hp Hr. unfold raw in Hr. rewrite list_lookup_fmap, Hp in Hr.
    injection Hr as <-. unfold npoints, needle_points_of. fold points.
    now rewrite list_lookup_fmap, Hp. }
  assert (forall i r, raw !! i = Some r -> 0 <= r /\ r < 360) as Hrr.
  { intros i r Hr. unfold raw in Hr.
    apply list_lookup_fmap_Some in Hr as (p & -> & _). apply Hrange. }
  assert (forall i r1 r2, raw !! i = Some r1 -> raw !! S i = Some r2 ->
                          ~ r2 - r1 == 180 /\ ~ r2 - r1 == -180) as Hro.
  { intros i r1 r2 Hr1 Hr2. unfold raw in Hr1, Hr2.
    apply list_lookup_fmap_Some in Hr1 as (p & -> & Hp).
    apply list_lookup_fmap_Some in Hr2 as (q & -> & Hq).
    now apply (Hopp i). }
  destruct (AngleCalcFacts.unwrap_spec raw) as (u & Hrun & Hu).
  pose proof Hu as (Hulen & Hu0 & Hcong & _).
  assert ((0 < length points)%nat) as Hpos.
  { destruct points; [contradiction|cbn [length]; lia]. }
  destruct (lookup_lt_is_Some_2 points 0) as [p0 Hp0]; [lia|].
  destruct (lookup_lt_is_Some_2 points (pred (length points))) as [pl Hpl];
    [lia|].
  assert (raw !! 0%nat = Some (bearing p0)) as Hr0.
  { unfold raw. now rewrite list_lookup_fmap, Hp0. }
  assert (raw !! pred (length points) = Some (bearing pl)) as Hrl.
  { unfold raw. now rewrite list_lookup_fmap, Hpl. }
  pose proof (Hnl _ _ _ Hp0 Hr0) as Hn0.
  pose proof (Hnl _ _ _ Hpl Hrl) as Hnpl.
  assert (forall a, AngleCalc.lookup_angle points u v = Ok a ->
            returns (fun fuel => AngleCalc.value_to_angle atan2_degrees fuel
                                   self v) a) as Hret.
  { intros a Ha.
    now apply (AngleCalcFacts.value_to_angle_lookup atan2_degrees self v a u). }
  destruct (decide (v <= AngleCalc.value p0)) as [Hfirst|Hfirst].
  { exists (Py.mod_ (bearing p0) 360), (bearing p0).
    split; [|split; [|apply Hmod]].
    - apply Hret. apply (AngleCalcFacts.lookup_angle_first points u v p0);
        auto. now rewrite Hu0.
    - apply (CalibrationUtilsFacts.needle_value_to_angle_first _ v
               (CalibrationUtils.mkPoint (AngleCalc.value p0) (bearing p0)));
        [now rewrite Hstore|exact Hfirst]. }
  destruct (lookup_lt_is_Some_2 u (pred (length points))) as [al Hal]; [lia|].
  destruct (decide (AngleCalc.value pl <= v)) as [Hlast|Hlast].
  { exists (Py.mod_ al 360), (bearing pl). split; [|split].
    - apply Hret. apply (AngleCalcFacts.lookup_angle_last points u v p0 pl);
        auto.
      + now rewrite last_lookup.
      + rewrite last_lookup. now rewrite Hulen, Hraw.
    - apply (CalibrationUtilsFacts.needle_value_to_angle_last _ v
               (CalibrationUtils.mkPoint (AngleCalc.value p0) (bearing p0))
               (CalibrationUtils.mkPoint (AngleCalc.value pl) (bearing pl)));
        auto; rewrite Hstore; auto.
      rewrite last_lookup. now rewrite Hnlen.
    - destruct (Hcong _ al _ Hal Hrl) as [z Hz].
      rewrite (mod_congr _ _ z Hz). apply Hmod. }
  pose proof (Agreement.loops_agree points raw u npoints Hraw Hrr Hro Hu Hnl v
                (length points - 1) 0 p0 Hp0 ltac:(lra) ltac:(lia)) as Hloops.
  unfold CalibrationUtils.value_to_angle. rewrite Hstore.
  destruct npoints as [|np rest] eqn:Enp; [cbn in Hnlen; lia|].
  rewrite <- Enp in *. clear Enp np rest.
  apply getitem_Ok in Hn0. rewrite Hn0.
  cbn [CalibrationUtils.value CalibrationUtils.angle].
  destruct (decide (v <= AngleCalc.value p0)); [contradiction|].
  assert (last npoints = Some (CalibrationUtils.mkPoint (AngleCalc.value pl)
                                 (bearing pl))) as Hnlast.
  { rewrite last_lookup. now rewrite Hnlen. }
  apply getlast_Ok in Hnlast. rewrite Hnlast.
  cbn [CalibrationUtils.value CalibrationUtils.angle].
  destruct (decide (AngleCalc.value pl <= v)); [contradiction|].
  rewrite Hnlen.
  assert (forall a, AngleCalc.bracket_for points u v
                      (seq 0 (length points - 1)) = Ok (Some a) ->
                    AngleCalc.lookup_angle points u v = Ok a) as Hlook.
  { intros a Ha. unfold AngleCalc.lookup_angle.
    pose proof Hp0 as Hp0'. apply getitem_Ok in Hp0'. rewrite Hp0'.
    destruct (decide (v <= AngleCalc.value p0)); [contradiction|].
    pose proof Hpl as Hpl'. rewrite <- last_lookup in Hpl'.
    apply getlast_Ok in Hpl'. rewrite Hpl'.
    destruct (decide (AngleCalc.value pl <= v)); [contradiction|].
    now rewrite Ha. }
  destruct (AngleCalc.bracket_for points u v (seq 0 (length points - 1)))
    as [[a|]| |]; destruct (CalibrationUtils.interpolate_for npoints v _)
    as [[b|]| |]; try contradiction.
  - exists a, b. split; [apply Hret; now apply Hlook|]. split; [reflexivity|].
    exact Hloops.
  - destruct Hloops as (p & Hp & Hpv).
    replace (0 + (length points - 1))%nat with (pred (length points)) in Hp
      by lia.
    rewrite Hpl in Hp. injection Hp as <-. lra.
Qed.

(** The three points, as an instance of X8: both calculators give the
    same angle at 2500. *)
Lemma calculators_agree_three_points :
  exists a b : Q,
    returns (fun fuel => AngleCalc.value_to_angle compass fuel three_points 2500)
            a /\
    CalibrationUtils.value_to_angle
      (CalibrationUtils.init (Some (needle_points_of compass three_points)))
      2500
    = Ok b /\
    a == b.
Proof.
  apply (calculators_agree compass three_points 2500).
  - intros dy dx. unfold AngleCalc.atan2_degrees_compass.
    destruct (dy ?= 0), (dx ?= 0); split; discriminate.
  - apply AngleCalcFacts.points_from_list_sorted.
  - intros [|[|[|i]]] p q Hp Hq; vm_compute in Hp, Hq; try discriminate;
      injection Hp as <-; injection Hq as <-; split; vm_compute; discriminate.
Defined.

End Calculators.
(** * Beyond the claims: loading a calibration into the gauge *)

Section Loading.
Import Examples MoreExamples Predicates ImageGauge.

Local Abbreviation compass := AngleCalc.atan2_degrees_compass.

(** X9.  [load_v2_calibration] never raises.  It returns [True] exactly
    when the calculator module is there, the configuration has an entry
    for the needle, and every calibration point of the entry carries its
    three keys.  When the needle is unknown or the module is missing it
    leaves the gauge as it was. *)
Theorem load_v2_calibration_outcome (atan2_degrees : Q -> Q -> Q)
    (pow_half : Q -> Q) (AngleCalculator_imported : bool)
    (calibration_data : gmap string needle_cal) (needle_id : string)
    (self : ImageBasedGauge) :
  exists (self' : ImageBasedGauge) (loaded : bool),
    load_v2_calibration atan2_degrees pow_half AngleCalculator_imported
      calibration_data needle_id self = (self', Ok loaded) /\
    (loaded = true <->
     AngleCalculator_imported = true /\
     exists cal : needle_cal,
       calibration_data !! needle_id = Some cal /\
       Forall well_formed (default [] (cal_calibration_points cal))) /\
    (calibration_data !! needle_id = None \/ AngleCalculator_imported = false ->
     self' = self).
Proof.
  destruct (calibration_data !! needle_id) as [cal|] eqn:Hcal.
  2:{ exists self, false. unfold load_v2_calibration. rewrite Hcal.
      split; [reflexivity|]. split; [|reflexivity].
      split; [discriminate|]. intros (_ & cal & Hc & _). discriminate. }
  destruct AngleCalculator_imported.
  2:{ exists self, false. unfold load_v2_calibration. rewrite Hcal.
      split; [reflexivity|]. split; [|reflexivity].
      split; [discriminate|]. intros (Hi & _). discriminate. }
  destruct (decide (Forall well_formed (default [] (cal_calibration_points cal))))
    as [Hwf|Hbad].
  - destruct (ImageGaugeFacts.load_v2_calibration_succeeds atan2_degrees pow_half
                true calibration_data needle_id cal self eq_refl Hcal Hwf)
      as [self' Hrun].
    exists self', true. split; [exact Hrun|]. split.
    + split; [|reflexivity]. intros _. split; [reflexivity|]. now exists cal.
    + intros [|]; discriminate.
  - eexists _, false. split.
    + exact (ImageGaugeMore.load_v2_calibration_KeyError atan2_degrees pow_half
               calibration_data needle_id cal self Hcal Hbad).
    + split; [|intros [|]; discriminate].
      split; [discriminate|]. intros (_ & cal' & [= <-] & Hwf). contradiction.
Qed.

(** X10.  A load that fails on a malformed calibration point is not
    undone: [load_v2_calibration] returns [False], but the calculator the
    gauge held is replaced by the new one, as [points_from_list] left it
    when it raised.  Every other attribute is as before. *)
Theorem load_v2_calibration_malformed_entry (atan2_degrees : Q -> Q -> Q)
    (pow_half : Q -> Q) (calibration_data : gmap string needle_cal)
    (needle_id : string) (cal : needle_cal) (self : ImageBasedGauge) :
  let gx := default 0 (cal_gauge_pivot_x cal) in
  let gy := default 0 (cal_gauge_pivot_y cal) in
  let points := default [] (cal_calibration_points cal) in
  calibration_data !! needle_id = Some cal ->
  ~ Forall well_formed points ->
  exists calc : AngleCalc.AngleCalculator,
    AngleCalc.points_from_list (AngleCalc.init gx gy) points
    = (calc, Raise KeyError) /\
    load_v2_calibration atan2_degrees pow_half true calibration_data needle_id
      self
    = (set_angle_calculator (Some calc) self, Ok false).
Proof.
  intros gx gy points Hcal Hbad.
  exists (AngleCalc.points_from_list (AngleCalc.init gx gy) points).1. split.
  - pose proof (ImageGaugeMore.points_from_list_loop_KeyError points
                  (AngleCalc.mkCalc gx gy []) Hbad) as Hr.
    unfold AngleCalc.points_from_list, AngleCalc.init.
    cbn [AngleCalc.gauge_pivot_x AngleCalc.gauge_pivot_y].
    destruct (AngleCalc.points_from_list_loop _ points) as [calc r].
    cbn [fst snd] in *. now subst r.
  - exact (ImageGaugeMore.load_v2_calibration_KeyError atan2_degrees pow_half
             calibration_data needle_id cal self Hcal Hbad).
Qed.

(** The entry whose second point has no ['y'], loaded into a fresh
    gauge, as an instance of X10. *)
Lemma load_v2_calibration_malformed_entry_fresh_gauge :
  exists calc : AngleCalc.AngleCalculator,
    AngleCalc.points_from_list (AngleCalc.init 0 0)
      [AngleCalc.dict_of 3 4 0; AngleCalc.mkDict (Some 6) None (Some 100)]
    = (calc, Raise KeyError) /\
    load_v2_calibration compass pow_half_whole true
      {[ "main"%string := malformed_cal ]} "main" fresh_gauge
    = (set_angle_calculator (Some calc) fresh_gauge, Ok false).
Proof.
  apply (load_v2_calibration_malformed_entry compass pow_half_whole
           {[ "main"%string := malformed_cal ]} "main"%string malformed_cal
           fresh_gauge).
  - apply lookup_singleton_eq.
  - intros H. apply Forall_cons in H as [_ H]. apply Forall_cons in H as [H _].
    destruct H as (_ & [? H] & _). discriminate.
Defined.

(** X11.  What a successful [load_v2_calibration] sets and what it
    keeps.  The gauge holds a new calculator at the gauge pivot of the
    entry, filled by [points_from_list] from the entry's points; the
    pivot and the points are stored as given; the needle scale is the
    entry's when it has one and stays otherwise.  The named needles, the
    display scale, the needle artwork and the background size are not
    touched.  With an empty point list the tip radius is not reset: it
    stays what an earlier load made it. *)
Theorem load_v2_calibration_effect (atan2_degrees : Q -> Q -> Q)
    (pow_half : Q -> Q) (AngleCalculator_imported : bool)
    (calibration_data : gmap string needle_cal) (needle_id : string)
    (cal : needle_cal) (self self' : ImageBasedGauge) :
  let gx := default 0 (cal_gauge_pivot_x cal) in
  let gy := default 0 (cal_gauge_pivot_y cal) in
  let points := default [] (cal_calibration_points cal) in
  calibration_data !! needle_id = Some cal ->
  load_v2_calibration atan2_degrees pow_half AngleCalculator_imported
    calibration_data needle_id self = (self', Ok true) ->
  (exists calc : AngleCalc.AngleCalculator,
      AngleCalc.points_from_list (AngleCalc.init gx gy) points = (calc, Ok tt) /\
      angle_calculator self' = Some calc) /\
  gauge_pivot_px self' = Some (gx, gy) /\
  calibration_points_px self' = points /\
  needle_scale self' = default (needle_scale self) (cal_needle_scale cal) /\
  (points = [] -> desired_tip_radius_px self' = desired_tip_radius_px self) /\
  named_needles self' = named_needles self /\
  gauge_display_scale self' = gauge_display_scale self /\
  needle_pixmap self' = needle_pixmap self /\
  needle_svg self' = needle_svg self /\
  is_svg_needle self' = is_svg_needle self /\
  gauge_bg_width self' = gauge_bg_width self /\
  gauge_bg_height self' = gauge_bg_height self.
Proof.
  intros gx gy points Hcal Hrun.
  destruct (ImageGaugeMore.load_v2_calibration_steps _ _ _ _ _ _ _ _ Hcal Hrun)
    as (calc & s4 & s5 & s6 & _ & Hpts & H4 & H5 & H6 & ->).
  fold gx gy points in Hpts, H4, H5, H6.
  assert (forall (B : Type) (f : ImageBasedGauge -> B),
             (forall v s, f (ImageGauge.set_needle_pivot v s) = f s) ->
             (forall v s, f (set_needle_length_px v s) = f s) ->
             (forall v s, f (set_needle_base_angle v s) = f s) ->
             (forall v s, f (set_needle_center_offset v s) = f s) ->
             f s5 = f (set_gauge_pivot_px (Some (gx, gy))
                         (set_calibration_points_px points
                            (set_angle_calculator (Some calc) self)))) as K5.
  { intros B f F1 F2 F3 F4.
    rewrite <- (ImageGaugeFacts.load_needle_geometry_frames atan2_degrees
                  pow_half f cal F1 F2 F3 _ _ _ H4).
    now rewrite <- (ImageGaugeFacts.load_center_offset_frames f gx gy F4
                      _ _ _ H5). }
  assert (forall (B : Type) (f : ImageBasedGauge -> B),
             (forall v s, f (set_desired_tip_radius_px v s) = f s) ->
             f s6 = f s5) as K6.
  { intros B f F5.
    exact (ImageGaugeMore.load_tip_radius_frames pow_half f gx gy points F5
             _ _ _ H6). }
  assert (forall (B : Type) (f : ImageBasedGauge -> B),
             (forall v s, f (set_needle_scale v s) = f s) ->
             f (match cal_needle_scale cal with
                | Some sc => set_needle_scale sc s6
                | None => s6
                end) = f s6) as K7.
  { intros B f F6. destruct (cal_needle_scale cal); [apply F6|reflexivity]. }
  split; [exists calc; split; [exact Hpts|]|].
  { now rewrite K7, K6, K5. }
  split; [now rewrite K7, K6, K5|].
  split; [now rewrite K7, K6, K5|].
  split.
  { destruct (cal_needle_scale cal); [reflexivity|].
    now rewrite K6, K5. }
  split.
  { intros Hnil. rewrite K7 by reflexivity.
    unfold load_tip_radius, bind, read in H6. rewrite Hnil in H6.
    rewrite andb_false_r in H6. injection H6 as <-. now rewrite K5. }
  repeat split; now rewrite K7, K6, K5.
Qed.

(** The two-point entry loaded as the main needle of a fresh gauge, as
    an instance of X11. *)
Lemma load_v2_calibration_effect_two_points :
  let self' := (load_v2_calibration compass pow_half_whole true
                  {[ "main"%string := two_point_cal ]} "main" fresh_gauge).1 in
  let points := [AngleCalc.dict_of 3 4 0; AngleCalc.dict_of 6 8 100] in
  (exists calc : AngleCalc.AngleCalculator,
      AngleCalc.points_from_list (AngleCalc.init 0 0) points = (calc, Ok tt) /\
      angle_calculator self' = Some calc) /\
  gauge_pivot_px self' = Some (0, 0) /\
  calibration_points_px self' = points /\
  needle_scale self' = needle_scale fresh_gauge /\
  (points = [] -> desired_tip_radius_px self' = desired_tip_radius_px fresh_gauge) /\
  named_needles self' = named_needles fresh_gauge /\
  gauge_display_scale self' = gauge_display_scale fresh_gauge /\
  needle_pixmap self' = needle_pixmap fresh_gauge /\
  needle_svg self' = needle_svg fresh_gauge /\
  is_svg_needle self' = is_svg_needle fresh_gauge /\
  gauge_bg_width self' = gauge_bg_width fresh_gauge /\
  gauge_bg_height self' = gauge_bg_height fresh_gauge.
Proof.
  apply (load_v2_calibration_effect compass pow_half_whole true
           {[ "main"%string := two_point_cal ]} "main"%string two_point_cal
           fresh_gauge).
  - apply lookup_singleton_eq.
  - vm_compute. reflexivity.
Defined.

(** X12.  The needle geometry a successful [load_v2_calibration] derives
    for a PNG needle of positive size.  The pivot fraction is the needle
    pivot pixel over the size of the needle image.  When the entry gives
    a needle end, the needle length is the distance from pivot to end
    and the base angle the bearing of the end seen from the pivot,
    wrapped into [0, 360); a needle end of (0, 0), like a missing one,
    counts as not given: the length is reset and the base angle stays.
    On a background of non-zero size the needle centre is the gauge
    pivot pixel over the size of the background. *)
Theorem load_v2_calibration_needle_geometry (atan2_degrees : Q -> Q -> Q)
    (pow_half : Q -> Q) (AngleCalculator_imported : bool)
    (calibration_data : gmap string needle_cal) (needle_id : string)
    (cal : needle_cal) (pm : QPixmap) (self self' : ImageBasedGauge) :
  let gx := default 0 (cal_gauge_pivot_x cal) in
  let gy := default 0 (cal_gauge_pivot_y cal) in
  let piv_x := default 0 (cal_needle_pivot_x cal) in
  let piv_y := default 0 (cal_needle_pivot_y cal) in
  let end_x := default 0 (cal_needle_end_x cal) in
  let end_y := default 0 (cal_needle_end_y cal) in
  let dx := end_x - piv_x in
  let dy := end_y - piv_y in
  is_svg_needle self = false ->
  needle_pixmap self = Some pm ->
  isNull pm = false ->
  (0 < width pm)%Z -> (0 < height pm)%Z ->
  calibration_data !! needle_id = Some cal ->
  load_v2_calibration atan2_degrees pow_half AngleCalculator_imported
    calibration_data needle_id self = (self', Ok true) ->
  needle_pivot self'
  = (piv_x / inject_Z (width pm), piv_y / inject_Z (height pm)) /\
  (~ end_x == 0 \/ ~ end_y == 0 ->
   needle_length_px self' = Some (pow_half (dx * dx + dy * dy)) /\
   needle_base_angle self' = Py.mod_ (atan2_degrees dy dx + 360) 360 /\
   0 <= needle_base_angle self' /\ needle_base_angle self' < 360) /\
  (end_x == 0 -> end_y == 0 ->
   needle_length_px self' = None /\
   needle_base_angle self' = needle_base_angle self) /\
  (forall w h : Z,
      gauge_bg_width self = Some w -> gauge_bg_height self = Some h ->
      w <> 0%Z -> h <> 0%Z ->
      needle_center_offset self' = (gx / inject_Z w, gy / inject_Z h)).
Proof.
  intros gx gy piv_x piv_y end_x end_y dx dy Hsvg Hpm Hnull Hw Hh Hcal Hrun.
  destruct (ImageGaugeMore.load_v2_calibration_steps _ _ _ _ _ _ _ _ Hcal Hrun)
    as (calc & s4 & s5 & s6 & _ & Hpts & H4 & H5 & H6 & ->).
  fold gx gy in Hpts, H4, H5, H6.
  rewrite (ImageGaugeMore.load_needle_geometry_pixmap atan2_degrees pow_half
             cal pm
             (set_gauge_pivot_px (Some (gx, gy))
                (set_calibration_points_px _
                   (set_angle_calculator (Some calc) self)))
             Hsvg Hpm Hnull Hw Hh) in H4.
  fold piv_x piv_y end_x end_y dx dy in H4.
  assert (forall (B : Type) (f : ImageBasedGauge -> B),
             (forall v s, f (set_needle_center_offset v s) = f s) ->
             (forall v s, f (set_desired_tip_radius_px v s) = f s) ->
             (forall v s, f (set_needle_scale v s) = f s) ->
             f (match cal_needle_scale cal with
                | Some sc => set_needle_scale sc s6
                | None => s6
                end) = f s4) as K.
  { intros B f F4 F5 F6.
    rewrite <- (ImageGaugeFacts.load_center_offset_frames f gx gy F4 _ _ _ H5).
    rewrite <- (ImageGaugeMore.load_tip_radius_frames pow_half f gx gy _ F5
                  _ _ _ H6).
    destruct (cal_needle_scale cal); [apply F6|reflexivity]. }
  assert (Py.truthy end_x || Py.truthy end_y = true
          <-> (~ end_x == 0 \/ ~ end_y == 0)) as Htruthy.
  { unfold Py.truthy. rewrite orb_true_iff, !bool_decide_eq_true. tauto. }
  injection H4 as <-.
  split; [|split; [|split]].
  - rewrite K by reflexivity.
    destruct (Py.truthy end_x || Py.truthy end_y); reflexivity.
  - intros Hend. apply Htruthy in Hend.
    rewrite !K by reflexivity. rewrite Hend.
    cbn [needle_length_px needle_base_angle set_needle_base_angle
         set_needle_length_px].
    repeat split; apply mod_range.
  - intros Hx Hy.
    assert (Py.truthy end_x || Py.truthy end_y = false) as Hend.
    { apply not_true_is_false. rewrite Htruthy. tauto. }
    rewrite !K by reflexivity. rewrite Hend. split; reflexivity.
  - intros w h Hbw Hbh Hw0 Hh0.
    assert (forall (B : Type) (f : ImageBasedGauge -> B),
               (forall v s, f (set_desired_tip_radius_px v s) = f s) ->
               (forall v s, f (set_needle_scale v s) = f s) ->
               f (match cal_needle_scale cal with
                  | Some sc => set_needle_scale sc s6
                  | None => s6
                  end) = f s5) as K'.
    { intros B f F5 F6.
      rewrite <- (ImageGaugeMore.load_tip_radius_frames pow_half f gx gy _ F5
                    _ _ _ H6).
      destruct (cal_needle_scale cal); [apply F6|reflexivity]. }
    rewrite K' by reflexivity.
    rewrite (ImageGaugeMore.load_center_offset_run gx gy w h) in H5;
      try assumption.
    + now injection H5 as <-.
    + destruct (Py.truthy end_x || Py.truthy end_y); exact Hbw.
    + destruct (Py.truthy end_x || Py.truthy end_y); exact Hbh.
Qed.

(** The two-point entry (needle pivot (20, 350), needle end (20, 10))
    loaded into a fresh gauge with its 40 x 370 needle and 1080 x 1080
    background, as an instance of X12. *)
Lemma load_v2_calibration_needle_geometry_two_points :
  let self' := (load_v2_calibration compass pow_half_whole true
                  {[ "main"%string := two_point_cal ]} "main" fresh_gauge).1 in
  let dx := 20 - 20 in
  let dy := 10 - 350 in
  needle_pivot self' = (20 / inject_Z 40, 350 / inject_Z 370) /\
  (~ 20 == 0 \/ ~ 10 == 0 ->
   needle_length_px self' = Some (pow_half_whole (dx * dx + dy * dy)) /\
   needle_base_angle self' = Py.mod_ (compass dy dx + 360) 360 /\
   0 <= needle_base_angle self' /\ needle_base_angle self' < 360) /\
  (20 == 0 -> 10 == 0 ->
   needle_length_px self' = None /\
   needle_base_angle self' = needle_base_angle fresh_gauge) /\
  (forall w h : Z,
      gauge_bg_width fresh_gauge = Some w ->
      gauge_bg_height fresh_gauge = Some h ->
      w <> 0%Z -> h <> 0%Z ->
      needle_center_offset self' = (0 / inject_Z w, 0 / inject_Z h)).
Proof.
  apply (load_v2_calibration_needle_geometry compass pow_half_whole true
           {[ "main"%string := two_point_cal ]} "main"%string two_point_cal
           (mkPixmap false 40 370) fresh_gauge).
  - reflexivity.
  - reflexivity.
  - reflexivity.
  - reflexivity.
  - reflexivity.
  - apply lookup_singleton_eq.
  - vm_compute. reflexivity.
Defined.

End Loading.
(** * Beyond the claims: the named needles and the sizing of a painted
      needle *)

Section Needles.
Import Examples Predicates ImageGauge GaugeWidget.

(** X13.  Setting and reading back the scale of a named needle.  For a
    needle that exists, [get_named_needle_scale] after
    [set_named_needle_scale] returns the scale clamped to [0.5, 2.0],
    and the needle keeps its value.  Whatever the first call did, a
    second [set_named_needle_scale] leaves a scale within [0.5, 2.0].
    After [delete_named_needle] the needle is gone and its scale reads
    as the default: 1.0, or the main needle's scale for the name
    ['main']. *)
Theorem named_needle_scale_round_trip :
  (forall (self : ImageBasedGauge) (name : string) (scale : Q)
          (d : needle_data),
      named_needles self !! name = Some d ->
      let self' := set_named_needle_scale self name scale in
      get_named_needle_scale self' name = Ok (Py.max 0.5 (Py.min 2.0 scale)) /\
      0.5 <= Py.max 0.5 (Py.min 2.0 scale) /\
      Py.max 0.5 (Py.min 2.0 scale) <= 2.0 /\
      (0.5 <= scale -> scale <= 2.0 -> Py.max 0.5 (Py.min 2.0 scale) == scale) /\
      nd_value <$> named_needles self' !! name = Some (nd_value d)) /\
  (forall (self : ImageBasedGauge) (name : string) (first second : Q),
      exists s : Q,
        get_named_needle_scale
          (set_named_needle_scale (set_named_needle_scale self name first)
                                  name second) name = Ok s /\
        0.5 <= s /\ s <= 2.0) /\
  (forall (self : ImageBasedGauge) (name : string),
      let self' := delete_named_needle self name in
      named_needles self' !! name = None /\
      get_named_needle_scale self' name
      = Ok (if decide (name = "main"%string) then needle_scale self else 1.0)).
Proof.
  split; [|split].
  - intros self name scale d Hd self'.
    pose proof (ImageGaugeFacts.clamp_range scale) as [Hlo Hhi].
    unfold self', get_named_needle_scale, set_named_needle_scale.
    rewrite Hd. cbn [named_needles set_named_needles].
    rewrite lookup_insert_eq. cbn [nd_scale nd_value AngleCalc.getkey fmap
                                   option_fmap option_map].
    repeat split; auto.
    intros H1 H2. unfold Py.max, Py.min.
    destruct (decide (scale < 2.0)); destruct (decide (0.5 < _)); lra.
  - intros self name first second.
    pose proof (ImageGaugeFacts.clamp_range second) as [Hlo Hhi].
    exists (Py.max 0.5 (Py.min 2.0 second)). split; [|split; assumption].
    unfold get_named_needle_scale.
    unfold set_named_needle_scale at 1.
    assert (exists d, named_needles (set_named_needle_scale self name first)
                        !! name = Some d) as [d Hd].
    { unfold set_named_needle_scale.
      destruct (named_needles self !! name);
        cbn [named_needles set_named_needles]; rewrite lookup_insert_eq; eauto. }
    rewrite Hd. cbn [named_needles set_named_needles].
    now rewrite lookup_insert_eq.
  - intros self name self'. unfold self', delete_named_needle.
    destruct (named_needles self !! name) as [d|] eqn:Hd.
    + unfold get_named_needle_scale. cbn [named_needles set_named_needles].
      rewrite lookup_delete_eq. split; [reflexivity|].
      destruct (decide (name = "main"%string)); reflexivity.
    + split; [exact Hd|]. unfold get_named_needle_scale. rewrite Hd.
      destruct (decide (name = "main"%string)); reflexivity.
Qed.

(** A needle created with value 40 and then given the scale 5, as an
    instance of X13: the scale reads back as 2. *)
Lemma named_needle_scale_round_trip_boost :
  let self := set_named_needle_value fresh_gauge "boost" 40 in
  let self' := set_named_needle_scale self "boost" 5 in
  get_named_needle_scale self' "boost" = Ok (Py.max 0.5 (Py.min 2.0 5)) /\
  0.5 <= Py.max 0.5 (Py.min 2.0 5) /\
  Py.max 0.5 (Py.min 2.0 5) <= 2.0 /\
  (0.5 <= 5 -> 5 <= 2.0 -> Py.max 0.5 (Py.min 2.0 5) == 5) /\
  nd_value <$> named_needles self' !! "boost"%string = Some (Some 40).
Proof.
  apply (proj1 named_needle_scale_round_trip
               (set_named_needle_value fresh_gauge "boost" 40) "boost"%string 5
               (mkNeedle (Some 40) (Some 1.0) None)).
  reflexivity.
Defined.

(** X14.  Named needles are always drawn by the linear mapping of their
    value: what [_draw_all_named_needles] paints for a needle depends on
    the needle's value and scale only, never on a calculator the needle
    carries.  The needles the three registry methods build from an empty
    registry carry no calculator at all, and always a value and a scale,
    so that reading a scale back never raises. *)
Theorem named_needles_drawn_by_value_alone :
  (forall (self : ImageBasedGauge) (radius : Q) (name : string)
          (d : needle_data) (calc : option AngleCalc.AngleCalculator),
      let with_calc := mkNeedle (nd_value d) (nd_scale d) calc in
      _draw_all_named_needles
        (set_named_needles (<[name := with_calc]> (named_needles self)) self)
        radius !! name
      = _draw_all_named_needles
          (set_named_needles (<[name := d]> (named_needles self)) self)
          radius !! name) /\
  (forall self : ImageBasedGauge,
      registry self ->
      (forall (name : string) (d : needle_data),
          named_needles self !! name = Some d ->
          is_Some (nd_value d) /\ is_Some (nd_scale d)
          /\ nd_angle_calc d = None) /\
      (forall name : string,
          exists s : Q, get_named_needle_scale self name = Ok s)).
Proof.
  split.
  - intros self radius name d calc with_calc.
    unfold _draw_all_named_needles. cbn [named_needles set_named_needles].
    rewrite !lookup_fmap, !lookup_insert_eq. reflexivity.
  - intros self Hreg.
    pose proof (ImageGaugeMore.registry_complete self Hreg) as Hc.
    pose proof (ImageGaugeMore.registry_uncalibrated self Hreg) as Hu.
    split.
    + intros name d Hd. destruct (Hc name d Hd). split; [|split]; eauto.
    + intros name. unfold get_named_needle_scale.
      destruct (named_needles self !! name) as [d|] eqn:Hd.
      * destruct (Hc name d Hd) as [_ [s Hs]]. rewrite Hs. eauto.
      * destruct (decide (name = "main"%string)); eauto.
Qed.

(** A registry with one needle, as an instance of X14. *)
Lemma named_needles_drawn_by_value_alone_boost :
  let self := set_named_needle_value fresh_gauge "boost" 40 in
  (forall (name : string) (d : needle_data),
      named_needles self !! name = Some d ->
      is_Some (nd_value d) /\ is_Some (nd_scale d) /\ nd_angle_calc d = None) /\
  (forall name : string, exists s : Q, get_named_needle_scale self name = Ok s).
Proof.
  apply (proj2 named_needles_drawn_by_value_alone
               (set_named_needle_value fresh_gauge "boost" 40)).
  apply registry_value, registry_empty. reflexivity.
Defined.

(** X15.  The named needles are independent of each other and of the
    main needle.  Each of [set_named_needle_value],
    [set_named_needle_scale] and [delete_named_needle] changes nothing of
    the gauge but the registry of named needles, and in the registry
    nothing but the entry of the needle it names.  After two such calls
    for different needles every name holds the same entry whichever
    call was made first (the order in which the registry lists its
    names is not part of the statement). *)
Theorem named_needles_independent (self : ImageBasedGauge)
    (c1 c2 : needle_call) :
  (forall other : string,
      other <> call_name c1 ->
      named_needles (call self c1) !! other = named_needles self !! other) /\
  set_named_needles (named_needles self) (call self c1) = self /\
  (call_name c1 <> call_name c2 ->
   forall name : string,
     named_needles (call (call self c1) c2) !! name
     = named_needles (call (call self c2) c1) !! name).
Proof.
  assert (forall (s : ImageBasedGauge) (c : needle_call) (other : string),
             other <> call_name c ->
             named_needles (call s c) !! other = named_needles s !! other)
    as Hother.
  { intros s [n v|n sc|n] other Hne; cbn [call call_name] in *.
    - unfold set_named_needle_value.
      destruct (named_needles s !! n);
        cbn [named_needles set_named_needles];
        now rewrite lookup_insert_ne by auto.
    - unfold set_named_needle_scale.
      destruct (named_needles s !! n);
        cbn [named_needles set_named_needles];
        now rewrite lookup_insert_ne by auto.
    - unfold delete_named_needle.
      destruct (named_needles s !! n); [|reflexivity].
      cbn [named_needles set_named_needles].
      now rewrite lookup_delete_ne by auto. }
  assert (forall (s s' : ImageBasedGauge) (c : needle_call),
             named_needles s !! call_name c = named_needles s' !! call_name c ->
             named_needles (call s c) !! call_name c
             = named_needles (call s' c) !! call_name c) as Hown.
  { intros s s' [n v|n sc|n] E; cbn [call call_name] in *.
    - unfold set_named_needle_value. rewrite <- E.
      destruct (named_needles s !! n);
        cbn [named_needles set_named_needles];
        now rewrite !lookup_insert_eq.
    - unfold set_named_needle_scale. rewrite <- E.
      destruct (named_needles s !! n);
        cbn [named_needles set_named_needles];
        now rewrite !lookup_insert_eq.
    - unfold delete_named_needle. rewrite <- E.
      destruct (named_needles s !! n) eqn:E'.
      + cbn [named_needles set_named_needles]. now rewrite !lookup_delete_eq.
      + now rewrite E', <- E. }
  split; [apply Hother|]. split.
  - destruct self, c1 as [n v|n sc|n]; cbn [call];
      unfold set_named_needle_value, set_named_needle_scale,
        delete_named_needle;
      cbn [named_needles];
      match goal with
      | |- context [?m !! n] => destruct (m !! n)
      end; reflexivity.
  - intros Hne name.
    destruct (decide (name = call_name c2)) as [->|H2].
    + rewrite (Hother (call self c2) c1) by auto.
      apply Hown. apply Hother. auto.
    + rewrite (Hother (call self c1) c2) by auto.
      destruct (decide (name = call_name c1)) as [->|H1].
      * apply Hown. symmetry. apply Hother. auto.
      * now rewrite !Hother by auto.
Qed.

(** A new needle given a value and the deletion of another one, on a
    gauge with the needle ["oil"], as an instance of X15. *)
Lemma named_needles_independent_fresh_gauge :
  let self := set_named_needle_value fresh_gauge "oil" 60 in
  let c1 := call_set_value "boost" 40 in
  let c2 := call_delete "oil" in
  (forall other : string,
      other <> "boost"%string ->
      named_needles (call self c1) !! other = named_needles self !! other) /\
  set_named_needles (named_needles self) (call self c1) = self /\
  (forall name : string,
      named_needles (call (call self c1) c2) !! name
      = named_needles (call (call self c2) c1) !! name).
Proof.
  intros self c1 c2.
  destruct (named_needles_independent self c1 c2) as (H1 & H2 & H3).
  split; [exact H1|]. split; [exact H2|].
  apply H3. discriminate.
Defined.

(** X16.  The linear mapping of a named needle outside its assumed
    domain [0, 100].  A value at or below 0, like a missing value, is
    drawn at 270 degrees.  A value above 100 is not clamped: the angle
    keeps falling below 90 degrees and is negative above 150. *)
Theorem named_needle_angle_outside_domain (d : needle_data) :
  let v := default 0 (nd_value d) in
  exists a : Q,
    named_needle_angle d = Ok a /\
    (v <= 0 -> a == 270) /\
    (100 < v -> a == 270 - 180 * (v / 100) /\ a < 90) /\
    (150 < v -> a < 0).
Proof.
  intros v.
  destruct (ImageGaugeFacts.named_needle_angle_ok d) as (a & Ha & Hlow & Hup).
  fold v in Hlow, Hup. exists a. split; [exact Ha|]. split; [exact Hlow|].
  assert (v == 100 * (v / 100)) as E by (field; lra).
  split; intros Hv; rewrite Hup by lra.
  - split; [reflexivity|]. set (q := v / 100) in *. clearbody q. lra.
  - set (q := v / 100) in *. clearbody q. lra.
Qed.

(** X17.  The PNG needle with a calibrated length.  When the needle
    length, the tip radius and the display scale are all there and not
    zero, [_rotate_and_draw_needle] scales the needle image by the
    factor that makes the calibrated length of the needle equal to the
    tip radius times the display scale times the needle scale, turns it
    by the angle less the base angle, and never lets a side of the
    scaled image fall below one pixel. *)
Theorem pixmap_needle_calibrated_size (self : ImageBasedGauge) (pm : QPixmap)
    (len tip angle radius : Q) :
  is_svg_needle self = false ->
  needle_pixmap self = Some pm ->
  isNull pm = false ->
  needle_length_px self = Some len -> ~ len == 0 ->
  desired_tip_radius_px self = Some tip -> ~ tip == 0 ->
  ~ gauge_display_scale self == 0 ->
  exists (scale : Q) (scaled_width scaled_height : Z),
    scale * len == tip * gauge_display_scale self * needle_scale self /\
    scaled_width = Z.max 1 (Py.int (inject_Z (width pm) * scale)) /\
    scaled_height = Z.max 1 (Py.int (inject_Z (height pm) * scale)) /\
    (1 <= scaled_width)%Z /\ (1 <= scaled_height)%Z /\
    _rotate_and_draw_needle self angle radius
    = Ok (Some (mkDraw (PixmapScaled scaled_width scaled_height)
                       (angle - needle_base_angle self))).
Proof.
  intros Hsvg Hpm Hnull Hlen Hlen0 Htip Htip0 Hds.
  exists (tip * gauge_display_scale self * needle_scale self / len).
  eexists _, _. split; [field; exact Hlen0|].
  split; [reflexivity|]. split; [reflexivity|].
  split; [lia|]. split; [lia|].
  unfold _rotate_and_draw_needle. rewrite Hsvg, Hpm, Hnull. cbn [andb].
  unfold pixmap_size. rewrite Hlen, Htip. cbn [Py.truthy_opt fmap option_fmap
                                               option_map].
  unfold Py.truthy.
  rewrite (bool_decide_eq_true_2 (~ tip == 0)) by assumption.
  rewrite (bool_decide_eq_true_2 (~ gauge_display_scale self == 0))
    by assumption.
  rewrite (bool_decide_eq_true_2 (~ len == 0)) by assumption.
  cbn [andb].
  rewrite (bool_decide_eq_true_2 (~ tip * gauge_display_scale self == 0)).
  2:{ intros H. apply Qmult_integral in H as [|]; contradiction. }
  cbn [andb]. now rewrite ImageGaugeFacts.div_ok.
Qed.

(** A 40 x 370 needle of calibrated length 340 on a gauge with tip
    radius 400 shown at half size, as an instance of X17. *)
Lemma pixmap_needle_calibrated_size_half :
  let self := set_gauge_display_scale 0.5
                (set_desired_tip_radius_px (Some 400)
                   (set_needle_length_px (Some 340) fresh_gauge)) in
  exists (scale : Q) (scaled_width scaled_height : Z),
    scale * 340 == 400 * gauge_display_scale self * needle_scale self /\
    scaled_width = Z.max 1 (Py.int (inject_Z 40 * scale)) /\
    scaled_height = Z.max 1 (Py.int (inject_Z 370 * scale)) /\
    (1 <= scaled_width)%Z /\ (1 <= scaled_height)%Z /\
    _rotate_and_draw_needle self 270 540
    = Ok (Some (mkDraw (PixmapScaled scaled_width scaled_height)
                       (270 - needle_base_angle self))).
Proof.
  apply (pixmap_needle_calibrated_size
           (set_gauge_display_scale 0.5
              (set_desired_tip_radius_px (Some 400)
                 (set_needle_length_px (Some 340) fresh_gauge)))
           (mkPixmap false 40 370) 340 400 270 540);
    first [reflexivity | discriminate].
Defined.

(** X18.  [set_needle_center] and [set_needle_pivot] clamp both
    fractions into [0, 1]: whatever is passed, the stored fractions lie
    between 0 and 1, and fractions that already do are stored as they
    are.  Both methods store the same pair for the same arguments. *)
Theorem needle_fractions_clamped (self : ImageBasedGauge) (x y : Q) :
  let c := needle_center_offset (set_needle_center self x y) in
  let p := needle_pivot (set_needle_pivot self x y) in
  (0 <= c.1 /\ c.1 <= 1 /\ 0 <= c.2 /\ c.2 <= 1) /\
  (0 <= p.1 /\ p.1 <= 1 /\ 0 <= p.2 /\ p.2 <= 1) /\
  c = p /\
  (0 <= x -> x <= 1 -> c.1 == x) /\
  (0 <= y -> y <= 1 -> c.2 == y) /\
  (x <= 0 -> c.1 == 0) /\ (1 <= x -> c.1 == 1).
Proof.
  cbn [set_needle_center set_needle_pivot needle_center_offset needle_pivot
       set_needle_center_offset ImageGauge.set_needle_pivot fst snd].
  unfold Py.max, Py.min.
  destruct (decide (1.0 < x)), (decide (1.0 < y));
    (split; [|split; [|split; [reflexivity|]]]);
    repeat split; intros;
    repeat match goal with
           | |- context [decide ?P] => destruct (decide P)
           end; lra.
Qed.

End Needles.
(** * Beyond the claims: the value shown and the paint event *)

Section Widgets.
Import Examples MoreExamples Predicates ImageGauge GaugeWidget.

Local Abbreviation compass := AngleCalc.atan2_degrees_compass.

(** X19.  [_smooth_value] closes in on the target geometrically: after
    [n] steps with an unchanged target the distance of the value to the
    target is the initial distance times [(1 - smoothing_factor) ^ n]
    (with the factor 0.2 of [__init__]: times 0.8 per paint event).
    With a factor between 0 and 1 the value never overshoots: it stays
    within any bounds that hold both the value and the target. *)
Theorem smooth_value_converges (self : display) (n : nat) :
  let f := smoothing_factor self in
  let after := Nat.iter n _smooth_value self in
  target_value after = target_value self /\
  value after - target_value self
  == (1 - f) ^ Z.of_nat n * (value self - target_value self) /\
  (forall lo hi : Q,
      0 <= f -> f <= 1 ->
      lo <= value self -> value self <= hi ->
      lo <= target_value self -> target_value self <= hi ->
      lo <= value after /\ value after <= hi).
Proof.
  intros f after. unfold after. clear after.
  induction n as [|n (IHt & IHv & IHb)].
  - split; [reflexivity|]. split; [|auto].
    change (Nat.iter 0 _smooth_value self) with self.
    change ((1 - f) ^ Z.of_nat 0) with 1. ring.
  - destruct (GaugeWidgetFacts.iter_smooth_keeps n self) as [Kt Kf].
    change (Nat.iter (S n) _smooth_value self)
      with (_smooth_value (Nat.iter n _smooth_value self)).
    split; [exact IHt|]. split.
    + cbn [_smooth_value set_value value]. rewrite Kt, Kf. fold f.
      rewrite Nat2Z.inj_succ. unfold Z.succ.
      rewrite Qpower_plus' by lia. rewrite Qpower_1_r.
      set (v := value (Nat.iter n _smooth_value self)) in *.
      set (p := (1 - f) ^ Z.of_nat n) in *. clearbody v p.
      set (t := target_value self) in *. set (v0 := value self) in *.
      clearbody t v0.
      assert (v == t + p * (v0 - t)) as -> by lra. ring.
    + intros lo hi Hf0 Hf1 Hv0 Hv1 Ht0 Ht1.
      destruct (IHb lo hi Hf0 Hf1 Hv0 Hv1 Ht0 Ht1) as [Hl Hh].
      apply GaugeWidgetFacts.smooth_value_between;
        rewrite ?Kt, ?Kf; assumption.
Qed.

(** A display as [__init__] leaves it, aimed at 100, after three paint
    events, as an instance of X19. *)
Lemma smooth_value_converges_three_steps :
  let self := set_target_value 100 (mkDisplay (mkPixmap false 1080 1080)
                                              0 0 0.2 false) in
  let after := Nat.iter 3 _smooth_value self in
  target_value after = 100 /\
  value after - 100 == (1 - 0.2) ^ 3 * (0 - 100) /\
  (forall lo hi : Q,
      0 <= 0.2 -> 0.2 <= 1 ->
      lo <= 0 -> 0 <= hi -> lo <= 100 -> 100 <= hi ->
      lo <= value after /\ value after <= hi).
Proof.
  exact (smooth_value_converges
           (set_target_value 100 (mkDisplay (mkPixmap false 1080 1080)
                                            0 0 0.2 false)) 3).
Defined.

(** X20.  The value a gauge shows never leaves its range.  On each of
    the three gauges the value and its target start at 0 and stay
    between 0 and the gauge's maximum (8000 rpm, 260 km/h, 100 %)
    through every call of the setter, which clamps, and every paint
    event, which smooths.  So without a calibration the needle stays on
    its hard-coded sweep: from 270 down to -9 degrees on the tachometer,
    from 240 down to -60 on the speedometer, from 180 down to 90 on the
    fuel gauge. *)
Theorem shown_value_stays_in_range :
  ((forall (bg : QPixmap) (needle : option artwork),
       in_range ImageTachometer.max_rpm (shown (GaugeWidget.init bg needle))) /\
   (forall (self : Widget) (rpm : Q),
       in_range ImageTachometer.max_rpm (shown self) ->
       in_range ImageTachometer.max_rpm
                (shown (ImageTachometer.set_rpm self rpm))) /\
   (forall (atan2_degrees : Q -> Q -> Q)
           (scaledToWidth scaledToHeight : QPixmap -> Z -> QPixmap)
           (fuel : nat) (width height : Z) (self : Widget),
       in_range ImageTachometer.max_rpm (shown self) ->
       in_range ImageTachometer.max_rpm
                (shown (ImageTachometer.paintEvent atan2_degrees scaledToWidth
                          scaledToHeight fuel width height self).1)) /\
   (forall (atan2_degrees : Q -> Q -> Q) (fuel : nat) (self : Widget),
       in_range ImageTachometer.max_rpm (shown self) ->
       angle_calculator (gauge self) = None ->
       exists a : Q,
         ImageTachometer.needle_angle atan2_degrees fuel self = Ok a /\
         a == 270 - 279 * (value (shown self) / 8000) /\
         -9 <= a /\ a <= 270)) /\
  ((forall (bg : QPixmap) (needle : option artwork),
       in_range ImageSpeedometer.max_speed
                (shown (GaugeWidget.init bg needle))) /\
   (forall (self : Widget) (speed : Q),
       in_range ImageSpeedometer.max_speed (shown self) ->
       in_range ImageSpeedometer.max_speed
                (shown (ImageSpeedometer.set_speed self speed))) /\
   (forall (atan2_degrees : Q -> Q -> Q)
           (scaledToWidth scaledToHeight : QPixmap -> Z -> QPixmap)
           (fuel : nat) (width height : Z) (self : Widget),
       in_range ImageSpeedometer.max_speed (shown self) ->
       in_range ImageSpeedometer.max_speed
                (shown (ImageSpeedometer.paintEvent atan2_degrees scaledToWidth
                          scaledToHeight fuel width height self).1)) /\
   (forall (atan2_degrees : Q -> Q -> Q) (fuel : nat) (self : Widget),
       in_range ImageSpeedometer.max_speed (shown self) ->
       angle_calculator (gauge self) = None ->
       exists a : Q,
         ImageSpeedometer.needle_angle atan2_degrees fuel self = Ok a /\
         a == 240 - 300 * (value (shown self) / 260) /\
         -60 <= a /\ a <= 240)) /\
  ((forall (bg : QPixmap) (needle : option artwork),
       in_range 100 (FuelGaugeWidget.fuel_shown
                       (FuelGaugeWidget.init bg needle))) /\
   (forall (self : FuelGaugeWidget.FuelWidget) (percentage : Q),
       in_range 100 (FuelGaugeWidget.fuel_shown self) ->
       in_range 100 (FuelGaugeWidget.fuel_shown
                       (FuelGaugeWidget.set_fuel self percentage))) /\
   (forall (atan2_degrees : Q -> Q -> Q)
           (scaledToWidth scaledToHeight : QPixmap -> Z -> QPixmap)
           (fuel : nat) (width height : Z)
           (self : FuelGaugeWidget.FuelWidget),
       in_range 100 (FuelGaugeWidget.fuel_shown self) ->
       in_range 100
         (FuelGaugeWidget.fuel_shown
            (FuelGaugeWidget.paintEvent atan2_degrees scaledToWidth
               scaledToHeight fuel width height self).1)) /\
   (forall (atan2_degrees : Q -> Q -> Q) (fuel : nat)
           (self : FuelGaugeWidget.FuelWidget),
       in_range 100 (FuelGaugeWidget.fuel_shown self) ->
       fuel_angle_calculator (FuelGaugeWidget.dual self) = None ->
       exists a : Q,
         FuelGaugeWidget.fuel_needle_angle atan2_degrees fuel self = Ok a /\
         a == 180 - 90 * (value (FuelGaugeWidget.fuel_shown self) / 100) /\
         90 <= a /\ a <= 180)).
Proof.
  assert (forall max (d : display), 0 <= max -> in_range max d ->
                                    in_range max (_smooth_value d)) as Hsmooth.
  { intros max d Hmax ((Hv0 & Hv1) & (Ht0 & Ht1) & (Hf0 & Hf1)).
    split; [|split; [split; assumption|split; assumption]].
    now apply GaugeWidgetFacts.smooth_value_between. }
  assert (forall max (d : display) (v : Q), 0 <= max -> in_range max d ->
            in_range max (set_target_value (Py.max 0 (Py.min v max)) d))
    as Hset.
  { intros max d v Hmax (Hv & _ & Hf).
    split; [exact Hv|]. split; [|exact Hf].
    now apply GaugeWidgetFacts.clamp_between. }
  assert (forall max bg needle, 0 <= max ->
            in_range max (shown (GaugeWidget.init bg needle))) as Hinit.
  { intros max bg needle Hmax. unfold in_range, GaugeWidget.init.
    cbn [shown value target_value smoothing_factor].
    repeat split; lra. }
  split; [|split]; (split; [|split; [|split]]).
  - intros bg needle. now apply Hinit.
  - intros self rpm. now apply Hset.
  - intros atan2_degrees stw sth fuel width height self Hin.
    rewrite GaugeWidgetFacts.tachometer_paintEvent_run.
    destruct (GaugeWidgetFacts.paint_frame_ok stw sth width height self)
      as (g & fr & -> & _).
    now apply Hsmooth.
  - intros atan2_degrees fuel self ((Hv0 & Hv1) & _) Hnone.
    unfold ImageTachometer.needle_angle. rewrite Hnone.
    rewrite ImageGaugeFacts.div_ok by discriminate.
    eexists. split; [reflexivity|]. unfold ImageTachometer.max_rpm in *.
    set (v := value (shown self)) in *. clearbody v.
    assert (v == 8000 * (v / 8000)) as E by (field; lra).
    set (q := v / 8000) in *. clearbody q. repeat split; lra.
  - intros bg needle. now apply Hinit.
  - intros self speed. now apply Hset.
  - intros atan2_degrees stw sth fuel width height self Hin.
    rewrite GaugeWidgetFacts.speedometer_paintEvent_run.
    destruct (GaugeWidgetFacts.paint_frame_ok stw sth width height self)
      as (g & fr & -> & _).
    now apply Hsmooth.
  - intros atan2_degrees fuel self ((Hv0 & Hv1) & _) Hnone.
    unfold ImageSpeedometer.needle_angle. rewrite Hnone.
    rewrite ImageGaugeFacts.div_ok by discriminate.
    eexists. split; [reflexivity|]. unfold ImageSpeedometer.max_speed in *.
    set (v := value (shown self)) in *. clearbody v.
    assert (v == 260 * (v / 260)) as E by (field; lra).
    set (q := v / 260) in *. clearbody q. repeat split; lra.
  - intros bg needle. apply (Hinit 100 bg needle). lra.
  - intros self percentage. apply Hset. lra.
  - intros atan2_degrees stw sth fuel width height self Hin.
    destruct (GaugeWidgetFacts.fuel_paintEvent_run atan2_degrees stw sth
                width height self) as (self' & ? & ? & ? & ? & Hrun & Hs & _).
    rewrite Hrun. cbn [fst]. rewrite Hs. apply Hsmooth; [lra|exact Hin].
  - intros atan2_degrees fuel self ((Hv0 & Hv1) & _) Hnone.
    unfold FuelGaugeWidget.fuel_needle_angle. rewrite Hnone.
    rewrite ImageGaugeFacts.div_ok by discriminate.
    eexists. split; [reflexivity|].
    set (v := value (FuelGaugeWidget.fuel_shown self)) in *. clearbody v.
    assert (v == 100 * (v / 100)) as E by (field; lra).
    set (q := v / 100) in *. clearbody q. repeat split; lra.
Qed.

(** A fresh tachometer told 9000 rpm and painted once, as an instance of
    X20. *)
Lemma shown_value_stays_in_range_tachometer :
  in_range ImageTachometer.max_rpm
    (shown (ImageTachometer.paintEvent compass scaled_to_width scaled_to_height
              1 1080 1080 (ImageTachometer.set_rpm fresh_widget 9000)).1).
Proof.
  apply (proj1 (proj2 (proj2 (proj1 shown_value_stays_in_range)))).
  apply (proj1 (proj2 (proj1 shown_value_stays_in_range))).
  apply (proj1 (proj1 shown_value_stays_in_range)).
Defined.

(** X21.  A paint event of the tachometer or of the speedometer never
    divides by zero, never indexes outside a list and never misses a
    key, for every state of the widget and every widget size, and the
    loops of the calculator finish: the exceptions of the model
    ([ZeroDivisionError], [IndexError], [KeyError]) cannot occur, for
    the main needle or for any named needle.  (The model computes in
    exact arithmetic; an overflow of a float inside [int ()] is outside
    it.)  The shown value takes one smoothing step. *)
Theorem paint_event_never_divides_by_zero (atan2_degrees : Q -> Q -> Q)
    (scaledToWidth scaledToHeight : QPixmap -> Z -> QPixmap)
    (width height : Z) (self : Widget) :
  (exists (n : nat) (self' : Widget) (fr : frame) (drawn : option needle_draw),
      (forall fuel : nat,
          (n <= fuel)%nat ->
          ImageTachometer.paintEvent atan2_degrees scaledToWidth scaledToHeight
            fuel width height self
          = (self',
             Ok (mkPainted fr (Ok drawn)
                   (_draw_all_named_needles (gauge self') (radius fr))))) /\
      (forall (name : string) (r : res (option needle_draw)),
          _draw_all_named_needles (gauge self') (radius fr) !! name = Some r ->
          exists d, r = Ok d) /\
      shown self' = _smooth_value (shown self)) /\
  (exists (n : nat) (self' : Widget) (fr : frame) (drawn : option needle_draw),
      (forall fuel : nat,
          (n <= fuel)%nat ->
          ImageSpeedometer.paintEvent atan2_degrees scaledToWidth scaledToHeight
            fuel width height self
          = (self',
             Ok (mkPainted fr (Ok drawn)
                   (_draw_all_named_needles (gauge self') (radius fr))))) /\
      (forall (name : string) (r : res (option needle_draw)),
          _draw_all_named_needles (gauge self') (radius fr) !! name = Some r ->
          exists d, r = Ok d) /\
      shown self' = _smooth_value (shown self)).
Proof.
  destruct (GaugeWidgetFacts.paint_frame_ok scaledToWidth scaledToHeight
              width height self) as (g & fr & Hfr & Hg).
  set (self' := mkWidget g (_smooth_value (shown self))) in *.
  split.
  - destruct (GaugeWidgetFacts.tachometer_needle_angle_returns atan2_degrees
                self') as (a & [n Hn] & _).
    destruct (ImageGaugeFacts.rotate_and_draw_needle_ok (gauge self') a
                (radius fr)) as [drawn Hdrawn].
    exists n, self', fr, drawn. split; [|split].
    + intros fuel Hfuel.
      rewrite GaugeWidgetFacts.tachometer_paintEvent_run, Hfr.
      unfold ImageTachometer._draw_needle.
      now rewrite (Hn fuel Hfuel), Hdrawn.
    + intros name r. apply GaugeWidgetFacts.draw_all_named_needles_ok.
    + reflexivity.
  - destruct (GaugeWidgetFacts.speedometer_needle_angle_returns atan2_degrees
                self') as (a & [n Hn] & _).
    destruct (ImageGaugeFacts.rotate_and_draw_needle_ok (gauge self') a
                (radius fr)) as [drawn Hdrawn].
    exists n, self', fr, drawn. split; [|split].
    + intros fuel Hfuel.
      rewrite GaugeWidgetFacts.speedometer_paintEvent_run, Hfr.
      unfold ImageSpeedometer._draw_needle.
      now rewrite (Hn fuel Hfuel), Hdrawn.
    + intros name r. apply GaugeWidgetFacts.draw_all_named_needles_ok.
    + reflexivity.
Qed.

(** X22.  Where a paint event puts a calibrated needle.  After a
    successful [load_v2_calibration] on a gauge whose background image
    has a non-zero size, a paint event sets the display scale to the
    width the background is drawn at over the width of the image, and
    turns the needle about the calibrated gauge pivot carried over to the
    drawn background: the corner of the drawn background plus the pivot
    pixel times the display scale (times the ratio of the heights for
    the second coordinate).  The radius is half the shorter side of the
    drawn background. *)
Theorem paint_places_calibrated_pivot (atan2_degrees : Q -> Q -> Q)
    (pow_half : Q -> Q) (AngleCalculator_imported : bool)
    (scaledToWidth scaledToHeight : QPixmap -> Z -> QPixmap)
    (calibration_data : gmap string needle_cal) (needle_id : string)
    (cal : needle_cal) (self self' : Widget) (g : ImageBasedGauge)
    (fr : frame) (width height bg_width bg_height : Z) :
  let gx := default 0 (cal_gauge_pivot_x cal) in
  let gy := default 0 (cal_gauge_pivot_y cal) in
  let scaled_pixmap :=
    fit_background scaledToWidth scaledToHeight (bg_pixmap (shown self))
      width height in
  let gauge_width := ImageGauge.width scaled_pixmap in
  let gauge_height := ImageGauge.height scaled_pixmap in
  let x := inject_Z (width - gauge_width) / 2 in
  let y := inject_Z (height - gauge_height) / 2 in
  isNull (bg_pixmap (shown self)) = false ->
  gauge_bg_width (gauge self) = Some bg_width ->
  gauge_bg_height (gauge self) = Some bg_height ->
  bg_width <> 0%Z -> bg_height <> 0%Z ->
  calibration_data !! needle_id = Some cal ->
  load_v2_calibration atan2_degrees pow_half AngleCalculator_imported
    calibration_data needle_id (gauge self) = (g, Ok true) ->
  paint_frame scaledToWidth scaledToHeight width height (set_gauge g self)
  = (self', Ok fr) ->
  gauge_display_scale (gauge self') = inject_Z gauge_width / inject_Z bg_width /\
  (center fr).1 == x + gx * gauge_display_scale (gauge self') /\
  (center fr).2 == y + gy * (inject_Z gauge_height / inject_Z bg_height) /\
  radius fr = inject_Z (Z.min gauge_width gauge_height) / 2 /\
  background fr = Some (Py.int x, Py.int y, scaled_pixmap).
Proof.
  intros gx gy scaled_pixmap gauge_width gauge_height x y
         Hnull Hbw Hbh Hw0 Hh0 Hcal Hload Hpaint.
  destruct (ImageGaugeMore.load_v2_calibration_center atan2_degrees pow_half
              calibration_data needle_id cal AngleCalculator_imported
              (gauge self) g bg_width bg_height Hbw Hbh Hw0 Hh0 Hcal Hload)
    as (Hoff & Hgw & Hgh).
  fold gx gy in Hoff.
  rewrite GaugeWidgetFacts.paint_frame_run in Hpaint.
  cbn [shown gauge set_gauge] in Hpaint. rewrite Hnull in Hpaint.
  fold scaled_pixmap gauge_width gauge_height x y in Hpaint.
  injection Hpaint as <- <-.
  cbn [gauge center radius background fst snd gauge_display_scale
       set_gauge_display_scale].
  assert (display_scale_after gauge_width g
          = inject_Z gauge_width / inject_Z bg_width) as ->.
  { unfold display_scale_after. rewrite Hgw.
    now rewrite (proj2 (Z.eqb_neq bg_width 0)). }
  rewrite Hoff. cbn [fst snd].
  assert (~ inject_Z bg_width == 0) by now apply ImageGaugeFacts.inject_Z_nonzero.
  assert (~ inject_Z bg_height == 0)
    by now apply ImageGaugeFacts.inject_Z_nonzero.
  repeat split; try reflexivity.
  - apply Qplus_comp; [reflexivity|]. field. assumption.
  - apply Qplus_comp; [reflexivity|]. field. assumption.
Qed.

(** The 1080 x 1080 tachometer, calibrated with gauge pivot (540, 500)
    and painted into a widget of 540 x 600: the background is drawn at
    540 x 540 from (0, 30) and the needle turns about (270, 280), as an
    instance of X22. *)
Lemma paint_places_calibrated_pivot_half_size :
  let g := (load_v2_calibration compass pow_half_whole true
              {[ "main"%string := offset_cal ]} "main" (gauge fresh_widget)).1 in
  let out := paint_frame scaled_to_width scaled_to_height 540 600
               (set_gauge g fresh_widget) in
  exists fr : frame,
    out.2 = Ok fr /\
    gauge_display_scale (gauge out.1) = inject_Z 540 / inject_Z 1080 /\
    (center fr).1 == 270 /\
    (center fr).2 == 280 /\
    radius fr = inject_Z 540 / 2 /\
    background fr = Some (0%Z, 30%Z, mkPixmap false 540 540).
Proof.
  intros g out.
  destruct (out.2) as [fr| |] eqn:Hout; try (vm_compute in Hout; discriminate).
  exists fr. split; [reflexivity|].
  destruct (paint_places_calibrated_pivot compass pow_half_whole true
              scaled_to_width scaled_to_height
              {[ "main"%string := offset_cal ]} "main"%string offset_cal
              fresh_widget out.1 g fr 540 600 1080 1080)
    as (Hscale & Hx & Hy & Hr & Hb).
  - reflexivity.
  - reflexivity.
  - reflexivity.
  - lia.
  - lia.
  - apply lookup_singleton_eq.
  - vm_compute. reflexivity.
  - rewrite <- Hout. apply surjective_pairing.
  - split; [|split; [|split; [|split]]].
    + rewrite Hscale. vm_compute. reflexivity.
    + rewrite Hx, Hscale. vm_compute. reflexivity.
    + rewrite Hy. vm_compute. reflexivity.
    + rewrite Hr. vm_compute. reflexivity.
    + rewrite Hb. vm_compute. reflexivity.
Defined.

(** X23.  A paint event of the fuel gauge never divides by zero, never
    indexes outside a list and never misses a key either, with its
    second needle: the exceptions of the model ([ZeroDivisionError],
    [IndexError], [KeyError]) cannot occur for the fuel needle, the
    water needle or any named needle, and the loops of both calculators
    finish.  (The model computes in exact arithmetic; an overflow of a
    float inside [int ()] is outside it.)  The fuel value and the water
    value each take one smoothing step, the temperature and the boost
    stay as they are, and without a water calculator no water needle is
    painted. *)
Theorem fuel_paint_event_never_divides_by_zero (atan2_degrees : Q -> Q -> Q)
    (scaledToWidth scaledToHeight : QPixmap -> Z -> QPixmap)
    (width height : Z) (self : FuelGaugeWidget.FuelWidget) :
  exists (n : nat) (self' : FuelGaugeWidget.FuelWidget)
         (drawn : option (Z * Z * QPixmap)) (fc wc : Q * Q) (radius : Q)
         (fuel_drawn water_drawn : option needle_draw),
    (forall fuel : nat,
        (n <= fuel)%nat ->
        FuelGaugeWidget.paintEvent atan2_degrees scaledToWidth scaledToHeight
          fuel width height self
        = (self',
           Ok (FuelGaugeWidget.mkFuelPainted drawn fc wc radius
                 (Ok fuel_drawn) (Ok water_drawn)
                 (_draw_all_named_needles
                    (base (FuelGaugeWidget.dual self')) radius)))) /\
    (forall (name : string) (r : res (option needle_draw)),
        _draw_all_named_needles (base (FuelGaugeWidget.dual self')) radius
          !! name = Some r ->
        exists d, r = Ok d) /\
    (water_angle_calculator (FuelGaugeWidget.dual self) = None ->
     water_drawn = None) /\
    FuelGaugeWidget.fuel_shown self'
    = _smooth_value (FuelGaugeWidget.fuel_shown self) /\
    FuelGaugeWidget.water_value self'
    = FuelGaugeWidget.water_value self
      + (FuelGaugeWidget.water_target_value self
         - FuelGaugeWidget.water_value self)
        * smoothing_factor (FuelGaugeWidget.fuel_shown self) /\
    FuelGaugeWidget.temperature self' = FuelGaugeWidget.temperature self /\
    FuelGaugeWidget.boost self' = FuelGaugeWidget.boost self.
Proof.
  destruct (GaugeWidgetFacts.fuel_paintEvent_run atan2_degrees scaledToWidth
              scaledToHeight width height self)
    as (self' & drawn & fc & wc & radius & Hrun & Hshown & Hwater & _ & Htemp
        & Hboost & Hdual).
  destruct (GaugeWidgetFacts.draw_fuel_needle_returns atan2_degrees self' radius)
    as (fuel_drawn & n1 & Hn1).
  destruct (GaugeWidgetFacts.draw_water_needle_returns atan2_degrees self'
              radius) as (water_drawn & [n2 Hn2] & Hnone).
  exists (Nat.max n1 n2), self', drawn, fc, wc, radius, fuel_drawn, water_drawn.
  split; [|split; [|split]].
  - intros fuel Hfuel. rewrite Hrun.
    now rewrite (Hn1 fuel ltac:(lia)), (Hn2 fuel ltac:(lia)).
  - intros name r. apply GaugeWidgetFacts.draw_all_named_needles_ok.
  - intros Hw. apply Hnone. rewrite Hdual. exact Hw.
  - repeat split; assumption.
Qed.

(** X24.  [load_all_needles_from_file] never registers a named needle.
    It never raises and leaves [named_needles] as it was: for a needle
    of the file with two or more calibration points the loop calls
    [AngleCalculator()] without the pivot it requires, and the
    exception ends the method with [False].  So the method returns
    [True] exactly when the file could be read and no needle other than
    the main one has two calibration points, and in every case it
    leaves the gauge as [load_v2_from_file] does for the main needle. *)
Theorem load_all_needles_registers_none (atan2_degrees : Q -> Q -> Q)
    (pow_half : Q -> Q) (AngleCalculator_imported : bool)
    (file : option GaugeFiles.config) (main_needle_id : string)
    (self : ImageBasedGauge) :
  exists (self' : ImageBasedGauge) (loaded : bool),
    GaugeFiles.load_all_needles_from_file atan2_degrees pow_half
      AngleCalculator_imported file main_needle_id self = (self', Ok loaded) /\
    named_needles self' = named_needles self /\
    self' = (GaugeFiles.load_v2_from_file atan2_degrees pow_half
               AngleCalculator_imported file main_needle_id self).1 /\
    (loaded = true <->
     exists config : GaugeFiles.config,
       file = Some config /\
       forall (needle_id : string) (cal : needle_cal),
         default ∅ (GaugeFiles.needle_calibrations config) !! needle_id
         = Some cal ->
         needle_id <> main_needle_id ->
         (length (default [] (cal_calibration_points cal)) < 2)%nat).
Proof.
  destruct file as [config|].
  2:{ exists self, false. repeat split; try discriminate.
      intros (config & [=] & _). }
  unfold GaugeFiles.load_all_needles_from_file, GaugeFiles.load_v2_from_file.
  set (data := default ∅ (GaugeFiles.needle_calibrations config)).
  destruct (GaugeFilesMore.load_v2_calibration_named atan2_degrees pow_half
              AngleCalculator_imported data main_needle_id self)
    as (s1 & l1 & Hrun & Hnamed).
  assert (GaugeFiles.load_named_needles (map_to_list data) main_needle_id
          = GaugeFiles.Finished <->
          forall (needle_id : string) (cal : needle_cal),
            data !! needle_id = Some cal -> needle_id <> main_needle_id ->
            (length (default [] (cal_calibration_points cal)) < 2)%nat)
    as Hloop.
  { rewrite GaugeFilesMore.load_named_needles_Finished, Forall_forall. split.
    - intros H needle_id cal Hin. apply (H (needle_id, cal)).
      now apply elem_of_map_to_list.
    - intros H [needle_id cal] Hin. apply H.
      now apply elem_of_map_to_list. }
  assert (forall b : bool,
             (b = true <->
              exists config' : GaugeFiles.config,
                Some config = Some config' /\
                forall (needle_id : string) (cal : needle_cal),
                  default ∅ (GaugeFiles.needle_calibrations config')
                    !! needle_id = Some cal ->
                  needle_id <> main_needle_id ->
                  (length (default [] (cal_calibration_points cal)) < 2)%nat)
             <-> (b = true <->
                  GaugeFiles.load_named_needles (map_to_list data)
                    main_needle_id = GaugeFiles.Finished)) as Hiff.
  { intros b. rewrite Hloop. split; intros Hb; rewrite Hb; split.
    - intros (config' & [= <-] & H). exact H.
    - intros H. now exists config.
    - intros H. now exists config.
    - intros (config' & [= <-] & H). exact H. }
  unfold try_except at 2. rewrite Hrun. cbn [fst].
  unfold try_except, bind at 1.
  destruct (data !! main_needle_id) as [cal|] eqn:Hcal.
  - unfold bind at 1. rewrite Hrun. unfold ret at 1.
    exists s1.
    destruct (GaugeFiles.load_named_needles (map_to_list data) main_needle_id)
      eqn:Hl; unfold ret; eexists; (split; [reflexivity|]);
      (split; [exact Hnamed|]); (split; [reflexivity|]); apply Hiff;
      split; congruence.
  - assert (s1 = self) as ->.
    { unfold load_v2_calibration in Hrun. rewrite Hcal in Hrun.
      now injection Hrun. }
    unfold ret at 1. exists self.
    destruct (GaugeFiles.load_named_needles (map_to_list data) main_needle_id)
      eqn:Hl; unfold ret; eexists; (split; [reflexivity|]);
      (split; [reflexivity|]); (split; [reflexivity|]); apply Hiff;
      split; congruence.
Qed.

(** X25.  [load_dual_v2_calibration] treats its two needles differently.
    With a ['fuel'] entry the base gauge is left as [load_v2_calibration]
    leaves it for that entry, failed load or not, and the fuel
    calculator is the calculator of the base gauge; without one neither
    is touched.  The water part assigns water attributes only, and
    without a ['water'] entry the method returns having done the fuel
    part alone.  A water calibration point that lacks a key is not
    caught as it is for the fuel needle: the method raises
    [KeyError]. *)
Theorem load_dual_v2_calibration_sides (atan2_degrees : Q -> Q -> Q)
    (pow_half : Q -> Q) (AngleCalculator_imported : bool)
    (calibration_data : gmap string needle_cal)
    (water_artwork : option artwork) (self : ImageFuelGauge) :
  let out := load_dual_v2_calibration atan2_degrees pow_half
               AngleCalculator_imported calibration_data water_artwork self in
  (is_Some (calibration_data !! "fuel"%string) ->
   base out.1 = (load_v2_calibration atan2_degrees pow_half
                   AngleCalculator_imported calibration_data "fuel"
                   (base self)).1 /\
   fuel_angle_calculator out.1 = angle_calculator (base out.1)) /\
  (calibration_data !! "fuel"%string = None ->
   base out.1 = base self /\
   fuel_angle_calculator out.1 = fuel_angle_calculator self) /\
  (calibration_data !! "water"%string = None ->
   out.2 = Ok tt /\
   out.1 = set_fuel_angle_calculator (fuel_angle_calculator out.1)
             (set_base (base out.1) self)) /\
  (forall water_cal : needle_cal,
      AngleCalculator_imported = true ->
      calibration_data !! "water"%string = Some water_cal ->
      ~ Forall well_formed (default [] (cal_calibration_points water_cal)) ->
      out.2 = Raise KeyError).
Proof.
  intros out. subst out.
  rewrite GaugeFilesMore.load_dual_v2_calibration_run.
  set (after_fuel := match calibration_data !! "fuel"%string with
                     | Some _ => _
                     | None => self
                     end).
  assert (forall (B : Type) (f : ImageFuelGauge -> B),
             (forall v s, f (set_water_angle_calculator v s) = f s) ->
             (forall v s, f (set_water_needle_svg v s) = f s) ->
             (forall v s, f (set_is_water_svg_needle v s) = f s) ->
             (forall v s, f (set_water_needle_pixmap v s) = f s) ->
             (forall v s, f (set_water_needle_scale v s) = f s) ->
             (forall v s, f (set_water_needle_pivot v s) = f s) ->
             (forall v s, f (set_water_needle_length_px v s) = f s) ->
             (forall v s, f (set_water_base_angle v s) = f s) ->
             (forall v s, f (set_water_needle_center_offset v s) = f s) ->
             (forall v s, f (set_water_tip_radius_px v s) = f s) ->
             f (match calibration_data !! "water"%string with
                | Some water_cal =>
                    load_water_calibration atan2_degrees pow_half
                      AngleCalculator_imported water_cal water_artwork
                      after_fuel
                | None => (after_fuel, Ok tt)
                end).1 = f after_fuel) as Hframe.
  { intros B f F1 F2 F3 F4 F5 F6 F7 F8 F9 F10.
    destruct (calibration_data !! "water"%string) as [water_cal|];
      [|reflexivity].
    destruct (load_water_calibration _ _ _ water_cal water_artwork after_fuel)
      as [s r] eqn:Hrun.
    exact (GaugeFilesMore.load_water_calibration_frames atan2_degrees pow_half
             f AngleCalculator_imported water_cal water_artwork
             F1 F2 F3 F4 F5 F6 F7 F8 F9 F10 _ _ _ Hrun). }
  rewrite (Hframe _ base), (Hframe _ fuel_angle_calculator)
    by reflexivity.
  split; [|split; [|split]].
  - intros [cal Hfuel]. subst after_fuel. rewrite Hfuel. split; reflexivity.
  - intros Hfuel. subst after_fuel. rewrite Hfuel. split; reflexivity.
  - intros Hwater. rewrite Hwater. cbn [fst snd]. split; [reflexivity|].
    subst after_fuel.
    destruct (calibration_data !! "fuel"%string); [reflexivity|].
    now destruct self.
  - intros water_cal -> Hwater Hbad. rewrite Hwater.
    now apply GaugeFilesMore.load_water_calibration_KeyError.
Qed.

(** X26.  What the fuel gauge does with boost and temperature.  Both are
    stored clamped, the boost into [0, 2.5] and the temperature into
    [0, 120], and neither attribute is ever painted: a paint event
    draws the same and leaves the same state whatever they hold.  The
    water needle follows the temperature as it was passed, not as it
    was clamped: [set_temperature] makes the unclamped reading the
    target of the water value, and the next paint event moves the water
    value toward it by the smoothing factor. *)
Theorem boost_and_temperature_not_painted (atan2_degrees : Q -> Q -> Q)
    (scaledToWidth scaledToHeight : QPixmap -> Z -> QPixmap)
    (fuel : nat) (width height : Z) (self : FuelGaugeWidget.FuelWidget) :
  let paint := FuelGaugeWidget.paintEvent atan2_degrees scaledToWidth
                 scaledToHeight fuel width height in
  (forall boost : Q,
      0 <= FuelGaugeWidget.boost (FuelGaugeWidget.set_boost self boost) /\
      FuelGaugeWidget.boost (FuelGaugeWidget.set_boost self boost) <= 2.5 /\
      paint (FuelGaugeWidget.set_boost self boost)
      = (FuelGaugeWidget.set_boost (paint self).1 boost, (paint self).2)) /\
  (forall temp : Q,
      let self' := FuelGaugeWidget.set_temperature self temp in
      0 <= FuelGaugeWidget.temperature self' /\
      FuelGaugeWidget.temperature self' <= 120 /\
      FuelGaugeWidget.water_target_value self' = temp /\
      FuelGaugeWidget.water_value (paint self').1
      = FuelGaugeWidget.water_value self
        + (temp - FuelGaugeWidget.water_value self)
          * smoothing_factor (FuelGaugeWidget.fuel_shown self) /\
      (paint self').2
      = (paint (FuelGaugeWidget.set_water_target_value temp self)).2 /\
      FuelGaugeWidget.temperature (paint self').1
      = FuelGaugeWidget.temperature self').
Proof.
  intros paint.
  assert (forall (v : Q) (s : FuelGaugeWidget.FuelWidget),
             paint (FuelGaugeWidget.set_boost_attr v s)
             = (FuelGaugeWidget.set_boost_attr v (paint s).1, (paint s).2))
    as Hboost.
  { intros v [d shown_s t b wv wt]. subst paint.
    unfold FuelGaugeWidget.paintEvent, FuelGaugeWidget.update_display_scale,
      bind, assign, read, when, lift, ret.
    cbn. destruct (isNull (bg_pixmap shown_s)); cbn; [reflexivity|].
    destruct (gauge_bg_width (base d)) as [w|]; cbn; [|reflexivity].
    destruct (w =? 0)%Z; cbn; [reflexivity|].
    destruct (Py.div _ _); reflexivity. }
  assert (forall (v : Q) (s : FuelGaugeWidget.FuelWidget),
             paint (FuelGaugeWidget.set_temperature_attr v s)
             = (FuelGaugeWidget.set_temperature_attr v (paint s).1,
                (paint s).2)) as Htemp.
  { intros v [d shown_s t b wv wt]. subst paint.
    unfold FuelGaugeWidget.paintEvent, FuelGaugeWidget.update_display_scale,
      bind, assign, read, when, lift, ret.
    cbn. destruct (isNull (bg_pixmap shown_s)); cbn; [reflexivity|].
    destruct (gauge_bg_width (base d)) as [w|]; cbn; [|reflexivity].
    destruct (w =? 0)%Z; cbn; [reflexivity|].
    destruct (Py.div _ _); reflexivity. }
  split.
  - intros b. unfold FuelGaugeWidget.set_boost.
    split; [|split; [|apply Hboost]];
      cbn [FuelGaugeWidget.boost FuelGaugeWidget.set_boost_attr];
      apply (GaugeWidgetFacts.clamp_between b 2.5); lra.
  - intros temp self'. subst self'. unfold FuelGaugeWidget.set_temperature.
    split; [|split; [|split; [reflexivity|split; [|split]]]].
    + apply (GaugeWidgetFacts.clamp_between temp 120). lra.
    + apply (GaugeWidgetFacts.clamp_between temp 120). lra.
    + destruct (GaugeWidgetFacts.fuel_paintEvent_run atan2_degrees
                  scaledToWidth scaledToHeight width height
                  (FuelGaugeWidget.set_water_target_value temp
                     (FuelGaugeWidget.set_temperature_attr
                        (Py.max 0 (Py.min temp 120)) self)))
        as (s' & ? & ? & ? & ? & Hrun & _ & Hw & _).
      subst paint. rewrite Hrun. cbn [fst]. exact Hw.
    + change (FuelGaugeWidget.set_water_target_value temp
                (FuelGaugeWidget.set_temperature_attr
                   (Py.max 0 (Py.min temp 120)) self))
        with (FuelGaugeWidget.set_temperature_attr
                (Py.max 0 (Py.min temp 120))
                (FuelGaugeWidget.set_water_target_value temp self)).
      now rewrite Htemp.
    + change (FuelGaugeWidget.set_water_target_value temp
                (FuelGaugeWidget.set_temperature_attr
                   (Py.max 0 (Py.min temp 120)) self))
        with (FuelGaugeWidget.set_temperature_attr
                (Py.max 0 (Py.min temp 120))
                (FuelGaugeWidget.set_water_target_value temp self)).
      now rewrite Htemp.
Qed.

End Widgets.
